(** * DockerManager: a shallow embedding of [test.py] and its verification

    The development follows the Python class [DockerManager]: the port
    scan, the per-tenant configuration, the provisioning sequence
    ([create_container]), the lifecycle manager ([manage_container]) and
    the CPU figure of [get_container_stats].

    Python integers are unbounded, so they are [Z].  Strings are
    [string].  A call that may raise returns a [result]; code that talks
    to the Docker daemon or to the SQLAlchemy session threads a [world]
    through a state-and-exception monad.  The Docker daemon is an
    arbitrary function answering each SDK call, so every theorem about
    the orchestration holds for every behaviour of the daemon. *)

From stdpp Require Import base option list gmap strings pretty.
From Stdlib Require Import ZArith Lia Ascii.

Local Open Scope Z_scope.

(** ** Exceptions *)

(** The exception classes the source names or can meet.  [OtherError]
    stands for any further subclass of [Exception] (a [requests]
    connection error, say). *)
Inductive exn_class :=
  | Exception_
  | RuntimeError
  | OverflowError
  | OSError
  | ZeroDivisionError
  | KeyError
  | AttributeError
  | TypeError
  | IntegrityError
  | DockerException
  | APIError
  | NotFound
  | ImageNotFound
  | BuildError
  | UnboundLocalError
  | OtherError (name : string).

Global Instance exn_class_eq_dec : EqDecision exn_class.
Proof. solve_decision. Defined.

Record exn := { exn_cls : exn_class; exn_msg : string }.

Global Instance exn_eq_dec : EqDecision exn.
Proof. solve_decision. Defined.

(** The direct base class.  In the Docker SDK [ImageNotFound] derives
    from [NotFound], [NotFound] from [APIError], and [APIError] and
    [BuildError] from [DockerException]. *)
Definition base_class (c : exn_class) : option exn_class :=
  match c with
  | Exception_ => None
  | ImageNotFound => Some NotFound
  | NotFound => Some APIError
  | APIError => Some DockerException
  | BuildError => Some DockerException
  | _ => Some Exception_
  end.

Fixpoint subclass_fuel (n : nat) (c target : exn_class) : bool :=
  if decide (c = target) then true
  else match n with
       | O => false
       | S n' => match base_class c with
                 | Some b => subclass_fuel n' b target
                 | None => false
                 end
       end.

(** [isinstance e target]: the test an [except target:] clause makes.
    No chain of base classes is longer than five. *)
Definition isinstance (e : exn) (target : exn_class) : bool :=
  subclass_fuel 5 (exn_cls e) target.

(** [str(e)] *)
Definition str_exn (e : exn) : string := exn_msg e.

Inductive result (A : Type) :=
  | Ok (a : A)
  | Raise (e : exn).
Arguments Ok {A} a.
Arguments Raise {A} e.

(** ** Port allocator *)

Module PortAllocator.
(** A TCP port number. *)
Definition valid_port (p : Z) : Prop := 0 <= p <= 65535.

Section Scan.
(** The host at the time of the scan: [in_use p] when the operating
    system refuses to bind port [p], because a socket already holds it
    or because the process may not have it. *)
Variable in_use : Z -> bool.

(** [sock.bind(('', port))].  CPython rejects a port outside
    [0, 65535] with [OverflowError] before it reaches the operating
    system; a port that is taken gives [OSError]. *)
Definition sock_bind (port : Z) : result unit :=
  if (port <? 0) || (65535 <? port) then
    Raise {| exn_cls := OverflowError;
             exn_msg := "bind(): port must be 0-65535." |}
  else if in_use port then
    Raise {| exn_cls := OSError; exn_msg := "Address already in use" |}
  else Ok tt.

Definition _is_port_available (port : Z) : result bool :=
  match sock_bind port with
  | Ok _ => Ok true
  | Raise e => if isinstance e OSError then Ok false else Raise e
  end.

(** The [for port in range(...)] loop: [n] ports are left to try,
    the next one is [port]. *)
Fixpoint scan_range (n : nat) (port : Z) : result (option Z) :=
  match n with
  | O => Ok None
  | S n' =>
      match _is_port_available port with
      | Raise e => Raise e
      | Ok true => Ok (Some port)
      | Ok false => scan_range n' (port + 1)
      end
  end.

Definition no_port_error (start_port max_attempts : Z) : exn :=
  {| exn_cls := RuntimeError;
     exn_msg := "No available ports found in range " +:+ pretty start_port
                +:+ "-" +:+ pretty (start_port + max_attempts) |}.

Definition _get_next_available_port (start_port max_attempts : Z) : result Z :=
  match scan_range (Z.to_nat max_attempts) start_port with
  | Raise e => Raise e
  | Ok (Some port) => Ok port
  | Ok None => Raise (no_port_error start_port max_attempts)
  end.
End Scan.
End PortAllocator.

(** ** Tenant configuration *)

(** What the derivation asks of the object it is given as [user_id]:
    [int(user_id)], which raises for an object that is no number and
    for a text that spells none, and the rendering of the object in an
    f-string.  The interpreter owns both, so the derivation is followed
    for every type of identifier and every interpretation of the two
    operations. *)
Class TenantId (V : Type) := {
  py_int : V -> result Z;
  py_format : V -> result string
}.

(** An [int]: [int(n)] is [n], and an f-string prints [n] in decimal.
    The interpreter's optional limit on the length of a decimal
    conversion is taken as switched off. *)
#[global] Instance int_tenant_id : TenantId Z :=
  {| py_int n := Ok n; py_format n := Ok (pretty n) |}.

Definition _generate_unique_config {V : Type} `{!TenantId V} (user_id : V)
  : result (Z * string * string) :=
  match py_int user_id with
  | Raise e => Raise e
  | Ok n =>
      let port := 5000 + n in
      match py_format user_id with
      | Raise e => Raise e
      | Ok text =>
          let db_name := "db_" +:+ text in
          match py_format user_id with
          | Raise e => Raise e
          | Ok text' =>
              let project_name := "cyber_" +:+ text' in
              Ok (port, db_name, project_name)
          end
      end
  end.

(** ** Values exchanged with the Docker SDK *)

(** A decoded JSON document: the stats payload and the values in the
    chunks of a build log.  The daemon reports counters as integers. *)
#[local] Set Warnings "-register-all".
Inductive json :=
  | JNull
  | JBool (b : bool)
  | JInt (z : Z)
  | JStr (s : string)
  | JList (l : list json)
  | JObj (fields : list (string * json)).

(** A Python [dict] with string keys, in insertion order. *)
Fixpoint dict_get {A} (k : string) (d : list (string * A)) : option A :=
  match d with
  | [] => None
  | (k', v) :: d' => if decide (k' = k) then Some v else dict_get k d'
  end.

(** The part of a [docker.models.containers.Container] the source reads. *)
Record Container := { ct_id : string; ct_name : string }.

Global Instance Container_eq_dec : EqDecision Container.
Proof. solve_decision. Defined.

Inductive port_key :=
  | PortNumber (n : Z)
  | PortProto (s : string).

Record volume_bind := { bind : string; mode : string }.

(** The keyword arguments of [client.containers.run]. *)
Record run_kwargs := {
  image : string;
  name : string;
  detach : bool;
  environment : list (string * string);
  volumes : list (string * volume_bind);
  ports : list (port_key * option Z);
  restart_policy : list (string * string);
  network : string
}.

(** One call of the Docker SDK, with its arguments. *)
Inductive call :=
  | FromEnv
  | NetworksGet (network_name : string)
  | NetworksCreate (network_name driver : string)
  | ContainersList (all : bool) (name_filter : string)
  | ContainerRemove (c : Container) (force : bool)
  | VolumesList (name_filter : string)
  | VolumesCreate (volume_name : string)
  | ContainersRun (kw : run_kwargs)
  | ImagesGet (tag : string)
  | ImagesBuild (path dockerfile tag : string) (rm : bool)
  | ContainersGet (container_id : string)
  | ContainerStart (c : Container)
  | ContainerStop (c : Container)
  | ContainerRestart (c : Container)
  | ContainerStats (c : Container) (stream : bool).

(** What each call returns when it does not raise. *)
Definition ret (c : call) : Type :=
  match c with
  | ContainersList _ _ => list Container
  | VolumesList _ => list string
  | ContainersRun _ => Container
  | ImagesBuild _ _ _ _ => (string * list (list (string * json)))%type
  | ContainersGet _ => Container
  | ContainerStats _ _ => json
  | _ => unit
  end.

(** The daemon behind the SDK: any state [D] and any answer to each
    call, an exception included. *)
Class DockerRuntime (D : Type) :=
  runtime : forall c : call, D -> result (ret c) * D.

(** The calls that change what a container is doing. *)
Definition lifecycle_call (c : call) : bool :=
  match c with
  | ContainerStart _ | ContainerStop _ | ContainerRestart _
  | ContainerRemove _ _ => true
  | _ => false
  end.

(** ** Persistence *)

(** The object the source builds with [ContainerManager(...)]. *)
Record ContainerManager := {
  user_id : Z;
  container_id : string;
  port : Z;
  db_name : string;
  plan : string;
  status : string
}.

(** The columns of a row besides its key. *)
Record columns := {
  col_user_id : Z;
  col_port : Z;
  col_db_name : string;
  col_plan : string;
  col_status : string
}.

Definition columns_of (r : ContainerManager) : columns :=
  {| col_user_id := user_id r; col_port := port r; col_db_name := db_name r;
     col_plan := plan r; col_status := status r |}.

Definition object_of (cid : string) (c : columns) : ContainerManager :=
  {| user_id := col_user_id c; container_id := cid; port := col_port c;
     db_name := col_db_name c; plan := col_plan c; status := col_status c |}.

Definition set_status (s : string) (c : columns) : columns :=
  {| col_user_id := col_user_id c; col_port := col_port c;
     col_db_name := col_db_name c; col_plan := col_plan c; col_status := s |}.

Definition set_plan (p : string) (c : columns) : columns :=
  {| col_user_id := col_user_id c; col_port := col_port c;
     col_db_name := col_db_name c; col_plan := p; col_status := col_status c |}.

(** What the session holds until the next commit. *)
Inductive pending_op :=
  | PendingAdd (r : ContainerManager)
  | PendingStatus (cid : string) (s : string)
  | PendingDelete (cid : string).

(** Modelled from the spec: the [ContainerManager] table of
    [models/container_manager.py], which is not among the sources.  The
    spec gives the six fields and says that [container_id] is unique per
    record, so the committed table maps each [container_id] to the other
    columns.  [commits] counts the commits that went through. *)
Record session := {
  rows : gmap string columns;
  pending : list pending_op;
  commits : nat
}.

(** Applying the pending operations in order; [None] when an insert
    meets a row with the same [container_id]. *)
Fixpoint flush (ops : list pending_op) (t : gmap string columns)
  : option (gmap string columns) :=
  match ops with
  | [] => Some t
  | PendingAdd r :: ops' =>
      match t !! container_id r with
      | Some _ => None
      | None => flush ops' (<[container_id r := columns_of r]> t)
      end
  | PendingStatus cid s :: ops' => flush ops' (alter (set_status s) cid t)
  | PendingDelete cid :: ops' => flush ops' (delete cid t)
  end.

(** ** The world and its monad *)

Record world (D : Type) := {
  docker : D;
  db : session;
  trace : list call;
  stdout : list string;
  cwd : string
}.
Arguments docker {D} w.
Arguments db {D} w.
Arguments trace {D} w.
Arguments stdout {D} w.
Arguments cwd {D} w.

Definition M (D A : Type) : Type := world D -> result A * world D.

Global Instance M_ret {D} : MRet (M D) := fun A a w => (Ok a, w).

Global Instance M_bind {D} : MBind (M D) := fun A B f m w =>
  match m w with
  | (Ok a, w') => f a w'
  | (Raise e, w') => (Raise e, w')
  end.

Definition raise {D A} (e : exn) : M D A := fun w => (Raise e, w).

(** [raise Exception(msg)] *)
Definition raise_Exception {D A} (msg : string) : M D A :=
  raise {| exn_cls := Exception_; exn_msg := msg |}.

(** One [except] clause: the classes it names and its body. *)
Definition handler (D A : Type) : Type := (list exn_class * (exn -> M D A))%type.

Fixpoint dispatch {D A} (hs : list (handler D A)) (e : exn) : M D A :=
  match hs with
  | [] => raise e
  | (classes, h) :: hs' =>
      if existsb (isinstance e) classes then h e else dispatch hs' e
  end.

(** [try: body except ...]: what [body] did to the world before it
    raised stays done. *)
Definition try_except {D A} (body : M D A) (hs : list (handler D A)) : M D A :=
  fun w =>
    match body w with
    | (Ok a, w') => (Ok a, w')
    | (Raise e, w') => dispatch hs e w'
    end.

(** [for x in xs: f(x)] *)
Fixpoint for_each {D A} (xs : list A) (f : A -> M D unit) : M D unit :=
  match xs with
  | [] => mret tt
  | x :: xs' => f x ;; for_each xs' f
  end.

Definition print {D} (line : string) : M D unit := fun w =>
  (Ok tt, {| docker := docker w; db := db w; trace := trace w;
             stdout := stdout w ++ [line]; cwd := cwd w |}).

(** [os.getcwd()] *)
Definition os_getcwd {D} : M D string := fun w => (Ok (cwd w), w).

(** A call of the SDK: the daemon answers, and the call is recorded. *)
Definition docker_call {D} `{!DockerRuntime D} (c : call) : M D (ret c) := fun w =>
  let '(r, d) := runtime c (docker w) in
  (r, {| docker := d; db := db w; trace := trace w ++ [c];
         stdout := stdout w; cwd := cwd w |}).

Definition with_db {D} (f : session -> session) : M D unit := fun w =>
  (Ok tt, {| docker := docker w; db := f (db w); trace := trace w;
             stdout := stdout w; cwd := cwd w |}).

(** [db.session.add(obj)] *)
Definition db_session_add {D} (obj : ContainerManager) : M D unit :=
  with_db (fun s => {| rows := rows s; pending := pending s ++ [PendingAdd obj];
                       commits := commits s |}).

(** [db.session.delete(obj)] *)
Definition db_session_delete {D} (obj : ContainerManager) : M D unit :=
  with_db (fun s => {| rows := rows s;
                       pending := pending s ++ [PendingDelete (container_id obj)];
                       commits := commits s |}).

(** [db.session.commit()]: all pending operations reach the table, or
    none does and the unique key on [container_id] is reported. *)
Definition db_session_commit {D} : M D unit := fun w =>
  let s := db w in
  match flush (pending s) (rows s) with
  | Some t =>
      (Ok tt, {| docker := docker w;
                 db := {| rows := t; pending := []; commits := S (commits s) |};
                 trace := trace w; stdout := stdout w; cwd := cwd w |})
  | None =>
      (Raise {| exn_cls := IntegrityError;
                exn_msg := "UNIQUE constraint failed: container_id" |},
       {| docker := docker w;
          db := {| rows := rows s; pending := []; commits := commits s |};
          trace := trace w; stdout := stdout w; cwd := cwd w |})
  end.

(** [ContainerManager.query.filter_by(container_id=cid).first()] *)
Definition query_first {D} (cid : string) : M D (option ContainerManager) := fun w =>
  (Ok (object_of cid <$> rows (db w) !! cid), w).

(** Modelled from the spec: [ContainerManager.update_status], defined in
    [models/container_manager.py], which is not among the sources.  The
    spec has it update the persisted status, so it sets the field of the
    row and commits. *)
Definition update_status {D} (obj : ContainerManager) (s : string) : M D unit :=
  with_db (fun d => {| rows := rows d;
                       pending := pending d ++ [PendingStatus (container_id obj) s];
                       commits := commits d |}) ;;
  db_session_commit.

(** [try: x = first; rest(x) except ...] where a handler reads the
    local [x]: it sees [None] when [first] itself raised and left [x]
    unbound. *)
Definition try_except_local {D A B} (first : M D B) (rest : B -> M D A)
    (hs : option B -> list (handler D A)) : M D A :=
  fun w =>
    match first w with
    | (Raise e, w') => dispatch (hs None) e w'
    | (Ok b, w') =>
        match rest b w' with
        | (Ok a, w'') => (Ok a, w'')
        | (Raise e, w'') => dispatch (hs (Some b)) e w''
        end
    end.

(** ** Paths and text *)

Definition sep : ascii := "/"%char.

Definition starts_with_sep (s : string) : bool :=
  match s with
  | String c _ => bool_decide (c = sep)
  | EmptyString => false
  end.

Fixpoint ends_with_sep (s : string) : bool :=
  match s with
  | EmptyString => false
  | String c EmptyString => bool_decide (c = sep)
  | String _ s' => ends_with_sep s'
  end.

(** [os.path.join(a, b)] on POSIX *)
Definition os_path_join (a b : string) : string :=
  if starts_with_sep b then b
  else if bool_decide (a = "") || ends_with_sep a then a +:+ b
  else a +:+ "/" +:+ b.

(** [p[:p.rfind('/') + 1]] *)
Fixpoint up_to_last_sep (p : string) : string :=
  match p with
  | EmptyString => EmptyString
  | String c p' =>
      match up_to_last_sep p' with
      | EmptyString => if bool_decide (c = sep) then String c EmptyString else EmptyString
      | h => String c h
      end
  end.

(** [s.rstrip('/')] *)
Fixpoint rstrip_sep (s : string) : string :=
  match s with
  | EmptyString => EmptyString
  | String c s' =>
      match rstrip_sep s' with
      | EmptyString => if bool_decide (c = sep) then EmptyString else String c EmptyString
      | r => String c r
      end
  end.

(** [os.path.dirname(p)] on POSIX: the head is kept as it is when it is
    made of separators only. *)
Definition os_path_dirname (p : string) : string :=
  let head := up_to_last_sep p in
  match rstrip_sep head with
  | EmptyString => head
  | stripped => stripped
  end.

(** [str.isspace] on one ASCII character *)
Definition py_isspace (c : ascii) : bool :=
  let n := nat_of_ascii c in
  ((9 <=? n) && (n <=? 13) || (28 <=? n) && (n <=? 32))%nat.

Fixpoint lstrip (s : string) : string :=
  match s with
  | EmptyString => EmptyString
  | String c s' => if py_isspace c then lstrip s' else s
  end.

Fixpoint rstrip (s : string) : string :=
  match s with
  | EmptyString => EmptyString
  | String c s' =>
      match rstrip s' with
      | EmptyString => if py_isspace c then EmptyString else String c EmptyString
      | r => String c r
      end
  end.

(** [s.strip()] *)
Definition strip (s : string) : string := rstrip (lstrip s).

(** ** The class [DockerManager] *)

Section DockerManager.
Context {D : Type} `{!DockerRuntime D}.

Definition _get_compose_file (plan : string) : M D string :=
  cwd ← os_getcwd;
  let base_dir := os_path_join cwd ("plan_" +:+ plan) in
  let compose_file := "docker-compose_" +:+ plan +:+ ".yml" in
  mret (os_path_join base_dir compose_file).

(** One chunk of the build log: [if 'stream' in chunk:
    print(chunk['stream'].strip())]. *)
Definition print_chunk (chunk : list (string * json)) : M D unit :=
  match dict_get "stream" chunk with
  | None => mret tt
  | Some (JStr s) => print (strip s)
  | Some _ =>
      raise {| exn_cls := AttributeError;
               exn_msg := "object has no attribute 'strip'" |}
  end.

Definition build_main_image (project : string) : M D string :=
  docker_call FromEnv ;;
  let tag := project +:+ "_cyber:latest" in
  try_except
    ('(image, logs) ← docker_call (ImagesBuild "." "Dockerfile" tag true);
     for_each logs print_chunk ;;
     mret image)
    [ ([BuildError], fun e =>
         raise_Exception ("Failed to build image for " +:+ project +:+ ": "
                          +:+ str_exn e));
      ([APIError], fun e =>
         raise_Exception ("Docker API error during build for " +:+ project
                          +:+ ": " +:+ str_exn e)) ].

Definition postgres_kwargs (container_name volume_name network_name
                            db_password db_name : string) : run_kwargs :=
  {| image := "postgres:latest";
     name := container_name;
     detach := true;
     environment := [("POSTGRES_USER", "postgres");
                     ("POSTGRES_PASSWORD", db_password);
                     ("POSTGRES_DB", db_name)];
     volumes := [(volume_name,
                  {| bind := "/var/lib/postgresql/data"; mode := "rw" |})];
     ports := [(PortProto "5432/tcp", None)];
     restart_policy := [("Name", "unless-stopped")];
     network := network_name |}.

Definition deploy_postgres_container (project db_password db_name : string)
  : M D Container :=
  docker_call FromEnv ;;
  let container_name := project +:+ "_postgres" in
  let network_name := project +:+ "_network" in
  try_except
    (docker_call (NetworksGet network_name))
    [ ([NotFound], fun _ => docker_call (NetworksCreate network_name "bridge")) ] ;;
  try_except
    (existing ← docker_call (ContainersList true container_name);
     for_each existing (fun cont => docker_call (ContainerRemove cont true)) ;;
     let volume_name := project +:+ "_postgres_data" in
     volumes ← docker_call (VolumesList volume_name);
     match volumes with
     | [] => docker_call (VolumesCreate volume_name)
     | _ => mret tt
     end ;;
     container ← docker_call
       (ContainersRun (postgres_kwargs container_name volume_name network_name
                                       db_password db_name));
     mret container)
    [ ([APIError], fun e =>
         raise_Exception ("Failed to deploy Postgres: " +:+ str_exn e)) ].

Definition main_kwargs (main_image container_name network_name project : string)
                       (host_port : Z) (db_password db_name : string) : run_kwargs :=
  {| image := main_image;
     name := container_name;
     detach := true;
     environment :=
       [("SQLALCHEMY_DATABASE_URI",
         "postgresql://postgres:" +:+ db_password +:+ "@" +:+ project
         +:+ "_postgres/" +:+ db_name);
        ("POSTGRES_HOST", project +:+ "_postgres");
        ("POSTGRES_USER", "postgres");
        ("POSTGRES_PASSWORD", db_password);
        ("POSTGRES_DB", db_name)];
     volumes := [];
     ports := [(PortNumber 5000, Some host_port)];
     restart_policy := [("Name", "unless-stopped")];
     network := network_name |}.

Definition deploy_main_container (project : string) (host_port : Z)
                                 (db_password db_name : string) : M D Container :=
  docker_call FromEnv ;;
  let container_name := project +:+ "_cyber" in
  let network_name := project +:+ "_network" in
  try_except
    (docker_call (NetworksGet network_name))
    [ ([NotFound], fun _ => docker_call (NetworksCreate network_name "bridge")) ] ;;
  try_except
    (try_except
       (docker_call (ImagesGet (project +:+ "_cyber:latest")))
       [ ([ImageNotFound], fun _ => build_main_image project ;; mret tt) ] ;;
     let main_image := project +:+ "_cyber:latest" in
     existing ← docker_call (ContainersList true container_name);
     for_each existing (fun cont => docker_call (ContainerRemove cont true)) ;;
     container ← docker_call
       (ContainersRun (main_kwargs main_image container_name network_name project
                                   host_port db_password db_name));
     mret container)
    [ ([APIError], fun e =>
         raise_Exception ("Failed to deploy main app: " +:+ str_exn e)) ].

(** The body of the [try] block of [create_container].  The tenant is
    identified by an integer, the type of the [user_id] column of the
    records. *)
Definition create_container_body (user_id : Z) (plan : string) : M D (option string) :=
  match _generate_unique_config user_id with
  | Raise e => raise e
  | Ok (port, db_name, project_name) =>
      compose_file ← _get_compose_file plan;
      let plan_dir := os_path_dirname compose_file in
      postgres_container ← deploy_postgres_container project_name "db1" db_name;
      main_container ← deploy_main_container project_name port "db1" db_name;
      let container :=
        {| user_id := user_id; container_id := ct_name main_container;
           port := port; db_name := db_name; plan := plan; status := "running" |} in
      db_session_add container ;;
      let postgres_container_record :=
        {| user_id := user_id; container_id := ct_name postgres_container;
           port := 5432; db_name := db_name; plan := plan; status := "running" |} in
      db_session_add postgres_container_record ;;
      db_session_commit ;;
      mret (Some (ct_name main_container))
  end.

Definition create_container (user_id : Z) (plan : string) : M D (option string) :=
  docker_call FromEnv ;;
  try_except
    (create_container_body user_id plan)
    [ ([Exception_], fun e =>
         print ("Error creating container: " +:+ str_exn e) ;; mret None) ].

(** The statements of the [try] block of [manage_container] after the
    lookup of the record. *)
Definition manage_container_found (container_id action : string)
                                  (container : option ContainerManager) : M D bool :=
  match container with
  | None => mret false
  | Some container =>
      docker_container ← docker_call (ContainersGet container_id);
      (if decide (action = "start") then
         docker_call (ContainerStart docker_container) ;;
         update_status container "running"
       else if decide (action = "stop") then
         docker_call (ContainerStop docker_container) ;;
         update_status container "stopped"
       else if decide (action = "remove") then
         docker_call (ContainerRemove docker_container true) ;;
         update_status container "removed" ;;
         db_session_delete container ;;
         db_session_commit
       else if decide (action = "restart") then
         docker_call (ContainerRestart docker_container) ;;
         update_status container "running"
       else mret tt) ;;
      mret true
  end.

(** The clause [except docker.errors.NotFound:].  [container] is the
    local of that name: [None] while unbound. *)
Definition manage_container_not_found (action : string)
    (container : option (option ContainerManager)) : M D bool :=
  if decide (action = "remove") then
    match container with
    | None =>
        raise {| exn_cls := UnboundLocalError;
                 exn_msg := "local variable 'container' referenced before assignment" |}
    | Some None => mret false
    | Some (Some container) =>
        update_status container "removed" ;;
        db_session_delete container ;;
        db_session_commit ;;
        mret true
    end
  else mret false.

Definition manage_container (container_id action : string) : M D bool :=
  docker_call FromEnv ;;
  try_except_local
    (query_first container_id)
    (manage_container_found container_id action)
    (fun container =>
       [ ([NotFound], fun _ => manage_container_not_found action container);
         ([Exception_], fun e =>
            print ("Error managing container: " +:+ str_exn e) ;; mret false) ]).
End DockerManager.

(** ** Telemetry: the figures of [get_container_stats] *)

(** A Python [float] is kept as the expression that computes it; the
    development assigns no rounding to the operations.  [FTrueDiv a b]
    is the quotient [a / b] of two integers, [FLit z] the literal
    [z.0]. *)
Inductive pyfloat :=
  | FLit (z : Z)
  | FTrueDiv (a b : Z)
  | FMul (x y : pyfloat)
  | FRound (x : pyfloat) (ndigits : Z).

Inductive pynum :=
  | PyInt (z : Z)
  | PyFloat (f : pyfloat).

Global Instance result_ret : MRet result := fun A a => Ok a.

Global Instance result_bind : MBind result := fun A B f m =>
  match m with
  | Ok a => f a
  | Raise e => Raise e
  end.

Definition error {A} (c : exn_class) (msg : string) : result A :=
  Raise {| exn_cls := c; exn_msg := msg |}.

(** The largest quotient that still rounds to a finite double lies just
    below [2^1024 - 2^970]. *)
Definition float_overflow (a b : Z) : bool :=
  (2 ^ 1024 - 2 ^ 970) * Z.abs b <=? Z.abs a.

(** [a / b] on two [int]s *)
Definition truediv (a b : Z) : result pyfloat :=
  if b =? 0 then error ZeroDivisionError "division by zero"
  else if float_overflow a b then
    error OverflowError "integer division result too large for a float"
  else Ok (FTrueDiv a b).

(** [round(x, ndigits)] with [ndigits] not negative: an [int] comes back
    as it is. *)
Definition py_round (x : pynum) (ndigits : Z) : pynum :=
  match x with
  | PyInt z => PyInt z
  | PyFloat f => PyFloat (FRound f ndigits)
  end.

(** [obj[key]] *)
Definition subscript (obj : json) (key : string) : result json :=
  match obj with
  | JObj fields =>
      match dict_get key fields with
      | Some v => Ok v
      | None => error KeyError key
      end
  | _ => error TypeError "object is not subscriptable by a string"
  end.

(** [obj.get(key, default)] *)
Definition dot_get (obj : json) (key : string) (default : json) : result json :=
  match obj with
  | JObj fields => Ok (from_option id default (dict_get key fields))
  | _ => error AttributeError "object has no attribute 'get'"
  end.

(** An operand of integer arithmetic; [bool] is a subclass of [int]. *)
Definition as_int (v : json) : result Z :=
  match v with
  | JInt z => Ok z
  | JBool b => Ok (if b then 1 else 0)
  | _ => error TypeError "unsupported operand type(s)"
  end.

(** [a - b] *)
Definition py_sub (a b : json) : result Z :=
  x ← as_int a; y ← as_int b; mret (x - y).

(** [a / b] *)
Definition py_truediv (a b : json) : result pyfloat :=
  x ← as_int a; y ← as_int b; truediv x y.

(** Lines 293-295: [cpu_usage = 0], replaced by the percentage when
    [system_delta > 0]. *)
Definition cpu_usage_of (cpu_delta system_delta : Z) : result pynum :=
  let cpu_usage := PyInt 0 in
  if 0 <? system_delta then
    q ← truediv cpu_delta system_delta;
    mret (PyFloat (FMul q (FLit 100)))
  else mret cpu_usage.

(** [cpu_delta] and [system_delta], lines 291-292. *)
Definition cpu_deltas (stats : json) : result (Z * Z) :=
  cpu_stats ← subscript stats "cpu_stats";
  cpu_usage ← subscript cpu_stats "cpu_usage";
  total ← subscript cpu_usage "total_usage";
  precpu_stats ← subscript stats "precpu_stats";
  precpu_usage ← subscript precpu_stats "cpu_usage";
  pretotal ← subscript precpu_usage "total_usage";
  cpu_delta ← py_sub total pretotal;
  cpu_stats' ← subscript stats "cpu_stats";
  system ← subscript cpu_stats' "system_cpu_usage";
  precpu_stats' ← subscript stats "precpu_stats";
  presystem ← subscript precpu_stats' "system_cpu_usage";
  system_delta ← py_sub system presystem;
  mret (cpu_delta, system_delta).

(** The dictionary [get_container_stats] returns. *)
Record container_stats := {
  cpu_percent : pynum;
  memory_usage : pynum;
  memory_percent : pynum;
  network_rx : json;
  network_tx : json
}.

(** The statements of the [try] block after the snapshot is taken. *)
Definition stats_of_snapshot (stats : json) : result container_stats :=
  '(cpu_delta, system_delta) ← cpu_deltas stats;
  cpu_usage ← cpu_usage_of cpu_delta system_delta;
  memory_stats ← subscript stats "memory_stats";
  memory_usage ← dot_get memory_stats "usage" (JInt 0);
  memory_stats' ← subscript stats "memory_stats";
  memory_limit ← dot_get memory_stats' "limit" (JInt 1);
  ratio ← py_truediv memory_usage memory_limit;
  let memory_percent := PyFloat (FMul ratio (FLit 100)) in
  megabytes ← py_truediv memory_usage (JInt (1024 * 1024));
  networks ← dot_get stats "networks" (JObj []);
  eth0 ← dot_get networks "eth0" (JObj []);
  rx ← dot_get eth0 "rx_bytes" (JInt 0);
  networks' ← dot_get stats "networks" (JObj []);
  eth0' ← dot_get networks' "eth0" (JObj []);
  tx ← dot_get eth0' "tx_bytes" (JInt 0);
  mret {| cpu_percent := py_round cpu_usage 2;
          memory_usage := py_round (PyFloat megabytes) 2;
          memory_percent := py_round memory_percent 2;
          network_rx := rx;
          network_tx := tx |}.

Definition lift {D A} (r : result A) : M D A := fun w => (r, w).

Section Telemetry.
Context {D : Type} `{!DockerRuntime D}.

Definition get_container_stats (container_id : string) : M D (option container_stats) :=
  docker_call FromEnv ;;
  try_except
    (container ← docker_call (ContainersGet container_id);
     stats ← docker_call (ContainerStats container false);
     result ← lift (stats_of_snapshot stats);
     mret (Some result))
    [ ([NotFound; KeyError; AttributeError], fun _ => mret None);
      ([Exception_], fun e =>
         print ("Error getting container stats: " +:+ str_exn e) ;; mret None) ].
End Telemetry.

(** ** A reference daemon

    One concrete [DockerRuntime], used to run the class on examples: it
    keeps the names of its networks, volumes and images and the
    containers with their state, and answers as a daemon in good health
    does.  [reachable] is cleared to model a daemon that cannot be
    contacted. *)

Module Sim.
Record daemon := {
  reachable : bool;
  build_breaks : bool;
  networks : list string;
  volume_names : list string;
  images : list string;
  containers : list (string * string);
  snapshot : json
}.

Fixpoint contains (needle hay : string) : bool :=
  String.prefix needle hay ||
  match hay with
  | EmptyString => false
  | String _ hay' => contains needle hay'
  end.

Definition handle (container_name : string) : Container :=
  {| ct_id := "sha256:" +:+ container_name; ct_name := container_name |}.

Definition known (d : daemon) (key : string) : option string :=
  fst <$> find (fun c => bool_decide (fst c = key)
                         || bool_decide (ct_id (handle (fst c)) = key))
               (containers d).

Definition not_found {A} (what : string) : result A :=
  error NotFound ("404 Client Error: Not Found (" +:+ what +:+ ")").

Definition set_state (d : daemon) (container_name state : string) : daemon :=
  {| reachable := reachable d; build_breaks := build_breaks d; networks := networks d;
     volume_names := volume_names d; images := images d;
     containers := (fun c => if bool_decide (fst c = container_name)
                             then (fst c, state) else c) <$> containers d;
     snapshot := snapshot d |}.

Definition answer (c : call) (d : daemon) : result (ret c) * daemon :=
  match c return result (ret c) * daemon with
  | FromEnv =>
      if reachable d then (Ok tt, d)
      else (error DockerException "Error while fetching server API version", d)
  | NetworksGet n =>
      if bool_decide (n ∈ networks d) then (Ok tt, d) else (not_found n, d)
  | NetworksCreate n _ =>
      (Ok tt, {| reachable := reachable d; build_breaks := build_breaks d; networks := networks d ++ [n];
                 volume_names := volume_names d; images := images d;
                 containers := containers d; snapshot := snapshot d |})
  | ContainersList _ filter_ =>
      (Ok (handle <$> (filter (fun n => contains filter_ n = true)
                              (fst <$> containers d))), d)
  | ContainerRemove h _ =>
      match known d (ct_name h) with
      | None => (not_found (ct_name h), d)
      | Some n =>
          (Ok tt, {| reachable := reachable d; build_breaks := build_breaks d; networks := networks d;
                     volume_names := volume_names d; images := images d;
                     containers := filter (fun c => fst c ≠ n) (containers d);
                     snapshot := snapshot d |})
      end
  | VolumesList filter_ =>
      (Ok (filter (fun n => contains filter_ n = true) (volume_names d)), d)
  | VolumesCreate v =>
      (Ok tt, {| reachable := reachable d; build_breaks := build_breaks d; networks := networks d;
                 volume_names := volume_names d ++ [v]; images := images d;
                 containers := containers d; snapshot := snapshot d |})
  | ContainersRun kw =>
      match known d (name kw) with
      | Some _ => (error APIError "409 Client Error: Conflict", d)
      | None =>
          if bool_decide (image kw ∈ images d) || bool_decide (image kw = "postgres:latest")
          then (Ok (handle (name kw)),
                {| reachable := reachable d; build_breaks := build_breaks d; networks := networks d;
                   volume_names := volume_names d; images := images d;
                   containers := containers d ++ [(name kw, "running")];
                   snapshot := snapshot d |})
          else (error ImageNotFound "404 Client Error: No such image", d)
      end
  | ImagesGet tag =>
      if bool_decide (tag ∈ images d) then (Ok tt, d)
      else (error ImageNotFound "404 Client Error: No such image", d)
  | ImagesBuild _ _ tag _ =>
      if build_breaks d then
        (error BuildError "COPY failed: no source files were specified", d)
      else
        (Ok (tag, [[("stream", JStr "Step 1/1 : FROM python:3
")]; [("aux", JObj [("ID", JStr tag)])]]),
         {| reachable := reachable d; build_breaks := build_breaks d;
            networks := networks d;
            volume_names := volume_names d; images := images d ++ [tag];
            containers := containers d; snapshot := snapshot d |})
  | ContainersGet key =>
      match known d key with
      | Some n => (Ok (handle n), d)
      | None => (not_found key, d)
      end
  | ContainerStart h =>
      match known d (ct_name h) with
      | Some n => (Ok tt, set_state d n "running")
      | None => (not_found (ct_name h), d)
      end
  | ContainerStop h =>
      match known d (ct_name h) with
      | Some n => (Ok tt, set_state d n "exited")
      | None => (not_found (ct_name h), d)
      end
  | ContainerRestart h =>
      match known d (ct_name h) with
      | Some n => (Ok tt, set_state d n "running")
      | None => (not_found (ct_name h), d)
      end
  | ContainerStats h _ =>
      match known d (ct_name h) with
      | Some _ => (Ok (snapshot d), d)
      | None => (not_found (ct_name h), d)
      end
  end.

#[global] Instance daemon_runtime : DockerRuntime daemon := answer.

Definition fresh : daemon :=
  {| reachable := true; build_breaks := false; networks := []; volume_names := []; images := [];
     containers := []; snapshot := JObj [] |}.

Definition empty_session : session :=
  {| rows := ∅; pending := []; commits := 0 |}.

Definition boot (d : daemon) (s : session) : world daemon :=
  {| docker := d; db := s; trace := []; stdout := []; cwd := "/srv/app" |}.
End Sim.

(** ** What provisioning is allowed to ask of the daemon *)

(** The calls of a provisioning run for the project [project]: every
    name they carry is derived from the project, apart from the
    containers the daemon itself listed for removal. *)
Definition provisioning_call (project : string) (host_port : Z)
                             (db_password db_name : string) (c : call) : Prop :=
  match c with
  | FromEnv => True
  | NetworksGet n => n = project +:+ "_network"
  | NetworksCreate n driver => n = project +:+ "_network" /\ driver = "bridge"
  | ContainersList all filter_ =>
      all = true /\
      (filter_ = project +:+ "_postgres" \/ filter_ = project +:+ "_cyber")
  | ContainerRemove _ force => force = true
  | VolumesList v => v = project +:+ "_postgres_data"
  | VolumesCreate v => v = project +:+ "_postgres_data"
  | ContainersRun kw =>
      kw = postgres_kwargs (project +:+ "_postgres") (project +:+ "_postgres_data")
                           (project +:+ "_network") db_password db_name \/
      kw = main_kwargs (project +:+ "_cyber:latest") (project +:+ "_cyber")
                       (project +:+ "_network") project host_port db_password db_name
  | ImagesGet tag => tag = project +:+ "_cyber:latest"
  | ImagesBuild path dockerfile tag rm =>
      path = "." /\ dockerfile = "Dockerfile" /\
      tag = project +:+ "_cyber:latest" /\ rm = true
  | _ => False
  end.

(** [m] leaves the session and the working directory as they are, only
    adds to the record of calls, and adds only calls that satisfy [P]. *)
Global Instance volume_bind_eq_dec : EqDecision volume_bind.
Proof. solve_decision. Defined.

Global Instance port_key_eq_dec : EqDecision port_key.
Proof. solve_decision. Defined.

Global Instance run_kwargs_eq_dec : EqDecision run_kwargs.
Proof. solve_decision. Defined.

Global Instance provisioning_call_dec project host_port db_password db_name c :
  Decision (provisioning_call project host_port db_password db_name c).
Proof. destruct c; simpl; apply _. Defined.

Definition emits {D A} (P : call -> Prop) (m : M D A) : Prop :=
  forall w,
    db (m w).2 = db w /\ cwd (m w).2 = cwd w /\
    exists t, trace (m w).2 = trace w ++ t /\ Forall P t.

(** The two rows a successful provisioning adds. *)
Definition main_columns (user_id : Z) (plan : string) : columns :=
  {| col_user_id := user_id; col_port := 5000 + user_id;
     col_db_name := "db_" +:+ pretty user_id; col_plan := plan;
     col_status := "running" |}.

Definition postgres_columns (user_id : Z) (plan : string) : columns :=
  {| col_user_id := user_id; col_port := 5432;
     col_db_name := "db_" +:+ pretty user_id; col_plan := plan;
     col_status := "running" |}.

(** The world [w] with the session [s] in place of its own. *)
Definition put_session {D} (w : world D) (s : session) : world D :=
  {| docker := docker w; db := s; trace := trace w; stdout := stdout w;
     cwd := cwd w |}.

(** The session after a commit that went through with table [t], and
    after one that was refused. *)
Definition committed (s : session) (t : gmap string columns) : session :=
  {| rows := t; pending := []; commits := S (commits s) |}.

Definition rolled_back (s : session) : session :=
  {| rows := rows s; pending := []; commits := commits s |}.

Definition integrity_error : exn :=
  {| exn_cls := IntegrityError;
     exn_msg := "UNIQUE constraint failed: container_id" |}.

(** ** Scenarios on the reference daemon *)

Module Scenario.
Import Sim.

(** A fresh daemon and an empty table. *)
Definition world0 : world daemon := boot fresh empty_session.

(** After tenant 42 has been provisioned on [world0]. *)
Definition provisioned : world daemon := (create_container 42 "basic" world0).2.

(** The records of [provisioned] facing a daemon that has lost the
    containers. *)
Definition orphaned : world daemon := boot fresh (db provisioned).

(** A fresh daemon whose build context does not build. *)
Definition unbuildable : world daemon :=
  boot {| reachable := true; build_breaks := true; networks := [];
          volume_names := []; images := []; containers := [];
          snapshot := JObj [] |} empty_session.

Definition cpu_snapshot (total pretotal system presystem : Z) : json :=
  JObj [("cpu_stats",
         JObj [("cpu_usage", JObj [("total_usage", JInt total)]);
               ("system_cpu_usage", JInt system)]);
        ("precpu_stats",
         JObj [("cpu_usage", JObj [("total_usage", JInt pretotal)]);
               ("system_cpu_usage", JInt presystem)]);
        ("memory_stats", JObj [("usage", JInt 1048576); ("limit", JInt 4194304)])].

(** Two snapshots: the host clock has not advanced, and it has. *)
Definition stalled : json := cpu_snapshot 500 400 1000 1000.
Definition busy : json := cpu_snapshot 500 400 1400 1000.
End Scenario.

(** ** Further vocabulary for the properties below *)

(** What [bind] raises for a number that is no port. *)
Definition bind_overflow : exn :=
  {| exn_cls := OverflowError; exn_msg := "bind(): port must be 0-65535." |}.

(** Whether a text holds the path separator. *)
Fixpoint has_sep (s : string) : bool :=
  match s with
  | EmptyString => false
  | String c s' => bool_decide (c = sep) || has_sep s'
  end.

(** The [stream] texts of a build log, in order. *)
Fixpoint streams (logs : list (list (string * json))) : list string :=
  match logs with
  | [] => []
  | chunk :: logs' =>
      match dict_get "stream" chunk with
      | Some (JStr s) => s :: streams logs'
      | _ => streams logs'
      end
  end.

(** A chunk whose [stream] entry, if it has one, is a text. *)
Definition printable (chunk : list (string * json)) : bool :=
  match dict_get "stream" chunk with
  | None | Some (JStr _) => true
  | Some _ => false
  end.

(** A text made of ASCII characters, on which [strip] above is all of
    [str.strip]. *)
Fixpoint ascii_text (s : string) : bool :=
  match s with
  | EmptyString => true
  | String c s' => (nat_of_ascii c <? 128)%nat && ascii_text s'
  end.

(** What [build_main_image] raises when [images.build] raised [e]. *)
Definition build_failure (project : string) (e : exn) : exn :=
  if isinstance e BuildError then
    {| exn_cls := Exception_;
       exn_msg := "Failed to build image for " +:+ project +:+ ": " +:+ exn_msg e |}
  else if isinstance e APIError then
    {| exn_cls := Exception_;
       exn_msg := "Docker API error during build for " +:+ project +:+ ": "
                  +:+ exn_msg e |}
  else e.

(** The calls that ensure the network of a project: the lookup, and
    the creation when the lookup did not find it. *)
Definition network_calls (network_name : string) (created : bool) : list call :=
  if created then [NetworksGet network_name; NetworksCreate network_name "bridge"]
  else [NetworksGet network_name].

(** The forced removal of each container of a listing. *)
Definition removal_calls (existing : list Container) : list call :=
  (fun cont => ContainerRemove cont true) <$> existing.

(** The volume is created when the listing found none. *)
Definition volume_calls (volume_name : string) (found : list string) : list call :=
  match found with
  | [] => [VolumesCreate volume_name]
  | _ => []
  end.

(** The image is looked up, and built when the lookup did not find
    it. *)
Definition image_calls (tag : string) (built : bool) : list call :=
  if built then [ImagesGet tag; FromEnv; ImagesBuild "." "Dockerfile" tag true]
  else [ImagesGet tag].

(** A removal that [create_container] may make for the project: of a
    container that the daemon listed under the name of one of the two
    containers of the project. *)
Definition listed_removal {D : Type} `{!DockerRuntime D} (project : string)
    (c : call) : Prop :=
  match c with
  | ContainerRemove cont _ =>
      exists filter_ d existing d',
        (filter_ = project +:+ "_postgres" \/ filter_ = project +:+ "_cyber") /\
        runtime (ContainersList true filter_) d = (Ok existing, d') /\
        cont ∈ existing
  | _ => True
  end.

(** From the world [w], [m] adds to the record of calls only calls
    that satisfy [P]. *)
Definition emits_at {D A} (P : call -> Prop) (m : M D A) (w : world D) : Prop :=
  exists t, trace (m w).2 = trace w ++ t /\ Forall P t.

(** ** Identifiers that are texts *)

(** A [str] of ASCII characters. *)
Record text := { chars : string; chars_ascii : ascii_text chars = true }.

(** The white space that [int] skips around a number written in ASCII:
    tab, line feed, vertical tab, form feed, carriage return, space. *)
Definition int_space (c : ascii) : bool :=
  let n := nat_of_ascii c in
  ((9 <=? n) && (n <=? 13) || (n =? 32))%nat.

Definition digit_value (c : ascii) : option Z :=
  let n := nat_of_ascii c in
  if ((48 <=? n) && (n <=? 57))%nat then Some (Z.of_nat n - 48) else None.

Fixpoint skip_space (s : string) : string :=
  match s with
  | String c s' => if int_space c then skip_space s' else s
  | EmptyString => s
  end.

(** The digits of a number, single underscores allowed between them:
    [acc] is the value read so far, [after_underscore] tells that the
    character before was an underscore.  The answer is the value and
    what follows the digits. *)
Fixpoint read_digits (s : string) (acc : Z) (after_underscore : bool)
  : option (Z * string) :=
  match s with
  | String c s' =>
      match digit_value c with
      | Some d => read_digits s' (10 * acc + d) false
      | None =>
          if Ascii.eqb c "_" then
            if after_underscore then None else read_digits s' acc true
          else if after_underscore then None else Some (acc, s)
      end
  | EmptyString => if after_underscore then None else Some (acc, s)
  end.

(** A number starts with a digit. *)
Definition read_number (s : string) : option (Z * string) :=
  match s with
  | String c _ =>
      match digit_value c with
      | Some _ => read_digits s 0 false
      | None => None
      end
  | EmptyString => None
  end.

(** [int(s)] in base 10 on an ASCII text: white space, an optional
    sign, the digits, white space, and nothing else. *)
Definition int_of_text (s : string) : option Z :=
  let s1 := skip_space s in
  let '(negative, s2) :=
    match s1 with
    | String "+" s' => (false, s')
    | String "-" s' => (true, s')
    | _ => (false, s1)
    end in
  match read_number s2 with
  | Some (n, rest) =>
      match skip_space rest with
      | EmptyString => Some (if negative then - n else n)
      | _ => None
      end
  | None => None
  end.

(** The hexadecimal digit of [n < 16], in lower case. *)
Definition hex_digit (n : nat) : ascii :=
  ascii_of_nat (if (n <? 10)%nat then 48 + n else 87 + n).

Fixpoint contains_char (c : ascii) (s : string) : bool :=
  match s with
  | EmptyString => false
  | String a s' => Ascii.eqb a c || contains_char c s'
  end.

(** One character of [repr(s)] for an ASCII text between the quotes
    [quote]. *)
Definition repr_char (quote c : ascii) : string :=
  let n := nat_of_ascii c in
  if (n =? 92)%nat then String c (String c EmptyString)
  else if Ascii.eqb c quote then String (ascii_of_nat 92) (String c EmptyString)
  else if (n =? 9)%nat then String (ascii_of_nat 92) "t"
  else if (n =? 10)%nat then String (ascii_of_nat 92) "n"
  else if (n =? 13)%nat then String (ascii_of_nat 92) "r"
  else if ((n <? 32) || (n =? 127))%nat then
    String (ascii_of_nat 92)
      (String "x" (String (hex_digit (n / 16)) (String (hex_digit (n mod 16)) EmptyString)))
  else String c EmptyString.

Fixpoint repr_chars (quote : ascii) (s : string) : string :=
  match s with
  | EmptyString => EmptyString
  | String c s' => repr_char quote c +:+ repr_chars quote s'
  end.

(** [repr(s)] for an ASCII text: double quotes when the text holds a
    single quote and no double quote, single quotes otherwise. *)
Definition py_repr (s : string) : string :=
  let quote :=
    if contains_char "'" s && negb (contains_char (ascii_of_nat 34) s)
    then ascii_of_nat 34 else "'"%char in
  String quote (repr_chars quote s +:+ String quote EmptyString).

(** An identifier that is an [int] or a [str]. *)
Inductive tenant_id :=
  | IdInt (n : Z)
  | IdStr (t : text).

(** [int] parses a text and raises [ValueError] when it spells no
    number; an f-string renders a text as it is. *)
#[global] Instance tenant_id_tenant_id : TenantId tenant_id :=
  {| py_int v :=
       match v with
       | IdInt n => py_int n
       | IdStr t =>
           match int_of_text (chars t) with
           | Some n => Ok n
           | None =>
               Raise {| exn_cls := OtherError "ValueError";
                        exn_msg := "invalid literal for int() with base 10: "
                                   +:+ py_repr (chars t) |}
           end
       end;
     py_format v :=
       match v with
       | IdInt n => py_format n
       | IdStr t => Ok (chars t)
       end |}.

(** The identifiers ['7'], ['007'] and ['42']. *)
Module Tenants.
Definition text_7 : text := {| chars := "7"; chars_ascii := eq_refl |}.
Definition text_007 : text := {| chars := "007"; chars_ascii := eq_refl |}.
Definition text_42 : text := {| chars := "42"; chars_ascii := eq_refl |}.
End Tenants.

(** ** Further scenarios *)

Module Outage.
Import Sim.


End Outage.

(** The lifecycle call that [manage_container] makes for an action on
    the handle [h], if the action is one of the four. *)
Definition lifecycle_for (action : string) (h : Container) : option call :=
  if decide (action = "start") then Some (ContainerStart h)
  else if decide (action = "stop") then Some (ContainerStop h)
  else if decide (action = "remove") then Some (ContainerRemove h true)
  else if decide (action = "restart") then Some (ContainerRestart h)
  else None.

(** [m] neither calls the daemon nor changes its state. *)
Definition offline {D A} (m : M D A) : Prop :=
  forall w, trace (m w).2 = trace w /\ docker (m w).2 = docker w.

(** ** Telemetry: status and logs *)

(** What a handle gives besides its id and name.  [status_at d c] is
    the [status] attribute of the handle [c] obtained when the daemon
    was in state [d]; the attribute is read from what the lookup
    fetched and raises when that lacks the state.  [container_logs] is
    [container.logs(tail=..., stream=...)], which returns bytes. *)
Class DockerTelemetry (D : Type) := {
  status_at : D -> Container -> result string;
  container_logs : Container -> Z -> bool -> D -> result string * D
}.

Definition byte (c : ascii) : nat := nat_of_ascii c.

Definition in_range (lo hi : nat) (c : ascii) : bool :=
  ((lo <=? byte c) && (byte c <=? hi))%nat.

(** A continuation byte of UTF-8. *)
Definition continuation (c : ascii) : bool := in_range 128 191 c.

(** The second byte of a three-byte sequence: no overlong form after
    [E0], no surrogate after [ED]. *)
Definition second_of_three (c0 c1 : ascii) : bool :=
  if (byte c0 =? 224)%nat then in_range 160 191 c1
  else if (byte c0 =? 237)%nat then in_range 128 159 c1
  else continuation c1.

(** The second byte of a four-byte sequence: no overlong form after
    [F0], nothing above U+10FFFF after [F4]. *)
Definition second_of_four (c0 c1 : ascii) : bool :=
  if (byte c0 =? 240)%nat then in_range 144 191 c1
  else if (byte c0 =? 244)%nat then in_range 128 143 c1
  else continuation c1.

(** Whether bytes are well-formed UTF-8. *)
Fixpoint utf8_valid (s : string) : bool :=
  match s with
  | EmptyString => true
  | String c0 s1 =>
      if in_range 0 127 c0 then utf8_valid s1
      else if in_range 194 223 c0 then
        match s1 with
        | String c1 s2 => continuation c1 && utf8_valid s2
        | _ => false
        end
      else if in_range 224 239 c0 then
        match s1 with
        | String c1 (String c2 s3) =>
            second_of_three c0 c1 && continuation c2 && utf8_valid s3
        | _ => false
        end
      else if in_range 240 244 c0 then
        match s1 with
        | String c1 (String c2 (String c3 s4)) =>
            second_of_four c0 c1 && continuation c2 && continuation c3
            && utf8_valid s4
        | _ => false
        end
      else false
  end.

(** [raw.decode('utf-8')]: a text is kept as its UTF-8 bytes, so
    decoding returns the bytes when they are well formed. *)
Definition bytes_decode_utf8 (raw : string) : result string :=
  if utf8_valid raw then Ok raw
  else error (OtherError "UnicodeDecodeError")
             "'utf-8' codec can't decode bytes: invalid data".

Definition snoc (s : string) (c : ascii) : string := s +:+ String c EmptyString.

(** The one-byte line boundaries of [str.splitlines] other than the
    carriage return: line feed, vertical tab, form feed, and the file,
    group and record separators. *)
Definition single_break (c : ascii) : bool :=
  ((byte c =? 10) || (byte c =? 11) || (byte c =? 12)
   || (byte c =? 28) || (byte c =? 29) || (byte c =? 30))%nat.

(** The loop of [str.splitlines]: [cur] is the line being read.  A
    carriage return takes a following line feed with it; U+0085 is the
    bytes [C2 85], U+2028 and U+2029 are [E2 80 A8] and [E2 80 A9]. *)
Fixpoint split_go (s : string) (cur : string) : list string :=
  match s with
  | EmptyString =>
      match cur with
      | EmptyString => []
      | _ => [cur]
      end
  | String c0 s1 =>
      if (byte c0 =? 13)%nat then
        match s1 with
        | String c1 s2 =>
            if (byte c1 =? 10)%nat then cur :: split_go s2 EmptyString
            else cur :: split_go s1 EmptyString
        | EmptyString => cur :: split_go s1 EmptyString
        end
      else if single_break c0 then cur :: split_go s1 EmptyString
      else if (byte c0 =? 194)%nat then
        match s1 with
        | String c1 s2 =>
            if (byte c1 =? 133)%nat then cur :: split_go s2 EmptyString
            else split_go s1 (snoc cur c0)
        | EmptyString => split_go s1 (snoc cur c0)
        end
      else if (byte c0 =? 226)%nat then
        match s1 with
        | String c1 (String c2 s3) =>
            if ((byte c1 =? 128) && ((byte c2 =? 168) || (byte c2 =? 169)))%nat
            then cur :: split_go s3 EmptyString
            else split_go s1 (snoc cur c0)
        | _ => split_go s1 (snoc cur c0)
        end
      else split_go s1 (snoc cur c0)
  end.

(** [s.splitlines()] *)
Definition splitlines (s : string) : list string := split_go s EmptyString.

Section StatusAndLogs.
Context {D : Type} `{!DockerRuntime D} `{!DockerTelemetry D}.

(** [container.status] *)
Definition container_status (container : Container) : M D string := fun w =>
  (status_at (docker w) container, w).

(** [container.logs(tail=tail, stream=stream)] *)
Definition logs_call (container : Container) (tail : Z) (stream : bool)
  : M D string := fun w =>
  let '(r, d) := container_logs container tail stream (docker w) in
  (r, {| docker := d; db := db w; trace := trace w; stdout := stdout w;
         cwd := cwd w |}).

Definition get_container_status (container_id : string) : M D string :=
  docker_call FromEnv ;;
  try_except
    (container ← docker_call (ContainersGet container_id);
     container_status container)
    [ ([NotFound], fun _ => mret "not found");
      ([Exception_], fun _ => mret "error") ].

Definition get_container_logs (container_id : string) (lines : Z)
  : M D (list string) :=
  docker_call FromEnv ;;
  try_except
    (container ← docker_call (ContainersGet container_id);
     raw ← logs_call container lines false;
     logs ← lift (bytes_decode_utf8 raw);
     mret (splitlines logs))
    [ ([NotFound], fun _ => mret []);
      ([Exception_], fun e =>
         print ("Error getting container logs: " +:+ str_exn e) ;; mret []) ].
End StatusAndLogs.

(** The exceptions that [get_container_stats] turns into [None]
    without a message. *)
Definition silent_failure (e : exn) : bool :=
  isinstance e NotFound || isinstance e KeyError || isinstance e AttributeError.

(** A text with a line feed or a carriage return in it. *)
Fixpoint has_newline (s : string) : bool :=
  match s with
  | EmptyString => false
  | String c s' => (byte c =? 10)%nat || (byte c =? 13)%nat || has_newline s'
  end.

(** The reference daemon's telemetry: a handle carries the state the
    daemon holds for its container, and every container has the same
    two lines of log, of which [tail] are returned. *)
Module SimTelemetry.
Import Sim.

Definition line_feed : string := String (ascii_of_nat 10) EmptyString.

Definition log_lines : list string := ["Listening on 5000"; "ready"].

Definition state_of (d : daemon) (c : Container) : result string :=
  match find (fun entry => bool_decide (fst entry = ct_name c)) (containers d) with
  | Some entry => Ok (snd entry)
  | None => error KeyError "State"
  end.

Definition tail_of (c : Container) (tail : Z) (stream : bool) (d : daemon)
  : result string * daemon :=
  match known d (ct_name c) with
  | Some _ =>
      (Ok (foldr (fun l acc => l +:+ line_feed +:+ acc) EmptyString
             (drop (length log_lines - Z.to_nat tail) log_lines)), d)
  | None => (not_found (ct_name c), d)
  end.

#[global] Instance daemon_telemetry : DockerTelemetry daemon :=
  {| status_at := state_of; container_logs := tail_of |}.
End SimTelemetry.

(** A daemon that answers as the reference daemon does, but whose
    handles carry no state and whose logs are no UTF-8. *)
Module Garbled.
Record daemon := { inner : Sim.daemon }.

#[global] Instance daemon_runtime : DockerRuntime daemon := fun c d =>
  let '(r, d') := Sim.answer c (inner d) in (r, {| inner := d' |}).

#[global] Instance daemon_telemetry : DockerTelemetry daemon :=
  {| status_at := fun _ _ => error KeyError "State";
     container_logs := fun _ _ _ d => (Ok (String (ascii_of_nat 255) EmptyString), d) |}.

Definition provisioned : world daemon :=
  {| docker := {| inner := docker Scenario.provisioned |};
     db := db Scenario.provisioned; trace := []; stdout := []; cwd := "/srv/app" |}.
End Garbled.

(** The daemon of [Scenario.provisioned] reporting the snapshot [snap]
    for every container. *)
Module Metering.
Import Sim.

Definition metered (snap : json) : world daemon :=
  let d := docker Scenario.provisioned in
  boot {| reachable := reachable d; build_breaks := build_breaks d;
          networks := networks d; volume_names := volume_names d;
          images := images d; containers := containers d; snapshot := snap |}
       (db Scenario.provisioned).

(** A snapshot with the CPU counters only and empty memory statistics. *)
Definition bare : json :=
  JObj [("cpu_stats",
         JObj [("cpu_usage", JObj [("total_usage", JInt 500)]);
               ("system_cpu_usage", JInt 1400)]);
        ("precpu_stats",
         JObj [("cpu_usage", JObj [("total_usage", JInt 400)]);
               ("system_cpu_usage", JInt 1000)]);
        ("memory_stats", JObj [])].

(** The same with a memory limit of zero. *)
Definition unlimited : json :=
  JObj [("cpu_stats",
         JObj [("cpu_usage", JObj [("total_usage", JInt 500)]);
               ("system_cpu_usage", JInt 1400)]);
        ("precpu_stats",
         JObj [("cpu_usage", JObj [("total_usage", JInt 400)]);
               ("system_cpu_usage", JInt 1000)]);
        ("memory_stats", JObj [("usage", JInt 1048576); ("limit", JInt 0)])].
End Metering.

(** * Properties *)

(** ** The class hierarchy *)

Lemma isinstance_Exception (e : exn) : isinstance e Exception_ = true.
Proof. destruct e as [[] m]; reflexivity. Qed.

(** ** The port scan *)

Module PortAllocatorFacts.
Import PortAllocator.
Section Scan.
Variable in_use : Z -> bool.

Lemma sock_bind_valid (p : Z) :
  valid_port p ->
  sock_bind in_use p = Ok tt <-> in_use p = false.
Proof.
  intros [H0 H1]. unfold sock_bind.
  destruct (p <? 0) eqn:E0; [lia|]. destruct (65535 <? p) eqn:E1; [lia|].
  simpl. destruct (in_use p); split; congruence.
Qed.

Lemma is_port_available_valid (p : Z) :
  valid_port p ->
  _is_port_available in_use p = Ok (negb (in_use p)).
Proof.
  intros [H0 H1]. unfold _is_port_available, sock_bind.
  destruct (p <? 0) eqn:E0; [lia|]. destruct (65535 <? p) eqn:E1; [lia|].
  simpl. destruct (in_use p); reflexivity.
Qed.

Lemma is_port_available_invalid (p : Z) :
  ~ valid_port p ->
  exists e, _is_port_available in_use p = Raise e /\ exn_cls e = OverflowError.
Proof.
  intros Hp. unfold _is_port_available, sock_bind.
  destruct ((p <? 0) || (65535 <? p)) eqn:E.
  - eexists. split; reflexivity.
  - apply orb_false_iff in E as [E0 E1]. exfalso. apply Hp. unfold valid_port. lia.
Qed.

(** The loop, on a window of valid port numbers: it stops at the
    first free port, and runs to the end only past ports in use. *)
Lemma scan_range_spec (n : nat) (port : Z) :
  0 <= port -> ((0 < n)%nat -> port + Z.of_nat n <= 65536) ->
  match scan_range in_use n port with
  | Ok (Some p) =>
      port <= p < port + Z.of_nat n /\ in_use p = false /\
      forall q, port <= q < p -> in_use q = true
  | Ok None => forall q, port <= q < port + Z.of_nat n -> in_use q = true
  | Raise _ => False
  end.
Proof.
  revert port. induction n as [|n IH]; intros port H0 H1.
  - simpl. intros q Hq. lia.
  - specialize (H1 ltac:(lia)).
    cbn [scan_range]. rewrite is_port_available_valid by (unfold valid_port; lia).
    destruct (in_use port) eqn:Eport; simpl.
    + specialize (IH (port + 1) ltac:(lia) ltac:(lia)).
      destruct (scan_range in_use n (port + 1)) as [[p|]|e]; [| |exact IH].
      * destruct IH as (Hr & Hf & Hl). split; [lia|]. split; [exact Hf|].
        intros q Hq. destruct (decide (q = port)) as [->|Hne]; [exact Eport|].
        apply Hl. lia.
      * intros q Hq. destruct (decide (q = port)) as [->|Hne]; [exact Eport|].
        apply IH. lia.
    + split; [lia|]. split; [exact Eport|]. intros q Hq. lia.
Qed.
End Scan.
End PortAllocatorFacts.

Import PortAllocator PortAllocatorFacts.

(** C5, as stated, fails: the scan is promised to end in the no-port
    error whenever no port of the window can be bound.  With port 65535
    in use, the window of two ports starting there holds no port that
    can be bound, yet the scan ends in the [OverflowError] that [bind]
    raises for 65536, which [_is_port_available] does not catch. *)
Lemma get_next_available_port_not_total :
  ~ (forall (in_use : Z -> bool) (start_port max_attempts : Z),
        (forall p, start_port <= p < start_port + max_attempts ->
                   sock_bind in_use p <> Ok tt) ->
        _get_next_available_port in_use start_port max_attempts
        = Raise (no_port_error start_port max_attempts)).
Proof.
  intros H. specialize (H (fun _ => true) 65535 2).
  assert (Hno : forall p, 65535 <= p < 65535 + 2 ->
                          sock_bind (fun _ => true) p <> Ok tt).
  { intros p Hp. unfold sock_bind.
    destruct ((p <? 0) || (65535 <? p)); discriminate. }
  specialize (H Hno). vm_compute in H. discriminate H.
Qed.

(** C5, amended: on a window of valid port numbers
    ([0 <= start_port] and [start_port + max_attempts <= 65536]) the
    scan returns the lowest port of the window on which [bind]
    succeeds, returns nothing else, and raises the no-port
    [RuntimeError] when [bind] succeeds on no port of the window. *)
Theorem get_next_available_port_window
    (in_use : Z -> bool) (start_port max_attempts : Z) :
  0 <= start_port -> start_port + max_attempts <= 65536 ->
  (forall p, start_port <= p < start_port + max_attempts ->
             sock_bind in_use p = Ok tt ->
             (forall q, start_port <= q < p -> sock_bind in_use q <> Ok tt) ->
             _get_next_available_port in_use start_port max_attempts = Ok p) /\
  (forall p, _get_next_available_port in_use start_port max_attempts = Ok p ->
             start_port <= p < start_port + max_attempts /\
             sock_bind in_use p = Ok tt /\
             forall q, start_port <= q < p -> sock_bind in_use q <> Ok tt) /\
  ((forall p, start_port <= p < start_port + max_attempts ->
              sock_bind in_use p <> Ok tt) ->
   _get_next_available_port in_use start_port max_attempts
   = Raise (no_port_error start_port max_attempts)).
Proof.
  intros H0 H1.
  assert (Hbind : forall q, start_port <= q < start_port + max_attempts ->
                            (sock_bind in_use q = Ok tt <-> in_use q = false)).
  { intros q Hq. apply sock_bind_valid. unfold valid_port. lia. }
  pose proof (scan_range_spec in_use (Z.to_nat max_attempts) start_port H0
                ltac:(lia)) as Hscan.
  unfold _get_next_available_port.
  destruct (scan_range in_use (Z.to_nat max_attempts) start_port)
    as [[r|]|e]; [| |contradiction].
  - destruct Hscan as (Hr & Hfree & Hlow).
    assert (Hr' : start_port <= r < start_port + max_attempts) by lia.
    split; [|split].
    + intros p Hp Hok Hmin. f_equal.
      destruct (Z.lt_trichotomy p r) as [Hlt|[->|Hgt]]; [|reflexivity|].
      * apply Hbind in Hok; [|exact Hp].
        rewrite Hlow in Hok by lia. discriminate.
      * exfalso. apply (Hmin r); [lia|]. apply Hbind; assumption.
    + intros p [= <-]. split; [exact Hr'|]. split; [apply Hbind; assumption|].
      intros q Hq Hok. apply Hbind in Hok; [|lia].
      rewrite Hlow in Hok by lia. discriminate.
    + intros Hnone. exfalso. apply (Hnone r Hr'). apply Hbind; assumption.
  - split; [|split].
    + intros p Hp Hok _. exfalso. apply Hbind in Hok; [|exact Hp].
      rewrite Hscan in Hok by lia. discriminate.
    + intros p [=].
    + reflexivity.
Qed.

(** The amended C5 at work: ports 5000 to 5002 are taken, the scan of
    a hundred ports from 5000 answers 5003; with every port taken it
    raises the no-port error. *)
Lemma get_next_available_port_window_witness :
  _get_next_available_port (fun p => p <? 5003) 5000 100 = Ok 5003 /\
  _get_next_available_port (fun _ => true) 5000 100
  = Raise (no_port_error 5000 100).
Proof.
  split.
  - apply (proj1 (get_next_available_port_window (fun p => p <? 5003) 5000 100
                    ltac:(lia) ltac:(lia)) 5003).
    + lia.
    + reflexivity.
    + intros q Hq. unfold sock_bind.
      destruct ((q <? 0) || (65535 <? q)); [discriminate|].
      destruct (q <? 5003) eqn:E; [discriminate|lia].
  - apply (proj2 (proj2 (get_next_available_port_window (fun _ => true) 5000 100
                           ltac:(lia) ltac:(lia)))).
    intros p Hp. unfold sock_bind.
    destruct ((p <? 0) || (65535 <? p)); discriminate.
Defined.

(** ** The tenant configuration *)

Lemma generate_unique_config_eq (t : Z) :
  _generate_unique_config t
  = Ok (5000 + t, "db_" +:+ pretty t, "cyber_" +:+ pretty t).
Proof. reflexivity. Qed.

(** The derivation returns when [int] and the rendering do. *)
Lemma generate_unique_config_ok {V : Type} `{!TenantId V} (t : V) n text :
  py_int t = Ok n -> py_format t = Ok text ->
  _generate_unique_config t = Ok (5000 + n, "db_" +:+ text, "cyber_" +:+ text).
Proof. intros Hn Ht. unfold _generate_unique_config. rewrite Hn, Ht. reflexivity. Qed.

(** And only then. *)
Lemma generate_unique_config_inv {V : Type} `{!TenantId V} (t : V) c :
  _generate_unique_config t = Ok c ->
  exists n text,
    py_int t = Ok n /\ py_format t = Ok text /\
    c = (5000 + n, "db_" +:+ text, "cyber_" +:+ text).
Proof.
  unfold _generate_unique_config.
  destruct (py_int t) as [n|e]; [|discriminate].
  destruct (py_format t) as [text|e]; [|discriminate].
  intros [= <-]. exists n, text. auto.
Qed.

Lemma append_inj_r (p s1 s2 : string) : p +:+ s1 = p +:+ s2 -> s1 = s2.
Proof.
  induction p as [|c p IH]; cbn; intros H; [exact H|].
  apply IH. injection H as H. exact H.
Qed.

(** X24: for two identifiers of any type on which the derivation
    returns, the ports are equal exactly when [int] gives both the same
    number, and the database names are equal, like the project names,
    exactly when both are rendered as the same text. *)
Theorem generate_unique_config_collisions {V : Type} `{!TenantId V}
    (t1 t2 : V) c1 c2 :
  _generate_unique_config t1 = Ok c1 ->
  _generate_unique_config t2 = Ok c2 ->
  (c1.1.1 = c2.1.1 <-> py_int t1 = py_int t2) /\
  (c1.1.2 = c2.1.2 <-> py_format t1 = py_format t2) /\
  (c1.2 = c2.2 <-> py_format t1 = py_format t2).
Proof.
  intros H1 H2.
  apply generate_unique_config_inv in H1 as (n1 & text1 & Hn1 & Ht1 & ->).
  apply generate_unique_config_inv in H2 as (n2 & text2 & Hn2 & Ht2 & ->).
  rewrite Hn1, Hn2, Ht1, Ht2. cbn [fst snd].
  split; [|split].
  - split; [intros H; f_equal; lia|intros [= ->]; reflexivity].
  - split; [intros H; apply append_inj_r in H; congruence|intros [= ->]; reflexivity].
  - split; [intros H; apply append_inj_r in H; congruence|intros [= ->]; reflexivity].
Qed.

(** X24 on the text ['7'] and the number 7: two identifiers with one
    port, one database name and one project name. *)
Lemma generate_unique_config_collisions_witness :
  IdStr Tenants.text_7 <> IdInt 7 /\
  _generate_unique_config (IdStr Tenants.text_7) = Ok (5007, "db_7", "cyber_7") /\
  _generate_unique_config (IdInt 7) = Ok (5007, "db_7", "cyber_7") /\
  ((5007, "db_7", "cyber_7").1.1 = (5007, "db_7", "cyber_7").1.1
   <-> py_int (IdStr Tenants.text_7) = py_int (IdInt 7)).
Proof.
  split; [discriminate|]. split; [reflexivity|]. split; [reflexivity|].
  exact (proj1 (generate_unique_config_collisions
                  (IdStr Tenants.text_7) (IdInt 7) _ _ eq_refl eq_refl)).
Defined.

(** C7, as stated, fails: every two different identifiers are promised
    different ports.  The texts ['007'] and ['7'] are two identifiers
    that [int] sends to the same number, so the derivation gives both
    the port 5007. *)
Lemma generate_unique_config_collision :
  ~ (forall (t1 t2 : tenant_id) c1 c2,
        t1 <> t2 ->
        _generate_unique_config t1 = Ok c1 ->
        _generate_unique_config t2 = Ok c2 ->
        c1.1.1 <> c2.1.1 /\ c1.1.2 <> c2.1.2 /\ c1.2 <> c2.2).
Proof.
  intros H.
  destruct (H (IdStr Tenants.text_007) (IdStr Tenants.text_7)
              (5007, "db_007", "cyber_007") (5007, "db_7", "cyber_7"))
    as (Hport & _).
  - intros E. apply (f_equal (fun t => match t with
                                       | IdStr t => chars t
                                       | IdInt _ => EmptyString
                                       end)) in E.
    discriminate E.
  - reflexivity.
  - reflexivity.
  - apply Hport. reflexivity.
Qed.

(** C7, amended: two different tenants identified by integers get
    different ports, different database names and different project
    names. *)
Theorem generate_unique_config_distinct (t1 t2 : Z) :
  t1 <> t2 ->
  exists c1 c2,
    _generate_unique_config t1 = Ok c1 /\
    _generate_unique_config t2 = Ok c2 /\
    c1.1.1 <> c2.1.1 /\ c1.1.2 <> c2.1.2 /\ c1.2 <> c2.2.
Proof.
  intros Hne. eexists _, _.
  split; [apply generate_unique_config_eq|].
  split; [apply generate_unique_config_eq|]. cbn [fst snd].
  split; [lia|]. split.
  - intros H. apply append_inj_r in H. apply Hne. exact (inj pretty _ _ H).
  - intros H. apply append_inj_r in H. apply Hne. exact (inj pretty _ _ H).
Qed.

(** The amended C7 on tenants 1 and 2. *)
Lemma generate_unique_config_distinct_witness :
  exists c1 c2,
    _generate_unique_config 1 = Ok c1 /\
    _generate_unique_config 2 = Ok c2 /\
    c1.1.1 <> c2.1.1 /\ c1.1.2 <> c2.1.2 /\ c1.2 <> c2.2.
Proof. apply (generate_unique_config_distinct 1 2). lia. Defined.

(** ** The CPU figure *)

Lemma truediv_nonzero (a b : Z) (e : exn) :
  b <> 0 -> truediv a b = Raise e -> exn_cls e = OverflowError.
Proof.
  intros Hb. unfold truediv. destruct (b =? 0) eqn:E; [lia|].
  destruct (float_overflow a b); [|discriminate].
  unfold error. intros [= <-]. reflexivity.
Qed.

Lemma cpu_usage_of_guarded (cpu_delta system_delta : Z) :
  system_delta <= 0 -> cpu_usage_of cpu_delta system_delta = Ok (PyInt 0).
Proof.
  intros H. unfold cpu_usage_of. destruct (0 <? system_delta) eqn:E; [lia|].
  reflexivity.
Qed.

Lemma cpu_usage_of_positive (cpu_delta system_delta : Z) :
  0 < system_delta ->
  cpu_usage_of cpu_delta system_delta
  = q ← truediv cpu_delta system_delta; Ok (PyFloat (FMul q (FLit 100))).
Proof.
  intros H. unfold cpu_usage_of. destruct (0 <? system_delta) eqn:E; [|lia].
  reflexivity.
Qed.

(** What [stats_of_snapshot] returns carries the rounded CPU figure of
    the deltas it read. *)
Lemma stats_of_snapshot_cpu (stats : json) (r : container_stats) :
  stats_of_snapshot stats = Ok r ->
  exists cpu_delta system_delta cpu_usage,
    cpu_deltas stats = Ok (cpu_delta, system_delta) /\
    cpu_usage_of cpu_delta system_delta = Ok cpu_usage /\
    cpu_percent r = py_round cpu_usage 2.
Proof.
  unfold stats_of_snapshot, mbind, result_bind.
  destruct (cpu_deltas stats) as [[cd sd]|e] eqn:Hd; [|discriminate].
  destruct (cpu_usage_of cd sd) as [u|e] eqn:Hu; [|discriminate].
  intros H. exists cd, sd, u. split; [reflexivity|]. split; [exact Hu|].
  repeat match type of H with
         | match ?x with _ => _ end = _ => destruct x; [|discriminate]
         end.
  injection H as <-. reflexivity.
Qed.

(** C8: with [system_delta <= 0] the CPU figure is the integer 0 for
    every [cpu_delta]; with [system_delta > 0] it is
    [(cpu_delta / system_delta) * 100.0]; the computation never divides
    by zero; and the [cpu_percent] field returned is that figure under
    [round(_, 2)], hence 0 again under the guard. *)
Theorem cpu_percent_guard (cpu_delta system_delta : Z) :
  (system_delta <= 0 -> cpu_usage_of cpu_delta system_delta = Ok (PyInt 0)) /\
  (0 < system_delta -> float_overflow cpu_delta system_delta = false ->
   cpu_usage_of cpu_delta system_delta
   = Ok (PyFloat (FMul (FTrueDiv cpu_delta system_delta) (FLit 100)))) /\
  (forall e, cpu_usage_of cpu_delta system_delta = Raise e ->
             0 < system_delta /\ exn_cls e <> ZeroDivisionError) /\
  (forall stats r,
      cpu_deltas stats = Ok (cpu_delta, system_delta) ->
      stats_of_snapshot stats = Ok r ->
      (system_delta <= 0 -> cpu_percent r = PyInt 0) /\
      (0 < system_delta ->
       cpu_percent r
       = PyFloat (FRound (FMul (FTrueDiv cpu_delta system_delta) (FLit 100)) 2))).
Proof.
  split; [apply cpu_usage_of_guarded|]. split; [|split].
  - intros Hpos Hfin. rewrite cpu_usage_of_positive by exact Hpos.
    unfold truediv. destruct (system_delta =? 0) eqn:E; [lia|]. rewrite Hfin.
    reflexivity.
  - intros e He. destruct (Z_lt_le_dec 0 system_delta) as [Hpos|Hle].
    + split; [exact Hpos|]. rewrite cpu_usage_of_positive in He by exact Hpos.
      unfold mbind, result_bind in He.
      destruct (truediv cpu_delta system_delta) as [q|e'] eqn:Eq; [discriminate|].
      injection He as <-. apply truediv_nonzero in Eq; [|lia]. rewrite Eq. discriminate.
    + rewrite cpu_usage_of_guarded in He by exact Hle. discriminate.
  - intros stats r Hd Hr.
    destruct (stats_of_snapshot_cpu stats r Hr) as (cd & sd & u & Hd' & Hu & Hcpu).
    rewrite Hd in Hd'. injection Hd' as <- <-. split.
    + intros Hle. rewrite cpu_usage_of_guarded in Hu by exact Hle.
      injection Hu as <-. exact Hcpu.
    + intros Hpos. rewrite cpu_usage_of_positive in Hu by exact Hpos.
      unfold mbind, result_bind, truediv in Hu.
      destruct (system_delta =? 0); [discriminate|].
      destruct (float_overflow cpu_delta system_delta); [discriminate|].
      injection Hu as <-. exact Hcpu.
Qed.

(** ** Running the monad *)

Section MonadFacts.
Context {D : Type} `{!DockerRuntime D}.

Lemma bind_run {A B} (m : M D A) (f : A -> M D B) (w : world D) :
  (m ≫= f) w = match m w with
               | (Ok a, w') => f a w'
               | (Raise e, w') => (Raise e, w')
               end.
Proof. reflexivity. Qed.

Lemma bind_assoc_run {A B C} (m : M D A) (f : A -> M D B) (g : B -> M D C) w :
  ((m ≫= f) ≫= g) w = (m ≫= fun a => f a ≫= g) w.
Proof. rewrite !bind_run. destruct (m w) as [[a|e] w1]; reflexivity. Qed.

Lemma bind_ok {A B} (m : M D A) (f : A -> M D B) w b w' :
  (m ≫= f) w = (Ok b, w') ->
  exists a w1, m w = (Ok a, w1) /\ f a w1 = (Ok b, w').
Proof.
  rewrite bind_run. destruct (m w) as [[a|e] w1]; [|discriminate].
  intros H. exists a, w1. split; [reflexivity|exact H].
Qed.

Lemma try_except_run {A} (body : M D A) hs w :
  try_except body hs w = match body w with
                         | (Ok a, w') => (Ok a, w')
                         | (Raise e, w') => dispatch hs e w'
                         end.
Proof. reflexivity. Qed.

Lemma docker_call_run (c : call) (w : world D) :
  docker_call c w
  = ((runtime c (docker w)).1,
     {| docker := (runtime c (docker w)).2; db := db w;
        trace := trace w ++ [c]; stdout := stdout w; cwd := cwd w |}).
Proof. unfold docker_call. destruct (runtime c (docker w)); reflexivity. Qed.

(** *** Closure of [emits] under the constructs of the monad *)

Lemma emits_ret {A} P (a : A) : emits (D:=D) P (mret a).
Proof.
  intros w. simpl. split; [reflexivity|]. split; [reflexivity|].
  exists []. rewrite app_nil_r. split; [reflexivity|constructor].
Qed.

Lemma emits_raise {A} P e : emits (D:=D) (A:=A) P (raise e).
Proof.
  intros w. simpl. split; [reflexivity|]. split; [reflexivity|].
  exists []. rewrite app_nil_r. split; [reflexivity|constructor].
Qed.

Lemma emits_bind {A B} P (m : M D A) (f : A -> M D B) :
  emits P m -> (forall a, emits P (f a)) -> emits P (m ≫= f).
Proof.
  intros Hm Hf w. rewrite bind_run.
  destruct (Hm w) as (Hdb & Hcwd & t & Ht & HP).
  destruct (m w) as [[a|e] w1]; simpl in *.
  - destruct (Hf a w1) as (Hdb' & Hcwd' & t' & Ht' & HP').
    split; [congruence|]. split; [congruence|].
    exists (t ++ t'). rewrite Ht', Ht, app_assoc. split; [reflexivity|].
    apply Forall_app; split; assumption.
  - split; [exact Hdb|]. split; [exact Hcwd|]. exists t. split; assumption.
Qed.

Lemma emits_dispatch {A} P (hs : list (handler D A)) e :
  Forall (fun h => forall e, emits P (h.2 e)) hs -> emits P (dispatch hs e).
Proof.
  induction 1 as [|[classes h] hs Hh _ IH]; simpl.
  - apply emits_raise.
  - destruct (existsb (isinstance e) classes); [apply Hh|exact IH].
Qed.

Lemma emits_try_except {A} P (body : M D A) hs :
  emits P body -> Forall (fun h => forall e, emits P (h.2 e)) hs ->
  emits P (try_except body hs).
Proof.
  intros Hb Hhs w. rewrite try_except_run.
  destruct (Hb w) as (Hdb & Hcwd & t & Ht & HP).
  destruct (body w) as [[a|e] w1]; simpl in *.
  - split; [exact Hdb|]. split; [exact Hcwd|]. exists t. split; assumption.
  - destruct (emits_dispatch P hs e Hhs w1) as (Hdb' & Hcwd' & t' & Ht' & HP').
    split; [congruence|]. split; [congruence|].
    exists (t ++ t'). rewrite Ht', Ht, app_assoc. split; [reflexivity|].
    apply Forall_app; split; assumption.
Qed.

Lemma emits_for_each {A} P (xs : list A) (f : A -> M D unit) :
  (forall x, emits P (f x)) -> emits P (for_each xs f).
Proof.
  intros Hf. induction xs as [|x xs IH]; simpl.
  - apply emits_ret.
  - apply emits_bind; [apply Hf|intros _; exact IH].
Qed.

Lemma emits_docker_call (P : call -> Prop) c : P c -> emits P (docker_call c).
Proof.
  intros Hc w. rewrite docker_call_run. simpl.
  split; [reflexivity|]. split; [reflexivity|].
  exists [c]. split; [reflexivity|]. constructor; [exact Hc|constructor].
Qed.

Lemma emits_print P line : emits (D:=D) P (print line).
Proof.
  intros w. simpl. split; [reflexivity|]. split; [reflexivity|].
  exists []. rewrite app_nil_r. split; [reflexivity|constructor].
Qed.

Lemma emits_os_getcwd P : emits (D:=D) P os_getcwd.
Proof.
  intros w. simpl. split; [reflexivity|]. split; [reflexivity|].
  exists []. rewrite app_nil_r. split; [reflexivity|constructor].
Qed.

Lemma emits_weaken {A} (P Q : call -> Prop) (m : M D A) :
  (forall c, P c -> Q c) -> emits P m -> emits Q m.
Proof.
  intros HPQ Hm w. destruct (Hm w) as (Hdb & Hcwd & t & Ht & HP).
  split; [exact Hdb|]. split; [exact Hcwd|]. exists t. split; [exact Ht|].
  eapply Forall_impl; eassumption.
Qed.
Lemma emits_elim {A} P (m : M D A) w r w' :
  emits P m -> m w = (r, w') ->
  db w' = db w /\ cwd w' = cwd w /\
  exists t, trace w' = trace w ++ t /\ Forall P t.
Proof. intros Hm Hrun. specialize (Hm w). rewrite Hrun in Hm. exact Hm. Qed.

Lemma docker_call_ok (c : call) w a w' :
  docker_call c w = (Ok a, w') ->
  runtime c (docker w) = (Ok a, docker w') /\
  trace w' = trace w ++ [c] /\ db w' = db w /\
  stdout w' = stdout w /\ cwd w' = cwd w.
Proof.
  rewrite docker_call_run. destruct (runtime c (docker w)) as [r d]. simpl.
  intros [= -> <-]. simpl. repeat split; reflexivity.
Qed.

(** A [try] whose body is one call: the call is recorded first,
    whatever the handlers then do. *)
Lemma try_docker_call_trace (c : call) (hs : list (handler D (ret c))) w :
  Forall (fun h => forall e, emits (fun _ => True) (h.2 e)) hs ->
  exists t, trace (try_except (docker_call c) hs w).2 = trace w ++ c :: t.
Proof.
  intros Hhs. rewrite try_except_run, docker_call_run.
  destruct (runtime c (docker w)) as [[a|e] d]; simpl.
  - exists []. reflexivity.
  - match goal with |- context [dispatch hs e ?w1] =>
      destruct (emits_dispatch _ hs e Hhs w1) as (_ & _ & t & Ht & _)
    end.
    exists t. rewrite Ht. simpl. rewrite <- app_assoc. reflexivity.
Qed.

(** A [try] whose only clause re-raises succeeds only if its body
    does. *)
Lemma try_except_reraise_ok {A} (body : M D A) classes (msg : exn -> string) w a w' :
  try_except body [(classes, fun e => raise_Exception (msg e))] w = (Ok a, w') ->
  body w = (Ok a, w').
Proof.
  rewrite try_except_run. destruct (body w) as [[a0|e] w1]; [intros H; exact H|].
  simpl. destruct (existsb (isinstance e) classes); discriminate.
Qed.

Lemma isinstance_Exception_dispatch {A} (h : exn -> M D A) e :
  dispatch [([Exception_], h)] e = h e.
Proof. simpl. rewrite isinstance_Exception. reflexivity. Qed.
Lemma docker_call_session (c : call) (w : world D) :
  db (docker_call c w).2 = db w.
Proof. rewrite docker_call_run. reflexivity. Qed.
End MonadFacts.

(** ** The deployment helpers only talk to the daemon *)

Tactic Notation "call_ok" hyp(H) "as" simple_intropattern(pat) :=
  match type of H with
  | docker_call ?c _ = _ => apply (docker_call_ok c) in H as pat
  end.

Ltac emits_handlers :=
  lazymatch goal with
  | |- Forall _ [] => constructor
  | |- Forall _ (_ :: _) => constructor; [intros ?; cbn [snd]|emits_handlers]
  end.

Ltac emits_step :=
  lazymatch goal with
  | |- emits _ (mret _) => apply emits_ret
  | |- emits _ (raise _) => apply emits_raise
  | |- emits _ (raise_Exception _) => apply emits_raise
  | |- emits _ (print _) => apply emits_print
  | |- emits _ os_getcwd => apply emits_os_getcwd
  | |- emits _ (docker_call ?c) =>
      apply (emits_docker_call _ c); simpl; repeat split; auto
  | |- emits _ (for_each _ _) => apply emits_for_each; intros ?
  | |- emits _ (try_except _ _) =>
      apply emits_try_except; [|emits_handlers]
  | |- emits _ (_ ≫= _) => apply emits_bind; [|intros ?]
  | |- emits _ (match ?x with _ => _ end) => destruct x
  end.

Section Deployment.
Context {D : Type} `{!DockerRuntime D}.

Lemma print_chunk_emits P chunk : emits (D:=D) P (print_chunk chunk).
Proof. unfold print_chunk. repeat emits_step. Qed.

Lemma get_compose_file_emits P plan : emits (D:=D) P (_get_compose_file plan).
Proof. unfold _get_compose_file. repeat emits_step. Qed.

Lemma build_main_image_emits project host_port db_password db_name :
  emits (provisioning_call project host_port db_password db_name)
        (build_main_image project).
Proof.
  unfold build_main_image. repeat emits_step.
  apply print_chunk_emits.
Qed.

Lemma deploy_postgres_container_emits project host_port db_password db_name :
  emits (provisioning_call project host_port db_password db_name)
        (deploy_postgres_container project db_password db_name).
Proof. unfold deploy_postgres_container. repeat emits_step. Qed.

Lemma deploy_main_container_emits project host_port db_password db_name :
  emits (provisioning_call project host_port db_password db_name)
        (deploy_main_container project host_port db_password db_name).
Proof.
  unfold deploy_main_container. repeat emits_step.
  apply build_main_image_emits.
Qed.
Lemma ensure_network_trace network_name w :
  exists t,
    trace (try_except (docker_call (NetworksGet network_name))
             [([NotFound], fun _ => docker_call (NetworksCreate network_name "bridge"))]
             w).2
    = trace w ++ NetworksGet network_name :: t.
Proof.
  apply try_docker_call_trace. constructor; [|constructor].
  intros e. apply (emits_docker_call _ (NetworksCreate _ _)). exact I.
Qed.

(** A successful [deploy_postgres_container]: the container returned
    is the daemon's answer to the final [containers.run], and the
    network and the volume were asked for by name before it. *)
Lemma deploy_postgres_container_ok project db_password db_name w c w' :
  deploy_postgres_container project db_password db_name w = (Ok c, w') ->
  let kw := postgres_kwargs (project +:+ "_postgres") (project +:+ "_postgres_data")
                            (project +:+ "_network") db_password db_name in
  exists t d,
    trace w' = trace w ++ t ++ [ContainersRun kw] /\
    runtime (ContainersRun kw) d = (Ok c, docker w') /\
    In (NetworksGet (project +:+ "_network")) t /\
    In (VolumesList (project +:+ "_postgres_data")) t.
Proof.
  intros H. cbv zeta. unfold deploy_postgres_container in H.
  apply bind_ok in H as (u0 & w1 & H1 & H).
  apply bind_ok in H as (u1 & w2 & H2 & H).
  apply try_except_reraise_ok in H.
  apply bind_ok in H as (existing & w3 & H3 & H).
  apply bind_ok in H as (u4 & w4 & H4 & H).
  apply bind_ok in H as (vols & w5 & H5 & H).
  apply bind_ok in H as (u6 & w6 & H6 & H).
  apply bind_ok in H as (c7 & w7 & H7 & H).
  cbv [mret M_ret] in H. injection H as -> ->.
  call_ok H1 as (_ & T1 & _).
  destruct (ensure_network_trace (project +:+ "_network") w1) as (t2 & T2).
  rewrite H2 in T2. simpl in T2.
  call_ok H3 as (_ & T3 & _).
  eapply (emits_elim (fun _ => True)) in H4 as (_ & _ & t4 & T4 & _);
    [|apply emits_for_each; intros x; apply (emits_docker_call _ (ContainerRemove _ _)); exact I].
  call_ok H5 as (_ & T5 & _).
  eapply (emits_elim (fun _ => True)) in H6 as (_ & _ & t6 & T6 & _);
    [|destruct vols; [apply (emits_docker_call _ (VolumesCreate _)); exact I|apply emits_ret]].
  call_ok H7 as (R7 & T7 & _).
  exists ([FromEnv] ++ (NetworksGet (project +:+ "_network") :: t2)
          ++ [ContainersList true (project +:+ "_postgres")] ++ t4
          ++ [VolumesList (project +:+ "_postgres_data")] ++ t6), (docker w6).
  split; [|split; [exact R7|split]].
  - rewrite T7, T6, T5, T4, T3, T2, T1. rewrite <- !app_assoc. reflexivity.
  - simpl. right. left. reflexivity.
  - apply in_or_app. right. apply in_or_app. right.
    apply in_or_app. right. apply in_or_app. right.
    apply in_or_app. left. left. reflexivity.
Qed.

(** A successful [deploy_main_container]: likewise, with the image
    asked for by its tag. *)
Lemma deploy_main_container_ok project host_port db_password db_name w c w' :
  deploy_main_container project host_port db_password db_name w = (Ok c, w') ->
  let kw := main_kwargs (project +:+ "_cyber:latest") (project +:+ "_cyber")
                        (project +:+ "_network") project host_port
                        db_password db_name in
  exists t d,
    trace w' = trace w ++ t ++ [ContainersRun kw] /\
    runtime (ContainersRun kw) d = (Ok c, docker w') /\
    In (NetworksGet (project +:+ "_network")) t /\
    In (ImagesGet (project +:+ "_cyber:latest")) t.
Proof.
  intros H. cbv zeta. unfold deploy_main_container in H.
  apply bind_ok in H as (u0 & w1 & H1 & H).
  apply bind_ok in H as (u1 & w2 & H2 & H).
  apply try_except_reraise_ok in H.
  apply bind_ok in H as (u3 & w3 & H3 & H).
  apply bind_ok in H as (existing & w4 & H4 & H).
  apply bind_ok in H as (u5 & w5 & H5 & H).
  apply bind_ok in H as (c6 & w6 & H6 & H).
  cbv [mret M_ret] in H. injection H as -> ->.
  call_ok H1 as (_ & T1 & _).
  destruct (ensure_network_trace (project +:+ "_network") w1) as (t2 & T2).
  rewrite H2 in T2. simpl in T2.
  assert (exists t3, trace w3 = trace w2 ++ ImagesGet (project +:+ "_cyber:latest") :: t3)
    as (t3 & T3).
  { match type of H3 with ?m w2 = _ =>
      assert (Hm : exists t, trace (m w2).2 = trace w2 ++ ImagesGet (project +:+ "_cyber:latest") :: t)
    end.
    { apply try_docker_call_trace. constructor; [|constructor].
      intros e. cbn [snd]. apply emits_bind; [|intros ?; apply emits_ret].
      eapply emits_weaken; [|apply (build_main_image_emits project 0 "" "")].
      intros; exact I. }
    rewrite H3 in Hm. exact Hm. }
  call_ok H4 as (_ & T4 & _).
  eapply (emits_elim (fun _ => True)) in H5 as (_ & _ & t5 & T5 & _);
    [|apply emits_for_each; intros x; apply (emits_docker_call _ (ContainerRemove _ _)); exact I].
  call_ok H6 as (R6 & T6 & _).
  exists ([FromEnv] ++ (NetworksGet (project +:+ "_network") :: t2)
          ++ (ImagesGet (project +:+ "_cyber:latest") :: t3)
          ++ [ContainersList true (project +:+ "_cyber")] ++ t5), (docker w5).
  split; [|split; [exact R6|split]].
  - rewrite T6, T5, T4, T3, T2, T1. rewrite <- !app_assoc. reflexivity.
  - simpl. right. left. reflexivity.
  - apply in_or_app. right. apply in_or_app. right.
    apply in_or_app. left. left. reflexivity.
Qed.
End Deployment.

(** ** Provisioning *)

Section Provisioning.
Context {D : Type} `{!DockerRuntime D}.

(** The last four statements of the [try] block: both rows reach the
    table in one commit, or the commit raises and neither does. *)
Lemma persist_run (c p : ContainerManager) (name : string) (w : world D) :
  (db_session_add c ;; db_session_add p ;; db_session_commit ;;
   mret (Some name)) w
  = match flush (pending (db w) ++ [PendingAdd c; PendingAdd p]) (rows (db w)) with
    | Some t => (Ok (Some name), put_session w (committed (db w) t))
    | None => (Raise integrity_error, put_session w (rolled_back (db w)))
    end.
Proof.
  cbv [mbind M_bind mret M_ret db_session_add db_session_commit with_db].
  cbn [db rows pending commits docker trace stdout cwd].
  rewrite <- app_assoc. cbn [app].
  destruct (flush _ _); reflexivity.
Qed.

(** The body of the [try] block, step by step. *)
Lemma create_container_body_run user_id plan (w : world D) :
  let project := "cyber_" +:+ pretty user_id in
  let db_name := "db_" +:+ pretty user_id in
  create_container_body user_id plan w
  = match deploy_postgres_container project "db1" db_name w with
    | (Raise e, w1) => (Raise e, w1)
    | (Ok postgres_container, w1) =>
        match deploy_main_container project (5000 + user_id) "db1" db_name w1 with
        | (Raise e, w2) => (Raise e, w2)
        | (Ok main_container, w2) =>
            (db_session_add
               (object_of (ct_name main_container) (main_columns user_id plan)) ;;
             db_session_add
               (object_of (ct_name postgres_container) (postgres_columns user_id plan)) ;;
             db_session_commit ;;
             mret (Some (ct_name main_container))) w2
        end
    end.
Proof. reflexivity. Qed.

Lemma create_container_run user_id plan (w : world D) :
  create_container user_id plan w
  = match docker_call FromEnv w with
    | (Raise e, w0) => (Raise e, w0)
    | (Ok _, w0) =>
        match create_container_body user_id plan w0 with
        | (Ok r, w1) => (Ok r, w1)
        | (Raise e, w1) =>
            (Ok None, (print ("Error creating container: " +:+ str_exn e) w1).2)
        end
    end.
Proof.
  unfold create_container. rewrite bind_run.
  destruct (docker_call FromEnv w) as [[u|e] w0]; [|reflexivity].
  rewrite try_except_run.
  destruct (create_container_body user_id plan w0) as [[r|e] w1]; [reflexivity|].
  rewrite isinstance_Exception_dispatch. reflexivity.
Qed.
Lemma flush_two_adds (c p : ContainerManager) (t0 t : gmap string columns) :
  flush [PendingAdd c; PendingAdd p] t0 = Some t ->
  t0 !! container_id c = None /\ t0 !! container_id p = None /\
  container_id c <> container_id p /\
  t = <[container_id p := columns_of p]> (<[container_id c := columns_of c]> t0).
Proof.
  cbn [flush]. destruct (t0 !! container_id c) eqn:Ec; [discriminate|].
  destruct (<[container_id c:=columns_of c]> t0 !! container_id p) eqn:Ep;
    [discriminate|].
  intros [= <-]. split; [reflexivity|].
  apply lookup_insert_None in Ep as [Ep Hne]. auto.
Qed.

(** Both deployments leave the session as it was. *)
Lemma deployments_keep_session user_id (w w0 w1 w2 : world D) u r1 r2 :
  docker_call FromEnv w = (u, w0) ->
  deploy_postgres_container ("cyber_" +:+ pretty user_id) "db1"
                            ("db_" +:+ pretty user_id) w0 = (r1, w1) ->
  deploy_main_container ("cyber_" +:+ pretty user_id) (5000 + user_id) "db1"
                        ("db_" +:+ pretty user_id) w1 = (r2, w2) ->
  db w2 = db w /\ db w1 = db w.
Proof.
  intros H0 H1 H2.
  eapply emits_elim in H0 as (E0 & _); [|apply (emits_docker_call (fun _ => True) FromEnv I)].
  eapply emits_elim in H1 as (E1 & _);
    [|apply (deploy_postgres_container_emits _ 0)].
  eapply emits_elim in H2 as (E2 & _); [|apply deploy_main_container_emits].
  split; congruence.
Qed.

(** C1: when [create_container] succeeds from a session with nothing
    pending, both deployments succeeded, the name returned is the one
    the daemon gave the application container in answer to
    [containers.run], and exactly two rows were added, by one commit:
    the database container's with port 5432 and the application
    container's with port [5000 + user_id], both [running]. *)
Theorem create_container_success user_id plan (w : world D) name w' :
  pending (db w) = [] ->
  create_container user_id plan w = (Ok (Some name), w') ->
  exists postgres_container main_container w1 w2 d,
    deploy_postgres_container ("cyber_" +:+ pretty user_id) "db1"
      ("db_" +:+ pretty user_id) (docker_call FromEnv w).2
    = (Ok postgres_container, w1) /\
    deploy_main_container ("cyber_" +:+ pretty user_id) (5000 + user_id) "db1"
      ("db_" +:+ pretty user_id) w1
    = (Ok main_container, w2) /\
    runtime (ContainersRun
               (main_kwargs ("cyber_" +:+ pretty user_id +:+ "_cyber:latest")
                            ("cyber_" +:+ pretty user_id +:+ "_cyber")
                            ("cyber_" +:+ pretty user_id +:+ "_network")
                            ("cyber_" +:+ pretty user_id) (5000 + user_id)
                            "db1" ("db_" +:+ pretty user_id))) d
    = (Ok main_container, docker w') /\
    name = ct_name main_container /\
    rows (db w) !! ct_name main_container = None /\
    rows (db w) !! ct_name postgres_container = None /\
    ct_name main_container <> ct_name postgres_container /\
    rows (db w')
    = <[ct_name postgres_container := postgres_columns user_id plan]>
        (<[ct_name main_container := main_columns user_id plan]> (rows (db w))) /\
    size (rows (db w')) = S (S (size (rows (db w)))) /\
    pending (db w') = [] /\
    commits (db w') = S (commits (db w)).
Proof.
  intros Hclean H. rewrite create_container_run in H.
  destruct (docker_call FromEnv w) as [[u|e] w0] eqn:E0; [|discriminate].
  destruct (create_container_body user_id plan w0) as [[r|e] wb] eqn:Eb;
    [|discriminate].
  injection H as -> ->. rewrite create_container_body_run in Eb. cbv zeta in Eb.
  destruct (deploy_postgres_container _ _ _ w0) as [[pg|e] w1] eqn:E1; [|discriminate].
  destruct (deploy_main_container _ _ _ _ w1) as [[mc|e] w2] eqn:E2; [|discriminate].
  destruct (deployments_keep_session _ _ _ _ _ _ _ _ E0 E1 E2) as (Hdb2 & _).
  rewrite persist_run in Eb. rewrite Hdb2, Hclean in Eb. cbn [app] in Eb.
  destruct (flush _ _) as [t|] eqn:Ef; [|discriminate].
  injection Eb as Hname <-. cbn [put_session committed db docker rows pending commits].
  apply flush_two_adds in Ef as (Hm & Hp & Hne & ->). cbn in Hm, Hp, Hne.
  destruct (deploy_main_container_ok _ _ _ _ _ _ _ E2) as (t2 & d & _ & Hrun & _).
  exists pg, mc, w1, w2, d.
  split; [exact E1|]. split; [exact E2|]. split; [exact Hrun|].
  split; [congruence|]. split; [exact Hm|]. split; [exact Hp|]. split; [exact Hne|].
  split; [reflexivity|]. split; [|split; reflexivity].
  rewrite !map_size_insert_None; [reflexivity|exact Hm|].
  rewrite lookup_insert_ne by exact Hne. exact Hp.
Qed.
(** The calls of a successful provisioning, for any tenant. *)
Lemma create_container_calls user_id plan (w : world D) name w' :
  create_container user_id plan w = (Ok (Some name), w') ->
  exists t,
    trace w' = trace w ++ t /\
    Forall (provisioning_call ("cyber_" +:+ pretty user_id) (5000 + user_id) "db1"
                              ("db_" +:+ pretty user_id)) t /\
    In (NetworksGet ("cyber_" +:+ pretty user_id +:+ "_network")) t /\
    In (VolumesList ("cyber_" +:+ pretty user_id +:+ "_postgres_data")) t /\
    In (ContainersRun
          (postgres_kwargs ("cyber_" +:+ pretty user_id +:+ "_postgres")
                           ("cyber_" +:+ pretty user_id +:+ "_postgres_data")
                           ("cyber_" +:+ pretty user_id +:+ "_network")
                           "db1" ("db_" +:+ pretty user_id))) t /\
    In (ContainersRun
          (main_kwargs ("cyber_" +:+ pretty user_id +:+ "_cyber:latest")
                       ("cyber_" +:+ pretty user_id +:+ "_cyber")
                       ("cyber_" +:+ pretty user_id +:+ "_network")
                       ("cyber_" +:+ pretty user_id) (5000 + user_id)
                       "db1" ("db_" +:+ pretty user_id))) t.
Proof.
  intros H. rewrite create_container_run in H.
  destruct (docker_call FromEnv w) as [[u|e] w0] eqn:E0; [|discriminate].
  destruct (create_container_body user_id plan w0) as [[r|e] wb] eqn:Eb;
    [|discriminate].
  injection H as -> ->. rewrite create_container_body_run in Eb. cbv zeta in Eb.
  destruct (deploy_postgres_container _ _ _ w0) as [[pg|e] w1] eqn:E1; [|discriminate].
  destruct (deploy_main_container _ _ _ _ w1) as [[mc|e] w2] eqn:E2; [|discriminate].
  rewrite persist_run in Eb.
  destruct (flush _ _) as [t|]; [|discriminate].
  injection Eb as Hname <-. cbn [put_session trace].
  call_ok E0 as (_ & T0 & _).
  pose proof E1 as F1. pose proof E2 as F2.
  eapply emits_elim in F1 as (_ & _ & t1 & T1 & P1);
    [|apply (deploy_postgres_container_emits _ (5000 + user_id))].
  eapply emits_elim in F2 as (_ & _ & t2 & T2 & P2);
    [|apply deploy_main_container_emits].
  destruct (deploy_postgres_container_ok _ _ _ _ _ _ E1) as (s1 & d1 & S1 & _ & N1 & V1).
  destruct (deploy_main_container_ok _ _ _ _ _ _ _ E2) as (s2 & d2 & S2 & _ & _ & _).
  rewrite T1 in S1. apply app_inv_head in S1. subst t1.
  rewrite T2 in S2. apply app_inv_head in S2. subst t2.
  exists ([FromEnv] ++ (s1 ++ [ContainersRun
            (postgres_kwargs ("cyber_" +:+ pretty user_id +:+ "_postgres")
                             ("cyber_" +:+ pretty user_id +:+ "_postgres_data")
                             ("cyber_" +:+ pretty user_id +:+ "_network")
                             "db1" ("db_" +:+ pretty user_id))])
          ++ (s2 ++ [ContainersRun
            (main_kwargs ("cyber_" +:+ pretty user_id +:+ "_cyber:latest")
                         ("cyber_" +:+ pretty user_id +:+ "_cyber")
                         ("cyber_" +:+ pretty user_id +:+ "_network")
                         ("cyber_" +:+ pretty user_id) (5000 + user_id)
                         "db1" ("db_" +:+ pretty user_id))])).
  split; [rewrite T2, T1, T0, <- !app_assoc; reflexivity|].
  split.
  { apply Forall_app. split; [constructor; [exact I|constructor]|].
    apply Forall_app. split; assumption. }
  split; [apply in_or_app; right; apply in_or_app; left; apply in_or_app; left; exact N1|].
  split; [apply in_or_app; right; apply in_or_app; left; apply in_or_app; left; exact V1|].
  split.
  - apply in_or_app. right. apply in_or_app. left. apply in_or_app. right.
    left. reflexivity.
  - apply in_or_app. right. apply in_or_app. right. apply in_or_app. right.
    left. reflexivity.
Qed.

(** C6: for an identifier [t] of any type on which [int] returns [n]
    and whose rendering is [text], the configuration is
    [(5000 + n, "db_text", "cyber_text")], and the derivation raises
    only what [int] or the rendering raise; for an integer [t] that is
    [(5000 + t, "db_t", "cyber_t")]; tenant 42, given as the number or
    as the text ['42'], has [(5042, "db_42", "cyber_42")]; and a
    provisioning of tenant 42 that succeeds asks for the network
    [cyber_42_network] and the volume [cyber_42_postgres_data], runs
    the containers [cyber_42_postgres] and [cyber_42_cyber], and makes
    no call that names anything else. *)
Theorem tenant_42_provisioning plan (w : world D) name w' :
  create_container 42 plan w = (Ok (Some name), w') ->
  (forall (V : Type) (I : TenantId V) (t : V) n text,
      py_int t = Ok n -> py_format t = Ok text ->
      _generate_unique_config t
      = Ok (5000 + n, "db_" +:+ text, "cyber_" +:+ text)) /\
  (forall (V : Type) (I : TenantId V) (t : V) e,
      _generate_unique_config t = Raise e ->
      py_int t = Raise e \/ py_format t = Raise e) /\
  (forall t : Z,
      _generate_unique_config t
      = Ok (5000 + t, "db_" +:+ pretty t, "cyber_" +:+ pretty t)) /\
  _generate_unique_config 42 = Ok (5042, "db_42", "cyber_42") /\
  _generate_unique_config (IdStr Tenants.text_42) = Ok (5042, "db_42", "cyber_42") /\
  exists t,
    trace w' = trace w ++ t /\
    Forall (provisioning_call "cyber_42" 5042 "db1" "db_42") t /\
    In (NetworksGet "cyber_42_network") t /\
    In (VolumesList "cyber_42_postgres_data") t /\
    In (ContainersRun
          (postgres_kwargs "cyber_42_postgres" "cyber_42_postgres_data"
                           "cyber_42_network" "db1" "db_42")) t /\
    In (ContainersRun
          (main_kwargs "cyber_42_cyber:latest" "cyber_42_cyber" "cyber_42_network"
                       "cyber_42" 5042 "db1" "db_42")) t.
Proof.
  intros H.
  split; [intros V I t n text; apply generate_unique_config_ok|].
  split.
  { intros V I t e. unfold _generate_unique_config.
    destruct (py_int t) as [n|e1]; [|intros [= <-]; left; reflexivity].
    destruct (py_format t) as [text|e2]; [discriminate|].
    intros [= <-]. right. reflexivity. }
  split; [intros t; reflexivity|].
  split; [vm_compute; reflexivity|].
  split; [vm_compute; reflexivity|].
  exact (create_container_calls 42 plan w name w' H).
Qed.

Lemma flush_app (ops1 ops2 : list pending_op) (t : gmap string columns) :
  flush (ops1 ++ ops2) t = flush ops1 t ≫= flush ops2.
Proof.
  revert t. induction ops1 as [|[r|cid st|cid] ops1 IH]; intros t; cbn [app flush].
  - reflexivity.
  - destruct (t !! container_id r); [reflexivity|apply IH].
  - apply IH.
  - apply IH.
Qed.

(** Whether two inserts go through does not depend on the plan they
    carry. *)
Lemma flush_two_adds_plan user_id plan1 plan2 main_name postgres_name
    (base : gmap string columns) :
  match flush [PendingAdd (object_of main_name (main_columns user_id plan1));
               PendingAdd (object_of postgres_name (postgres_columns user_id plan1))]
              base,
        flush [PendingAdd (object_of main_name (main_columns user_id plan2));
               PendingAdd (object_of postgres_name (postgres_columns user_id plan2))]
              base with
  | Some t1, Some t2 =>
      t1 = <[postgres_name := postgres_columns user_id plan1]>
             (<[main_name := main_columns user_id plan1]> base) /\
      t2 = <[postgres_name := postgres_columns user_id plan2]>
             (<[main_name := main_columns user_id plan2]> base)
  | None, None => True
  | _, _ => False
  end.
Proof.
  cbn [flush object_of container_id columns_of].
  destruct (base !! main_name); [exact I|].
  rewrite !lookup_insert.
  destruct (decide (main_name = postgres_name)); [exact I|].
  destruct (base !! postgres_name); [exact I|].
  split; reflexivity.
Qed.

(** C9: two provisionings of one tenant under two plans, from the same
    world, return the same result, leave the daemon in the same state
    after the same calls with the same arguments, and print the same
    lines.  The compose-file path is computed without touching the
    world.  The sessions are equal too, unless both runs succeed: then
    the tables are one common table extended by the same two keys,
    whose rows differ in the plan column only. *)
Theorem create_container_plan_independent user_id plan1 plan2 (w : world D) :
  (create_container user_id plan1 w).1 = (create_container user_id plan2 w).1 /\
  docker (create_container user_id plan1 w).2
  = docker (create_container user_id plan2 w).2 /\
  trace (create_container user_id plan1 w).2
  = trace (create_container user_id plan2 w).2 /\
  stdout (create_container user_id plan1 w).2
  = stdout (create_container user_id plan2 w).2 /\
  (_get_compose_file plan1 w).2 = w /\ (_get_compose_file plan2 w).2 = w /\
  (db (create_container user_id plan1 w).2 = db (create_container user_id plan2 w).2 \/
   exists main_name postgres_name base,
     rows (db (create_container user_id plan1 w).2)
     = <[postgres_name := postgres_columns user_id plan1]>
         (<[main_name := main_columns user_id plan1]> base) /\
     rows (db (create_container user_id plan2 w).2)
     = <[postgres_name := postgres_columns user_id plan2]>
         (<[main_name := main_columns user_id plan2]> base) /\
     pending (db (create_container user_id plan1 w).2)
     = pending (db (create_container user_id plan2 w).2) /\
     commits (db (create_container user_id plan1 w).2)
     = commits (db (create_container user_id plan2 w).2)).
Proof.
  rewrite !create_container_run.
  destruct (docker_call FromEnv w) as [[u|e] w0]; [|cbn; auto 10].
  rewrite !create_container_body_run. cbv zeta.
  destruct (deploy_postgres_container _ _ _ w0) as [[pg|e] w1]; [|cbn; auto 10].
  destruct (deploy_main_container _ _ _ _ w1) as [[mc|e] w2]; [|cbn; auto 10].
  rewrite !persist_run, !flush_app.
  destruct (flush (pending (db w2)) (rows (db w2))) as [base|]; cbn [mbind option_bind];
    [|cbn; auto 10].
  pose proof (flush_two_adds_plan user_id plan1 plan2 (ct_name mc) (ct_name pg) base) as Hf.
  destruct (flush _ base) as [t1|]; destruct (flush _ base) as [t2|];
    try contradiction; [|cbn; auto 10].
  destruct Hf as [-> ->]. cbn.
  repeat (split; [reflexivity|]). right.
  exists (ct_name mc), (ct_name pg), base. repeat split; reflexivity.
Qed.
End Provisioning.


(** ** The lifecycle manager *)

Ltac call_session :=
  match goal with
  | |- db (docker_call ?c _).2 = _ => apply (docker_call_session c)
  end.

Section Lifecycle.
Context {D : Type} `{!DockerRuntime D}.

Lemma db_session_commit_run (w : world D) :
  db_session_commit w
  = match flush (pending (db w)) (rows (db w)) with
    | Some t => (Ok tt, put_session w (committed (db w) t))
    | None => (Raise integrity_error, put_session w (rolled_back (db w)))
    end.
Proof. reflexivity. Qed.

Lemma update_status_run (obj : ContainerManager) (st : string) (w : world D) :
  update_status obj st w
  = match flush (pending (db w) ++ [PendingStatus (container_id obj) st])
                (rows (db w)) with
    | Some t => (Ok tt, put_session w (committed (db w) t))
    | None => (Raise integrity_error, put_session w (rolled_back (db w)))
    end.
Proof.
  unfold update_status. rewrite bind_run. cbn [with_db].
  rewrite db_session_commit_run. cbn [db pending rows].
  destruct (flush _ _); reflexivity.
Qed.

(** [update_status("removed")], [delete], [commit]: the three
    statements shared by the [remove] branch and the [NotFound]
    clause. *)
Lemma remove_record_run (obj : ContainerManager) (w : world D) :
  (update_status obj "removed" ;; db_session_delete obj ;; db_session_commit) w
  = match flush (pending (db w) ++ [PendingStatus (container_id obj) "removed"])
                (rows (db w)) with
    | Some t =>
        (Ok tt,
         put_session w {| rows := delete (container_id obj) t; pending := [];
                          commits := S (S (commits (db w))) |})
    | None => (Raise integrity_error, put_session w (rolled_back (db w)))
    end.
Proof.
  rewrite bind_run, update_status_run.
  destruct (flush _ _) as [t|]; [|reflexivity].
  reflexivity.
Qed.

Lemma flush_status_clean cid st (t : gmap string columns) :
  flush [PendingStatus cid st] t = Some (alter (set_status st) cid t).
Proof. reflexivity. Qed.

Lemma manage_container_run container_id action (w : world D) :
  manage_container container_id action w
  = match docker_call FromEnv w with
    | (Raise e, w0) => (Raise e, w0)
    | (Ok _, w0) =>
        let container := object_of container_id <$> rows (db w0) !! container_id in
        match manage_container_found container_id action container w0 with
        | (Ok b, w1) => (Ok b, w1)
        | (Raise e, w1) =>
            if isinstance e NotFound
            then manage_container_not_found action (Some container) w1
            else (Ok false,
                  (print ("Error managing container: " +:+ str_exn e) w1).2)
        end
    end.
Proof.
  unfold manage_container. rewrite bind_run.
  destruct (docker_call FromEnv w) as [[u|e] w0]; [|reflexivity].
  unfold try_except_local, query_first. cbv zeta.
  destruct (manage_container_found _ _ _ w0) as [[b|e] w1]; [reflexivity|].
  cbn [dispatch existsb]. rewrite orb_false_r.
  destruct (isinstance e NotFound); [reflexivity|].
  rewrite isinstance_Exception. reflexivity.
Qed.
(** What the block after the lookup can end in: [False] only when
    there is no record, and then nothing has happened; an exception
    only before anything was committed. *)
Lemma manage_container_found_outcome container_id action container
    (w0 : world D) r w1 :
  manage_container_found container_id action container w0 = (r, w1) ->
  match r with
  | Ok false => container = None /\ w1 = w0
  | Ok true => container <> None
  | Raise e =>
      container <> None /\
      rows (db w1) = rows (db w0) /\ commits (db w1) = commits (db w0) /\
      (pending (db w0) = [] -> db w1 = db w0)
  end.
Proof.
  destruct container as [c|]; cbn [manage_container_found];
    [|intros [= <- <-]; split; reflexivity].
  rewrite bind_run.
  pose proof (docker_call_session (ContainersGet container_id) w0) as Hget.
  destruct (docker_call (ContainersGet container_id) w0) as [[h|e] wg];
    cbn [snd] in Hget;
    [|intros [= <- <-]; rewrite Hget; repeat split; congruence].
  assert (Hstatus : forall (call_ : M D unit) st r w1,
             db (call_ wg).2 = db wg ->
             ((call_ ;; update_status c st) ;; mret true) wg = (r, w1) ->
             match r with
             | Ok false => False
             | Ok true => True
             | Raise e =>
                 rows (db w1) = rows (db wg) /\ commits (db w1) = commits (db wg) /\
                 (pending (db wg) = [] -> db w1 = db wg)
             end).
  { intros call_ st r' w' Hc. rewrite !bind_run.
    destruct (call_ wg) as [[u|e] wc]; cbn [snd] in Hc.
    - rewrite update_status_run, Hc.
      destruct (flush _ _) as [t|] eqn:Ef.
      + intros [= <- <-]. exact I.
      + intros [= <- <-]. cbn. repeat split; try reflexivity.
        intros Hclean. rewrite Hclean in Ef. discriminate Ef.
    - intros [= <- <-]. rewrite Hc. repeat split; reflexivity. }
  intros H.
  assert (Hgoal : match r with
                  | Ok false => False
                  | Ok true => True
                  | Raise e =>
                      rows (db w1) = rows (db wg) /\ commits (db w1) = commits (db wg) /\
                      (pending (db wg) = [] -> db w1 = db wg)
                  end).
  { destruct (decide (action = "start")) as [_|_];
      [eapply Hstatus; [|exact H]; call_session|].
    destruct (decide (action = "stop")) as [_|_];
      [eapply Hstatus; [|exact H]; call_session|].
    destruct (decide (action = "remove")) as [_|_].
    { revert H. rewrite bind_run, (bind_run (docker_call (ContainerRemove h true))).
      pose proof (docker_call_session (ContainerRemove h true) wg) as Hc.
      destruct (docker_call (ContainerRemove h true) wg) as [[u|e] wc];
        cbn [snd] in Hc.
      - rewrite remove_record_run, Hc.
        destruct (flush _ _) as [t|] eqn:Ef.
        + intros [= <- <-]. exact I.
        + intros [= <- <-]. cbn. repeat split; try reflexivity.
          intros Hclean. rewrite Hclean in Ef. discriminate Ef.
      - intros [= <- <-]. rewrite Hc. repeat split; reflexivity. }
    destruct (decide (action = "restart")) as [_|_];
      [eapply Hstatus; [|exact H]; call_session|].
    revert H. cbv [mbind M_bind mret M_ret]. intros [= <- <-]. exact I. }
  destruct r as [[|]|e].
  - discriminate.
  - contradiction.
  - rewrite Hget in Hgoal. destruct Hgoal as (Hr & Hc & Hp).
    split; [discriminate|]. split; [exact Hr|]. split; [exact Hc|exact Hp].
Qed.
Lemma from_env_run (w : world D) d0 :
  runtime FromEnv (docker w) = (Ok tt, d0) ->
  docker_call FromEnv w = (Ok tt, (docker_call FromEnv w).2) /\
  docker (docker_call FromEnv w).2 = d0 /\
  db (docker_call FromEnv w).2 = db w /\
  trace (docker_call FromEnv w).2 = trace w ++ [FromEnv] /\
  stdout (docker_call FromEnv w).2 = stdout w.
Proof. intros H. rewrite docker_call_run, H. repeat split; reflexivity. Qed.

(** The [NotFound] clause on a [remove], from a session with nothing
    pending: the row goes, in two commits. *)
Lemma manage_container_not_found_remove (obj : ContainerManager) (w1 : world D) :
  pending (db w1) = [] ->
  manage_container_not_found "remove" (Some (Some obj)) w1
  = (Ok true,
     put_session w1 {| rows := delete (container_id obj) (rows (db w1));
                       pending := []; commits := S (S (commits (db w1))) |}).
Proof.
  intros Hclean. unfold manage_container_not_found.
  destruct (decide ("remove" = "remove")) as [_|Hne]; [|congruence].
  pose proof (remove_record_run obj w1) as Hrm.
  rewrite Hclean in Hrm. cbn [app] in Hrm. rewrite flush_status_clean in Hrm.
  rewrite delete_alter in Hrm. rewrite decide_True in Hrm by reflexivity.
  pose proof (bind_run (update_status obj "removed" ;; db_session_delete obj ;;
                        db_session_commit) (fun _ => mret true) w1) as Hk.
  rewrite Hrm in Hk. rewrite !bind_assoc_run in Hk.
  etransitivity; [|exact Hk].
  rewrite !bind_run. destruct (update_status obj "removed" w1) as [[u|e] w2];
    [|reflexivity].
  rewrite !bind_run. destruct (db_session_delete obj w2) as [[u'|e] w3];
    reflexivity.
Qed.
(** The [remove] branch, when nothing raises: the same two commits. *)
Lemma manage_container_found_remove_ok cid (obj : ContainerManager)
    (w0 : world D) b w1 :
  pending (db w0) = [] ->
  manage_container_found cid "remove" (Some obj) w0 = (Ok b, w1) ->
  b = true /\
  db w1 = {| rows := delete (container_id obj) (rows (db w0));
             pending := []; commits := S (S (commits (db w0))) |}.
Proof.
  intros Hclean. cbn [manage_container_found].
  destruct (decide ("remove" = "start")) as [Heq|_]; [discriminate Heq|].
  destruct (decide ("remove" = "stop")) as [Heq|_]; [discriminate Heq|].
  destruct (decide ("remove" = "remove")) as [_|Hne]; [|congruence].
  rewrite bind_run.
  pose proof (docker_call_session (ContainersGet cid) w0) as Hget.
  destruct (docker_call (ContainersGet cid) w0) as [[h|e] wg];
    [|discriminate]. cbn [snd] in Hget.
  rewrite bind_run, (bind_run (docker_call (ContainerRemove h true))).
  pose proof (docker_call_session (ContainerRemove h true) wg) as Hrm.
  destruct (docker_call (ContainerRemove h true) wg) as [[u|e] wr];
    [|discriminate]. cbn [snd] in Hrm.
  rewrite remove_record_run, Hrm, Hget, Hclean. cbn [app].
  rewrite flush_status_clean, delete_alter, decide_True by reflexivity.
  intros [= <- <-]. split; reflexivity.
Qed.

(** C3: a record exists, nothing is pending, and the daemon answers
    [NotFound] to a [remove], whether at the lookup of the container or
    at its removal.  Then [manage_container] returns [True]; the status
    update and the deletion were each committed; the table is the old
    one without the record, so no record with that [container_id] is
    left.  The last part holds for every [remove] that returns
    [True]. *)
Theorem manage_container_remove_reconciles cid (w : world D) c d0 :
  pending (db w) = [] ->
  rows (db w) !! cid = Some c ->
  runtime FromEnv (docker w) = (Ok tt, d0) ->
  (forall e d1,
      runtime (ContainersGet cid) d0 = (Raise e, d1) ->
      isinstance e NotFound = true ->
      exists w',
        manage_container cid "remove" w = (Ok true, w') /\
        rows (db w') = delete cid (rows (db w)) /\
        rows (db w') !! cid = None /\
        pending (db w') = [] /\ commits (db w') = S (S (commits (db w))) /\
        docker w' = d1 /\ trace w' = trace w ++ [FromEnv; ContainersGet cid]) /\
  (forall h d1 e d2,
      runtime (ContainersGet cid) d0 = (Ok h, d1) ->
      runtime (ContainerRemove h true) d1 = (Raise e, d2) ->
      isinstance e NotFound = true ->
      exists w',
        manage_container cid "remove" w = (Ok true, w') /\
        rows (db w') = delete cid (rows (db w)) /\
        rows (db w') !! cid = None /\
        pending (db w') = [] /\ commits (db w') = S (S (commits (db w))) /\
        docker w' = d2 /\
        trace w' = trace w ++ [FromEnv; ContainersGet cid;
                               ContainerRemove h true]) /\
  (forall w',
      manage_container cid "remove" w = (Ok true, w') ->
      rows (db w') = delete cid (rows (db w)) /\
      rows (db w') !! cid = None).
Proof.
  intros Hclean Hrow H0.
  destruct (from_env_run w d0 H0) as (E0 & Hd0 & Hdb0 & Ht0 & _).
  pose proof (manage_container_run cid "remove" w) as Hrun.
  rewrite E0 in Hrun. cbv zeta in Hrun.
  set (w0 := (docker_call FromEnv w).2) in *.
  rewrite Hdb0, Hrow in Hrun. cbn [fmap option_fmap option_map] in Hrun.
  assert (Hclean0 : pending (db w0) = []) by (rewrite Hdb0; exact Hclean).
  assert (Hfound : forall wg e,
             manage_container_found cid "remove"
               (Some (object_of cid c)) w0 = (Raise e, wg) ->
             db wg = db w ->
             isinstance e NotFound = true ->
             manage_container cid "remove" w
             = (Ok true,
                put_session wg {| rows := delete cid (rows (db w));
                                  pending := [];
                                  commits := S (S (commits (db w))) |})).
  { intros wg e Hf Hdbg He. rewrite Hrun, Hf, He.
    rewrite manage_container_not_found_remove by (rewrite Hdbg; exact Hclean).
    rewrite Hdbg. reflexivity. }
  split; [|split].
  - intros e d1 Hget He.
    assert (Hf : manage_container_found cid "remove"
                   (Some (object_of cid c)) w0
                 = (Raise e, (docker_call (ContainersGet cid) w0).2)).
    { cbn [manage_container_found]. rewrite bind_run, docker_call_run, Hd0, Hget.
      reflexivity. }
    eexists. split; [apply (Hfound _ e Hf); [|exact He]|].
    + rewrite docker_call_session. exact Hdb0.
    + cbn [put_session db rows pending commits docker trace].
      split; [reflexivity|]. split; [apply lookup_delete_eq|].
      split; [reflexivity|]. split; [reflexivity|].
      rewrite docker_call_run, Hd0, Hget. cbn [snd docker trace].
      rewrite Ht0, <- app_assoc. split; reflexivity.
  - intros h d1 e d2 Hget Hrm He.
    assert (Hf : manage_container_found cid "remove"
                   (Some (object_of cid c)) w0
                 = (Raise e,
                    (docker_call (ContainerRemove h true)
                       (docker_call (ContainersGet cid) w0).2).2)).
    { cbn [manage_container_found].
      destruct (decide ("remove" = "start")) as [Heq|_]; [discriminate Heq|].
      destruct (decide ("remove" = "stop")) as [Heq|_]; [discriminate Heq|].
      destruct (decide ("remove" = "remove")) as [_|Hne]; [|congruence].
      rewrite bind_run, docker_call_run, Hd0, Hget. cbn [fst snd].
      rewrite bind_run, (bind_run (docker_call (ContainerRemove h true))).
      rewrite docker_call_run. cbn [docker]. rewrite Hrm. reflexivity. }
    eexists. split; [apply (Hfound _ e Hf); [|exact He]|].
    + rewrite !docker_call_session. exact Hdb0.
    + cbn [put_session db rows pending commits docker trace].
      split; [reflexivity|]. split; [apply lookup_delete_eq|].
      split; [reflexivity|]. split; [reflexivity|].
      rewrite !docker_call_run. cbn [snd docker trace]. rewrite Hd0, Hget.
      cbn [snd docker trace]. rewrite Hrm. cbn [snd].
      rewrite Ht0, <- !app_assoc. split; reflexivity.
  - intros w' H. rewrite Hrun in H.
    destruct (manage_container_found cid "remove"
                (Some (object_of cid c)) w0) as [[b|e] wg] eqn:Ef.
    + injection H as -> ->.
      apply manage_container_found_remove_ok in Ef as (_ & ->); [|exact Hclean0].
      cbn [rows object_of container_id]. rewrite Hdb0.
      split; [reflexivity|apply lookup_delete_eq].
    + pose proof (manage_container_found_outcome _ _ _ _ _ _ Ef) as (_ & _ & _ & Hsame).
      specialize (Hsame Hclean0).
      destruct (isinstance e NotFound); [|discriminate].
      rewrite manage_container_not_found_remove in H
        by (rewrite Hsame, Hdb0; exact Hclean).
      injection H as <-. cbn [put_session db rows object_of container_id].
      rewrite Hsame, Hdb0. split; [reflexivity|apply lookup_delete_eq].
Qed.

(** C10: a record exists, the client is obtained and the daemon finds
    the container; the action is none of [start], [stop], [remove],
    [restart].  Then [manage_container] returns [True], the only calls
    made are the two lookups, none of them a lifecycle call, and the
    session, the record's status included, is untouched. *)
Theorem manage_container_unknown_action cid action (w : world D) c d0 h d1 :
  rows (db w) !! cid = Some c ->
  runtime FromEnv (docker w) = (Ok tt, d0) ->
  runtime (ContainersGet cid) d0 = (Ok h, d1) ->
  action <> "start" -> action <> "stop" -> action <> "remove" ->
  action <> "restart" ->
  exists w',
    manage_container cid action w = (Ok true, w') /\
    db w' = db w /\
    col_status <$> rows (db w') !! cid = Some (col_status c) /\
    docker w' = d1 /\
    trace w' = trace w ++ [FromEnv; ContainersGet cid] /\
    Forall (fun c => lifecycle_call c = false) [FromEnv; ContainersGet cid] /\
    stdout w' = stdout w.
Proof.
  intros Hrow H0 Hget Hstart Hstop Hremove Hrestart.
  destruct (from_env_run w d0 H0) as (E0 & Hd0 & Hdb0 & Ht0 & Hs0).
  pose proof (manage_container_run cid action w) as Hrun.
  rewrite E0 in Hrun. cbv zeta in Hrun.
  set (w0 := (docker_call FromEnv w).2) in *.
  rewrite Hdb0, Hrow in Hrun. cbn [fmap option_fmap option_map] in Hrun.
  assert (Hf : manage_container_found cid action (Some (object_of cid c)) w0
               = (Ok true, (docker_call (ContainersGet cid) w0).2)).
  { cbn [manage_container_found].
    destruct (decide (action = "start")) as [Heq|_]; [contradiction|].
    destruct (decide (action = "stop")) as [Heq|_]; [contradiction|].
    destruct (decide (action = "remove")) as [Heq|_]; [contradiction|].
    destruct (decide (action = "restart")) as [Heq|_]; [contradiction|].
    rewrite bind_run, docker_call_run, Hd0, Hget. reflexivity. }
  rewrite Hf in Hrun.
  exists (docker_call (ContainersGet cid) w0).2.
  split; [exact Hrun|].
  rewrite docker_call_run, Hd0, Hget. cbn [snd db docker trace stdout].
  split; [exact Hdb0|]. split; [rewrite Hdb0, Hrow; reflexivity|].
  split; [reflexivity|]. split; [rewrite Ht0, <- app_assoc; reflexivity|].
  split; [repeat constructor|exact Hs0].
Qed.
End Lifecycle.


(** ** The client acquired before the [try] block

    [create_container] and [manage_container] both call
    [docker.from_env()] before they enter their [try] block.  An
    exception raised there is not caught: it reaches the caller. *)

Section Client.
Context {D : Type} `{!DockerRuntime D}.


End Client.



(** ** The theorems at work on the reference daemon *)

Lemma provisioned_run :
  create_container 42 "basic" Scenario.world0
  = (Ok (Some "cyber_42_cyber"), Scenario.provisioned).
Proof. vm_compute. reflexivity. Qed.

(** C1 on a fresh daemon: tenant 42 gets its two rows in one commit. *)
Lemma create_container_success_witness :
  rows (db Scenario.provisioned)
  = <["cyber_42_postgres" := postgres_columns 42 "basic"]>
      (<["cyber_42_cyber" := main_columns 42 "basic"]> ∅) /\
  size (rows (db Scenario.provisioned)) = 2%nat /\
  commits (db Scenario.provisioned) = 1%nat.
Proof.
  destruct (create_container_success 42 "basic" Scenario.world0 "cyber_42_cyber"
              Scenario.provisioned eq_refl provisioned_run)
    as (pg & mc & w1 & w2 & d & E1 & E2 & _ & _ & _ & _ & _ & Hrows & Hsize & _ & Hc).
  vm_compute in E1. injection E1 as <- <-.
  vm_compute in E2. injection E2 as <- <-.
  split; [exact Hrows|]. split; [exact Hsize|exact Hc].
Defined.

(** C6 on a fresh daemon: the text ['007'] has the port 5007 and the
    names [db_007] and [cyber_007], and the calls of the provisioning
    of tenant 42 carry the names derived from [cyber_42]. *)
Lemma tenant_42_provisioning_witness :
  _generate_unique_config (IdStr Tenants.text_007)
  = Ok (5007, "db_007", "cyber_007") /\
  _generate_unique_config 42 = Ok (5042, "db_42", "cyber_42") /\
  exists t,
    trace Scenario.provisioned = trace Scenario.world0 ++ t /\
    Forall (provisioning_call "cyber_42" 5042 "db1" "db_42") t /\
    In (NetworksGet "cyber_42_network") t /\
    In (VolumesList "cyber_42_postgres_data") t /\
    In (ContainersRun
          (postgres_kwargs "cyber_42_postgres" "cyber_42_postgres_data"
                           "cyber_42_network" "db1" "db_42")) t /\
    In (ContainersRun
          (main_kwargs "cyber_42_cyber:latest" "cyber_42_cyber" "cyber_42_network"
                       "cyber_42" 5042 "db1" "db_42")) t.
Proof.
  destruct (tenant_42_provisioning "basic" Scenario.world0 "cyber_42_cyber"
              Scenario.provisioned provisioned_run)
    as (Hany & _ & _ & H42 & _ & Hcalls).
  split; [|split; [exact H42|exact Hcalls]].
  apply (Hany tenant_id _ (IdStr Tenants.text_007) 7 "007"); reflexivity.
Defined.


(** C3 on the orphaned records: the daemon answers [NotFound] to the
    lookup of [cyber_42_cyber], the [remove] succeeds and the record is
    gone. *)
Lemma manage_container_remove_reconciles_witness :
  exists w',
    manage_container "cyber_42_cyber" "remove" Scenario.orphaned = (Ok true, w') /\
    rows (db w') = delete "cyber_42_cyber" (rows (db Scenario.orphaned)) /\
    rows (db w') !! "cyber_42_cyber" = None.
Proof.
  assert (Hrow : rows (db Scenario.orphaned) !! "cyber_42_cyber"
                 = Some (main_columns 42 "basic")) by (vm_compute; reflexivity).
  assert (H0 : runtime FromEnv (docker Scenario.orphaned) = (Ok tt, Sim.fresh))
    by reflexivity.
  destruct (manage_container_remove_reconciles "cyber_42_cyber" Scenario.orphaned
              _ _ eq_refl Hrow H0) as (Hget & _ & _).
  destruct (Hget (Build_exn NotFound "404 Client Error: Not Found (cyber_42_cyber)")
                 Sim.fresh eq_refl eq_refl)
    as (w' & Hrun & Hrows & Hgone & _).
  exists w'. split; [exact Hrun|]. split; [exact Hrows|exact Hgone].
Defined.


(** C10 on the provisioned world: [pause] is no action of the
    manager. *)
Lemma manage_container_unknown_action_witness :
  exists w',
    manage_container "cyber_42_cyber" "pause" Scenario.provisioned = (Ok true, w') /\
    db w' = db Scenario.provisioned /\
    trace w' = trace Scenario.provisioned ++ [FromEnv; ContainersGet "cyber_42_cyber"].
Proof.
  assert (Hrow : rows (db Scenario.provisioned) !! "cyber_42_cyber"
                 = Some (main_columns 42 "basic")) by (vm_compute; reflexivity).
  assert (H0 : runtime FromEnv (docker Scenario.provisioned)
               = (Ok tt, docker Scenario.provisioned)) by (vm_compute; reflexivity).
  assert (Hget : runtime (ContainersGet "cyber_42_cyber") (docker Scenario.provisioned)
                 = (Ok (Sim.handle "cyber_42_cyber"), docker Scenario.provisioned))
    by (vm_compute; reflexivity).
  destruct (manage_container_unknown_action "cyber_42_cyber" "pause"
              Scenario.provisioned _ _ _ _ Hrow H0 Hget
              ltac:(discriminate) ltac:(discriminate) ltac:(discriminate)
              ltac:(discriminate))
    as (w' & Hrun & Hdb & _ & _ & Htrace & _).
  exists w'. split; [exact Hrun|]. split; [exact Hdb|exact Htrace].
Defined.

(** C8 on two snapshots: a stalled host clock gives 0, an advancing
    one the rounded percentage. *)
Lemma cpu_percent_guard_witness :
  cpu_usage_of 100 0 = Ok (PyInt 0) /\
  cpu_usage_of 100 400 = Ok (PyFloat (FMul (FTrueDiv 100 400) (FLit 100))) /\
  (exists r, stats_of_snapshot Scenario.stalled = Ok r /\ cpu_percent r = PyInt 0) /\
  (exists r, stats_of_snapshot Scenario.busy = Ok r /\
             cpu_percent r
             = PyFloat (FRound (FMul (FTrueDiv 100 400) (FLit 100)) 2)).
Proof.
  split; [apply (proj1 (cpu_percent_guard 100 0)); lia|].
  split; [apply (proj1 (proj2 (cpu_percent_guard 100 400))); [lia|reflexivity]|].
  split.
  - eexists. split; [vm_compute; reflexivity|].
    apply (proj2 (proj2 (proj2 (cpu_percent_guard 100 0))) Scenario.stalled);
      [reflexivity|vm_compute; reflexivity|lia].
  - eexists. split; [vm_compute; reflexivity|].
    apply (proj2 (proj2 (proj2 (cpu_percent_guard 100 400))) Scenario.busy);
      [reflexivity|vm_compute; reflexivity|lia].
Defined.


(** * Further properties of the class *)

(** ** The port scan on any window *)

Section ScanAnywhere.
Variable in_use : Z -> bool.

(** The loop on any window: it ends at the first port that is free or
    is no port at all. *)
Lemma scan_range_cases (n : nat) (port : Z) :
  match scan_range in_use n port with
  | Ok (Some p) =>
      port <= p < port + Z.of_nat n /\ valid_port p /\ in_use p = false /\
      forall q, port <= q < p -> valid_port q /\ in_use q = true
  | Ok None =>
      forall q, port <= q < port + Z.of_nat n -> valid_port q /\ in_use q = true
  | Raise e =>
      e = bind_overflow /\
      exists q, port <= q < port + Z.of_nat n /\ ~ valid_port q /\
                forall q', port <= q' < q -> valid_port q' /\ in_use q' = true
  end.
Proof.
  revert port. induction n as [|n IH]; intros port.
  - simpl. intros q Hq. lia.
  - cbn [scan_range]. destruct (decide (valid_port port)) as [Hv|Hv].
    + rewrite is_port_available_valid by exact Hv.
      destruct (in_use port) eqn:Eport; simpl.
      * specialize (IH (port + 1)).
        destruct (scan_range in_use n (port + 1)) as [[p|]|e].
        -- destruct IH as (Hr & Hpv & Hf & Hl). split; [lia|]. split; [exact Hpv|].
           split; [exact Hf|]. intros q Hq.
           destruct (decide (q = port)) as [->|Hne]; [auto|]. apply Hl. lia.
        -- intros q Hq. destruct (decide (q = port)) as [->|Hne]; [auto|].
           apply IH. lia.
        -- destruct IH as (-> & q & Hq & Hnv & Hl). split; [reflexivity|].
           exists q. split; [lia|]. split; [exact Hnv|]. intros q' Hq'.
           destruct (decide (q' = port)) as [->|Hne]; [auto|]. apply Hl. lia.
      * split; [lia|]. split; [exact Hv|]. split; [exact Eport|].
        intros q Hq. lia.
    + unfold _is_port_available, sock_bind.
      destruct ((port <? 0) || (65535 <? port)) eqn:E.
      * simpl. split; [reflexivity|]. exists port. split; [lia|].
        split; [exact Hv|]. intros q' Hq'. lia.
      * exfalso. apply Hv. apply orb_false_iff in E as [E0 E1].
        unfold valid_port. lia.
Qed.
End ScanAnywhere.

(** X1: whatever the window, a port that [_get_next_available_port]
    returns lies in the window, is a valid port number on which [bind]
    succeeds, and every port of the window below it is a valid port
    that the operating system refused. *)
Theorem get_next_available_port_sound
    (in_use : Z -> bool) (start_port max_attempts p : Z) :
  _get_next_available_port in_use start_port max_attempts = Ok p ->
  start_port <= p < start_port + max_attempts /\
  valid_port p /\ sock_bind in_use p = Ok tt /\
  forall q, start_port <= q < p ->
            valid_port q /\ _is_port_available in_use q = Ok false.
Proof.
  unfold _get_next_available_port.
  pose proof (scan_range_cases in_use (Z.to_nat max_attempts) start_port) as H.
  destruct (scan_range in_use (Z.to_nat max_attempts) start_port)
    as [[r|]|e]; [|discriminate|discriminate].
  intros [= ->]. destruct H as (Hr & Hv & Hf & Hl).
  split; [lia|]. split; [exact Hv|]. split; [apply sock_bind_valid; assumption|].
  intros q Hq. destruct (Hl q Hq) as (Hqv & Hqu). split; [exact Hqv|].
  rewrite is_port_available_valid by exact Hqv. rewrite Hqu. reflexivity.
Qed.

Lemma get_next_available_port_sound_witness :
  5000 <= 5003 < 5000 + 100 /\
  valid_port 5003 /\ sock_bind (fun p => p <? 5003) 5003 = Ok tt /\
  forall q, 5000 <= q < 5003 ->
            valid_port q /\ _is_port_available (fun p => p <? 5003) q = Ok false.
Proof.
  apply (get_next_available_port_sound (fun p => p <? 5003) 5000 100 5003).
  vm_compute. reflexivity.
Defined.




(** ** The compose file and its directory *)

Lemma has_sep_app (a b : string) : has_sep (a +:+ b) = has_sep a || has_sep b.
Proof.
  induction a as [|x a IH]; simpl; [reflexivity|]. rewrite IH, orb_assoc. reflexivity.
Qed.

Lemma ends_with_sep_no_sep (s : string) : has_sep s = false -> ends_with_sep s = false.
Proof.
  induction s as [|x s IH]; simpl; [reflexivity|]. intros H.
  apply orb_false_iff in H as [Hx Hs]. destruct s; [exact Hx|apply IH; exact Hs].
Qed.

Lemma ends_with_sep_cons (x : ascii) (t : string) :
  t <> "" -> ends_with_sep (String x t) = ends_with_sep t.
Proof. destruct t; [congruence|reflexivity]. Qed.

Lemma ends_with_sep_app (a b : string) :
  b <> "" -> ends_with_sep (a +:+ b) = ends_with_sep b.
Proof.
  intros Hb. induction a as [|x a IH]; [reflexivity|].
  change (String x a +:+ b) with (String x (a +:+ b)).
  rewrite ends_with_sep_cons; [exact IH|].
  destruct a; simpl; [exact Hb|discriminate].
Qed.

Lemma up_to_last_sep_no_sep (f : string) : has_sep f = false -> up_to_last_sep f = "".
Proof.
  induction f as [|x f IH]; simpl; [reflexivity|]. intros H.
  apply orb_false_iff in H as [Hx Hf]. rewrite IH by exact Hf. rewrite Hx. reflexivity.
Qed.

Lemma up_to_last_sep_app (a f : string) :
  has_sep f = false -> up_to_last_sep (a +:+ "/" +:+ f) = a +:+ "/".
Proof.
  intros Hf. induction a as [|x a IH].
  - simpl. rewrite up_to_last_sep_no_sep by exact Hf. reflexivity.
  - change (String x a +:+ "/" +:+ f) with (String x (a +:+ "/" +:+ f)).
    cbn [up_to_last_sep]. rewrite IH. destruct a; reflexivity.
Qed.

Lemma rstrip_sep_fixed (a : string) : ends_with_sep a = false -> rstrip_sep a = a.
Proof.
  induction a as [|x a IH]; simpl; [reflexivity|].
  destruct a as [|y a].
  - intros ->. reflexivity.
  - intros H. rewrite IH by exact H. reflexivity.
Qed.

Lemma rstrip_sep_app_sep (a : string) : rstrip_sep (a +:+ "/") = rstrip_sep a.
Proof.
  induction a as [|x a IH]; [reflexivity|].
  change (String x a +:+ "/") with (String x (a +:+ "/")).
  cbn [rstrip_sep]. rewrite IH. reflexivity.
Qed.

(** The plan directory never ends in a separator when the plan holds
    none. *)
Lemma plan_directory_shape (cwd plan : string) :
  has_sep plan = false ->
  os_path_join cwd ("plan_" +:+ plan) <> "" /\
  ends_with_sep (os_path_join cwd ("plan_" +:+ plan)) = false.
Proof.
  intros Hp.
  assert (Hne : "plan_" +:+ plan <> "") by (simpl; discriminate).
  assert (Hend : ends_with_sep ("plan_" +:+ plan) = false).
  { apply ends_with_sep_no_sep. rewrite has_sep_app, Hp. reflexivity. }
  unfold os_path_join.
  change (starts_with_sep ("plan_" +:+ plan)) with false. cbv iota.
  destruct (bool_decide (cwd = "") || ends_with_sep cwd).
  - split; [destruct cwd; simpl; discriminate|].
    rewrite ends_with_sep_app by exact Hne. exact Hend.
  - split; [destruct cwd; simpl; discriminate|].
    rewrite ends_with_sep_app by (simpl; discriminate).
    rewrite (ends_with_sep_app "/" ("plan_" +:+ plan)) by exact Hne. exact Hend.
Qed.

(** X3: for a plan whose name holds no [/], the compose file is
    [docker-compose_<plan>.yml] directly inside the directory
    [os.path.join(cwd, "plan_<plan>")], and [os.path.dirname] of it, the
    [plan_dir] of [create_container], is that directory again.  The
    world is left as it is. *)
Theorem compose_file_directory {D : Type} (plan : string) (w : world D) :
  has_sep plan = false ->
  _get_compose_file plan w
  = (Ok (os_path_join (cwd w) ("plan_" +:+ plan)
         +:+ "/" +:+ "docker-compose_" +:+ plan +:+ ".yml"), w) /\
  os_path_dirname (os_path_join (cwd w) ("plan_" +:+ plan)
                   +:+ "/" +:+ "docker-compose_" +:+ plan +:+ ".yml")
  = os_path_join (cwd w) ("plan_" +:+ plan).
Proof.
  intros Hp. destruct (plan_directory_shape (cwd w) plan Hp) as (Hne & Hend).
  set (base := os_path_join (cwd w) ("plan_" +:+ plan)) in *.
  split.
  - unfold _get_compose_file, os_getcwd. cbv [mbind M_bind mret M_ret].
    fold base. f_equal. f_equal. unfold os_path_join at 1.
    change (starts_with_sep ("docker-compose_" +:+ plan +:+ ".yml")) with false.
    cbv iota. rewrite Hend, orb_false_r.
    rewrite bool_decide_eq_false_2 by exact Hne. reflexivity.
  - unfold os_path_dirname.
    assert (Hf : has_sep ("docker-compose_" +:+ plan +:+ ".yml") = false).
    { rewrite !has_sep_app, Hp. reflexivity. }
    rewrite up_to_last_sep_app by exact Hf.
    rewrite rstrip_sep_app_sep, rstrip_sep_fixed by exact Hend.
    destruct base; [congruence|reflexivity].
Qed.

(** X3 on the scenario world: plan [basic] under [/srv/app]. *)
Lemma compose_file_directory_witness :
  _get_compose_file "basic" Scenario.world0
  = (Ok "/srv/app/plan_basic/docker-compose_basic.yml", Scenario.world0) /\
  os_path_dirname "/srv/app/plan_basic/docker-compose_basic.yml"
  = "/srv/app/plan_basic".
Proof.
  exact (compose_file_directory "basic" Scenario.world0 eq_refl).
Defined.


(** ** Building the image *)

Section Build.
Context {D : Type} `{!DockerRuntime D}.

(** Printing the chunks of a log whose [stream] entries are texts. *)
Lemma print_chunks_run (logs : list (list (string * json))) (w : world D) :
  Forall (fun chunk => printable chunk = true) logs ->
  for_each logs print_chunk w
  = (Ok tt, {| docker := docker w; db := db w; trace := trace w;
               stdout := stdout w ++ (strip <$> streams logs); cwd := cwd w |}).
Proof.
  intros Hlogs. revert w. induction Hlogs as [|chunk logs Hc _ IH]; intros w.
  - cbn. rewrite app_nil_r. destruct w; reflexivity.
  - cbn [for_each streams]. rewrite bind_run. unfold print_chunk, printable in *.
    destruct (dict_get "stream" chunk) as [[| | |s| |]|]; try discriminate Hc.
    + cbn [print]. rewrite IH. cbn [docker db trace stdout cwd fmap list_fmap].
      rewrite <- app_assoc. reflexivity.
    + cbv [mret M_ret]. apply IH.
Qed.

(** X4: when the client is obtained and [images.build] answers with an
    image and a log whose [stream] entries are ASCII texts,
    [build_main_image] returns that image after exactly these two
    calls, and prints the [stream] texts of the log, stripped, in
    order, and nothing else. *)
Theorem build_main_image_prints_streams project (w : world D) d0 image logs d1 :
  runtime FromEnv (docker w) = (Ok tt, d0) ->
  runtime (ImagesBuild "." "Dockerfile" (project +:+ "_cyber:latest") true) d0
  = (Ok (image, logs), d1) ->
  Forall (fun chunk => printable chunk = true) logs ->
  Forall (fun s => ascii_text s = true) (streams logs) ->
  exists w',
    build_main_image project w = (Ok image, w') /\
    stdout w' = stdout w ++ (strip <$> streams logs) /\
    trace w' = trace w ++ [FromEnv;
                           ImagesBuild "." "Dockerfile" (project +:+ "_cyber:latest") true] /\
    docker w' = d1 /\ db w' = db w.
Proof.
  intros H0 Hb Hlogs _. eexists. split.
  - unfold build_main_image. rewrite bind_run, docker_call_run, H0. cbn [fst snd].
    rewrite try_except_run, bind_run, docker_call_run. cbn [docker]. rewrite Hb.
    cbn [fst snd]. rewrite bind_run, print_chunks_run by exact Hlogs. reflexivity.
  - cbn [stdout trace docker db]. rewrite <- app_assoc. auto.
Qed.

(** X5: what [build_main_image] raises when [images.build] raises.
    For a [BuildError] the caller gets a plain [Exception] "Failed to
    build image for <project>: ...", for another [APIError] a plain
    [Exception] "Docker API error during build for <project>: ...", and
    any other exception as it is.  Nothing is printed. *)
Theorem build_main_image_raises project (w : world D) d0 e d1 :
  runtime FromEnv (docker w) = (Ok tt, d0) ->
  runtime (ImagesBuild "." "Dockerfile" (project +:+ "_cyber:latest") true) d0
  = (Raise e, d1) ->
  (build_main_image project w).1 = Raise (build_failure project e) /\
  isinstance (build_failure project e) APIError = false /\
  stdout (build_main_image project w).2 = stdout w /\
  trace (build_main_image project w).2
  = trace w ++ [FromEnv;
                ImagesBuild "." "Dockerfile" (project +:+ "_cyber:latest") true].
Proof.
  intros H0 Hb.
  assert (Hcls : isinstance (build_failure project e) APIError = false).
  { unfold build_failure. destruct (isinstance e BuildError) eqn:E1; [reflexivity|].
    destruct (isinstance e APIError) eqn:E2; [reflexivity|exact E2]. }
  unfold build_main_image.
  rewrite bind_run, docker_call_run, H0. cbn [fst snd].
  rewrite try_except_run, bind_run, docker_call_run. cbn [docker]. rewrite Hb.
  cbn [fst snd dispatch existsb]. rewrite !orb_false_r.
  split; [|split; [exact Hcls|]].
  - unfold build_failure.
    destruct (isinstance e BuildError); [reflexivity|].
    destruct (isinstance e APIError); reflexivity.
  - destruct (isinstance e BuildError);
      [cbn; rewrite <- app_assoc; split; reflexivity|].
    destruct (isinstance e APIError); cbn; rewrite <- app_assoc; split; reflexivity.
Qed.
End Build.


(** ** The calls of a deployment *)

Section DeploymentCalls.
Context {D : Type} `{!DockerRuntime D}.

Lemma removals_ok (existing : list Container) (w : world D) u w' :
  for_each existing (fun cont => docker_call (ContainerRemove cont true)) w = (Ok u, w') ->
  trace w' = trace w ++ removal_calls existing.
Proof.
  revert w. induction existing as [|c existing IH]; intros w; cbn [for_each].
  - intros [= <- <-]. cbn. rewrite app_nil_r. reflexivity.
  - intros H. apply bind_ok in H as (u1 & w1 & H1 & H).
    call_ok H1 as (_ & T1 & _). apply IH in H. rewrite H, T1, <- app_assoc.
    reflexivity.
Qed.

(** The network step, when it does not raise. *)
Lemma ensure_network_ok network_name (w : world D) u w' :
  try_except (docker_call (NetworksGet network_name))
    [([NotFound], fun _ => docker_call (NetworksCreate network_name "bridge"))] w
  = (Ok u, w') ->
  exists created,
    trace w' = trace w ++ network_calls network_name created /\
    if created
    then exists e d1, runtime (NetworksGet network_name) (docker w) = (Raise e, d1) /\
                      isinstance e NotFound = true
    else exists d1, runtime (NetworksGet network_name) (docker w) = (Ok tt, d1).
Proof.
  rewrite try_except_run, docker_call_run.
  destruct (runtime (NetworksGet network_name) (docker w)) as [[[]|e] d1] eqn:Eg;
    cbn [fst snd].
  - intros Heq. injection Heq as _ <-. exists false. cbn. eauto.
  - cbn [dispatch existsb]. rewrite orb_false_r.
    destruct (isinstance e NotFound) eqn:He; [|discriminate].
    intros H. call_ok H as (_ & T & _). exists true. cbn in T |- *.
    rewrite T, <- app_assoc. eauto.
Qed.

(** A build that returns recorded the client and the build, no other
    call. *)
Lemma build_main_image_ok project (w : world D) image w' :
  build_main_image project w = (Ok image, w') ->
  trace w' = trace w ++ [FromEnv;
                         ImagesBuild "." "Dockerfile" (project +:+ "_cyber:latest") true].
Proof.
  unfold build_main_image. intros H.
  apply bind_ok in H as (u0 & w1 & H1 & H). call_ok H1 as (_ & T1 & _).
  rewrite try_except_run in H.
  match type of H with
  | match ?body w1 with _ => _ end = _ => destruct (body w1) as [[a|e] w2] eqn:Eb
  end.
  - injection H as -> ->.
    apply bind_ok in Eb as ([img logs] & w3 & H3 & Eb). call_ok H3 as (_ & T3 & _).
    apply bind_ok in Eb as (u4 & w4 & H4 & Eb).
    cbv [mret M_ret] in Eb. injection Eb as _ <-.
    eapply (emits_elim (fun _ => False)) in H4 as (_ & _ & t4 & T4 & F4);
      [|apply emits_for_each; intros chunk; apply print_chunk_emits].
    destruct t4 as [|c t4]; [|inversion F4; contradiction].
    rewrite T4, app_nil_r, T3, T1, <- app_assoc. reflexivity.
  - cbn [dispatch existsb] in H. rewrite !orb_false_r in H.
    destruct (isinstance e BuildError); [discriminate|].
    destruct (isinstance e APIError); discriminate.
Qed.

(** The image step, when it does not raise. *)
Lemma ensure_image_ok project (w : world D) u w' :
  try_except (docker_call (ImagesGet (project +:+ "_cyber:latest")))
    [([ImageNotFound], fun _ => build_main_image project ;; mret tt)] w
  = (Ok u, w') ->
  exists built,
    trace w' = trace w ++ image_calls (project +:+ "_cyber:latest") built /\
    if built
    then exists e d1,
        runtime (ImagesGet (project +:+ "_cyber:latest")) (docker w) = (Raise e, d1) /\
        isinstance e ImageNotFound = true
    else exists d1,
        runtime (ImagesGet (project +:+ "_cyber:latest")) (docker w) = (Ok tt, d1).
Proof.
  rewrite try_except_run, docker_call_run.
  destruct (runtime (ImagesGet (project +:+ "_cyber:latest")) (docker w))
    as [[[]|e] d1] eqn:Eg; cbn [fst snd].
  - intros Heq. injection Heq as _ <-. exists false. cbn. eauto.
  - cbn [dispatch existsb]. rewrite orb_false_r.
    destruct (isinstance e ImageNotFound) eqn:He; [|discriminate].
    intros H. apply bind_ok in H as (image & w2 & H2 & H).
    cbv [mret M_ret] in H. injection H as _ <-.
    apply build_main_image_ok in H2. exists true. cbn in H2 |- *.
    rewrite H2, <- app_assoc. eauto.
Qed.

(** X6: a [deploy_postgres_container] that returns made exactly these
    calls, in this order: the client; the lookup of the network, and
    its creation only after a [NotFound] lookup; the listing of the
    containers of that name and the forced removal of each one listed;
    the listing of the volume, and its creation only when the listing
    is empty; and [containers.run], whose answer is returned. *)
Theorem deploy_postgres_container_calls project db_password db_name
    (w : world D) c w' :
  deploy_postgres_container project db_password db_name w = (Ok c, w') ->
  exists d0 created existing found,
    runtime FromEnv (docker w) = (Ok tt, d0) /\
    trace w'
    = trace w ++ [FromEnv] ++ network_calls (project +:+ "_network") created
        ++ [ContainersList true (project +:+ "_postgres")]
        ++ removal_calls existing
        ++ [VolumesList (project +:+ "_postgres_data")]
        ++ volume_calls (project +:+ "_postgres_data") found
        ++ [ContainersRun
              (postgres_kwargs (project +:+ "_postgres") (project +:+ "_postgres_data")
                               (project +:+ "_network") db_password db_name)] /\
    (if created
     then exists e d1, runtime (NetworksGet (project +:+ "_network")) d0 = (Raise e, d1) /\
                       isinstance e NotFound = true
     else exists d1, runtime (NetworksGet (project +:+ "_network")) d0 = (Ok tt, d1)) /\
    (exists d d', runtime (ContainersList true (project +:+ "_postgres")) d
                  = (Ok existing, d')) /\
    (exists d d', runtime (VolumesList (project +:+ "_postgres_data")) d
                  = (Ok found, d')) /\
    (exists d,
        runtime (ContainersRun
                   (postgres_kwargs (project +:+ "_postgres")
                      (project +:+ "_postgres_data") (project +:+ "_network")
                      db_password db_name)) d
        = (Ok c, docker w')).
Proof.
  intros H. unfold deploy_postgres_container in H.
  apply bind_ok in H as ([] & w1 & H1 & H).
  apply bind_ok in H as (u1 & w2 & H2 & H).
  apply try_except_reraise_ok in H.
  apply bind_ok in H as (existing & w3 & H3 & H).
  apply bind_ok in H as (u4 & w4 & H4 & H).
  apply bind_ok in H as (found & w5 & H5 & H).
  apply bind_ok in H as (u6 & w6 & H6 & H).
  apply bind_ok in H as (c7 & w7 & H7 & H).
  cbv [mret M_ret] in H. injection H as -> ->.
  call_ok H1 as (R1 & T1 & _).
  apply ensure_network_ok in H2 as (created & T2 & N2).
  call_ok H3 as (R3 & T3 & _).
  apply removals_ok in H4.
  call_ok H5 as (R5 & T5 & _).
  assert (T6 : trace w6 = trace w5 ++ volume_calls (project +:+ "_postgres_data") found).
  { destruct found as [|v found].
    - call_ok H6 as (_ & T6 & _). exact T6.
    - cbv [mret M_ret] in H6. injection H6 as _ <-. cbn. rewrite app_nil_r. reflexivity. }
  call_ok H7 as (R7 & T7 & _).
  exists (docker w1), created, existing, found.
  split; [exact R1|]. split.
  { rewrite T7, T6, T5, H4, T3, T2, T1, <- !app_assoc. reflexivity. }
  split; [exact N2|]. split; [eauto|]. split; eauto.
Qed.

(** X7: a [deploy_main_container] that returns made exactly these
    calls, in this order: the client; the lookup of the network, and
    its creation only after a [NotFound] lookup; the lookup of the
    image [<project>_cyber:latest], and a build (a new client, then
    [images.build] of the current directory) only after an
    [ImageNotFound] lookup; the listing of the containers of that name
    and the forced removal of each one listed; and [containers.run],
    whose answer is returned. *)
Theorem deploy_main_container_calls project host_port db_password db_name
    (w : world D) c w' :
  deploy_main_container project host_port db_password db_name w = (Ok c, w') ->
  exists d0 created built existing,
    runtime FromEnv (docker w) = (Ok tt, d0) /\
    trace w'
    = trace w ++ [FromEnv] ++ network_calls (project +:+ "_network") created
        ++ image_calls (project +:+ "_cyber:latest") built
        ++ [ContainersList true (project +:+ "_cyber")]
        ++ removal_calls existing
        ++ [ContainersRun
              (main_kwargs (project +:+ "_cyber:latest") (project +:+ "_cyber")
                           (project +:+ "_network") project host_port
                           db_password db_name)] /\
    (if created
     then exists e d1, runtime (NetworksGet (project +:+ "_network")) d0 = (Raise e, d1) /\
                       isinstance e NotFound = true
     else exists d1, runtime (NetworksGet (project +:+ "_network")) d0 = (Ok tt, d1)) /\
    (if built
     then exists d e d1, runtime (ImagesGet (project +:+ "_cyber:latest")) d = (Raise e, d1) /\
                         isinstance e ImageNotFound = true
     else exists d d1, runtime (ImagesGet (project +:+ "_cyber:latest")) d = (Ok tt, d1)) /\
    (exists d d', runtime (ContainersList true (project +:+ "_cyber")) d
                  = (Ok existing, d')) /\
    (exists d,
        runtime (ContainersRun
                   (main_kwargs (project +:+ "_cyber:latest") (project +:+ "_cyber")
                      (project +:+ "_network") project host_port db_password db_name)) d
        = (Ok c, docker w')).
Proof.
  intros H. unfold deploy_main_container in H.
  apply bind_ok in H as ([] & w1 & H1 & H).
  apply bind_ok in H as (u1 & w2 & H2 & H).
  apply try_except_reraise_ok in H.
  apply bind_ok in H as (u3 & w3 & H3 & H).
  apply bind_ok in H as (existing & w4 & H4 & H).
  apply bind_ok in H as (u5 & w5 & H5 & H).
  apply bind_ok in H as (c6 & w6 & H6 & H).
  cbv [mret M_ret] in H. injection H as -> ->.
  call_ok H1 as (R1 & T1 & _).
  apply ensure_network_ok in H2 as (created & T2 & N2).
  apply ensure_image_ok in H3 as (built & T3 & I3).
  call_ok H4 as (R4 & T4 & _).
  apply removals_ok in H5.
  call_ok H6 as (R6 & T6 & _).
  exists (docker w1), created, built, existing.
  split; [exact R1|]. split.
  { rewrite T6, H5, T4, T3, T2, T1, <- !app_assoc. reflexivity. }
  split; [exact N2|]. split.
  { destruct built; [destruct I3 as (e & d1 & ? & ?)|destruct I3 as (d1 & ?)]; eauto. }
  split; eauto.
Qed.
(** The network step, when it raises: the lookup was recorded, and
    the creation too if the lookup was a [NotFound]. *)
Lemma ensure_network_raise network_name (w : world D) e w' :
  try_except (docker_call (NetworksGet network_name))
    [([NotFound], fun _ => docker_call (NetworksCreate network_name "bridge"))] w
  = (Raise e, w') ->
  exists created, trace w' = trace w ++ network_calls network_name created.
Proof.
  rewrite try_except_run, docker_call_run.
  destruct (runtime (NetworksGet network_name) (docker w)) as [[[]|e0] d1] eqn:Eg;
    cbn [fst snd]; [discriminate|].
  cbn [dispatch existsb]. rewrite orb_false_r.
  destruct (isinstance e0 NotFound).
  - rewrite docker_call_run. intros Heq. injection Heq as _ <-. exists true. cbn.
    rewrite <- app_assoc. reflexivity.
  - intros Heq. injection Heq as _ <-. exists false. reflexivity.
Qed.

(** A block that starts with a call records that call first. *)
Lemma bind_call_trace {A} (c : call) (f : ret c -> M D A) (w : world D) :
  (forall a, emits (fun _ => True) (f a)) ->
  exists t, trace ((docker_call c ≫= f) w).2 = trace w ++ c :: t.
Proof.
  intros Hf. rewrite bind_run, docker_call_run.
  destruct (runtime c (docker w)) as [[a|e] d]; cbn [fst snd].
  - match goal with |- context [f a ?w1] =>
      destruct (Hf a w1) as (_ & _ & t & Ht & _)
    end.
    exists t. rewrite Ht. cbn. rewrite <- app_assoc. reflexivity.
  - exists []. reflexivity.
Qed.

(** X8: an [APIError] ([NotFound] included) reaches the caller of a
    deployment only from the client or from the network step.  Once
    the second [try] block is entered (the containers are listed, or
    the image is looked up), whatever is raised reaches the caller as
    an exception that is no [APIError]: an [APIError] raised there
    comes out as a plain [Exception]. *)
Theorem deployment_wraps_api_errors project host_port db_password db_name
    (w : world D) :
  (forall e w',
      deploy_postgres_container project db_password db_name w = (Raise e, w') ->
      exists t, trace w' = trace w ++ t /\
        ((exists created, t = [FromEnv] ++ network_calls (project +:+ "_network") created)
         \/ t = [FromEnv]
         \/ (isinstance e APIError = false /\
             In (ContainersList true (project +:+ "_postgres")) t))) /\
  (forall e w',
      deploy_main_container project host_port db_password db_name w = (Raise e, w') ->
      exists t, trace w' = trace w ++ t /\
        ((exists created, t = [FromEnv] ++ network_calls (project +:+ "_network") created)
         \/ t = [FromEnv]
         \/ (isinstance e APIError = false /\
             In (ImagesGet (project +:+ "_cyber:latest")) t))).
Proof.
  assert (Hwrap : forall {A} (body : M D A) (msg : exn -> string) w2 e w3,
             try_except body [([APIError], fun e => raise_Exception (msg e))] w2
             = (Raise e, w3) ->
             isinstance e APIError = false /\ w3 = (body w2).2).
  { intros A body msg w2 e w3. rewrite try_except_run.
    destruct (body w2) as [[a|e2] wb]; [discriminate|].
    cbn [dispatch existsb]. rewrite orb_false_r.
    destruct (isinstance e2 APIError) eqn:He.
    - intros [= <- <-]. split; reflexivity.
    - intros [= <- <-]. split; [exact He|reflexivity]. }
  split.
  - intros e w' H. unfold deploy_postgres_container in H. rewrite bind_run in H.
    pose proof (docker_call_run FromEnv w) as R0.
    destruct (docker_call FromEnv w) as [[[]|e0] w1]; injection R0 as _ ->.
    + rewrite bind_run in H.
      match type of H with
      | match ?net ?w1 with _ => _ end = _ => destruct (net w1) as [[u|e1] w2] eqn:En
      end.
      * apply Hwrap in H as (He & ->).
        match goal with |- context [((docker_call ?c ≫= ?f) w2).2] =>
          destruct (bind_call_trace c f w2) as (t & Ht);
            [intros a; repeat emits_step|]
        end.
        apply ensure_network_ok in En as (created & Tn & _).
        eexists. split;
          [etransitivity; [exact Ht|];
           rewrite Tn; cbn [trace]; rewrite <- !app_assoc; reflexivity|].
        right. right. split; [exact He|].
        apply in_or_app. right. apply in_or_app. right. left. reflexivity.
      * injection H as _ <-. apply ensure_network_raise in En as (created & Tn).
        eexists. split; [rewrite Tn; cbn [trace]; rewrite <- !app_assoc; reflexivity|].
        left. exists created. reflexivity.
    + injection H as _ <-. eexists. split; [reflexivity|]. right. left. reflexivity.
  - intros e w' H. unfold deploy_main_container in H. rewrite bind_run in H.
    pose proof (docker_call_run FromEnv w) as R0.
    destruct (docker_call FromEnv w) as [[[]|e0] w1]; injection R0 as _ ->.
    + rewrite bind_run in H.
      match type of H with
      | match ?net ?w1 with _ => _ end = _ => destruct (net w1) as [[u|e1] w2] eqn:En
      end.
      * apply Hwrap in H as (He & ->).
        apply ensure_network_ok in En as (created & Tn & _).
        match goal with |- context [(?body w2).2] =>
          assert (Hb : exists t, trace (body w2).2
                                 = trace w2 ++ ImagesGet (project +:+ "_cyber:latest") :: t)
        end.
        { rewrite bind_run.
          destruct (try_docker_call_trace (ImagesGet (project +:+ "_cyber:latest"))
                      [([ImageNotFound], fun _ => build_main_image project ;; mret tt)] w2)
            as (t3 & T3).
          { constructor; [|constructor]. intros e3. cbn [snd].
            apply emits_bind; [|intros ?; apply emits_ret].
            eapply emits_weaken; [|apply (build_main_image_emits project 0 "" "")].
            intros; exact I. }
          match goal with
          | |- context [match ?img w2 with _ => _ end] =>
              destruct (img w2) as [[u3|e3] w3]
          end; cbn [snd] in T3.
          - match goal with |- context [(?rest w3).2] =>
              assert (Hr : emits (fun _ => True) rest) by repeat emits_step;
              destruct (Hr w3) as (_ & _ & t4 & T4 & _)
            end.
            eexists. rewrite T4, T3, <- app_assoc. reflexivity.
          - eexists. exact T3. }
        destruct Hb as (t & Ht).
        eexists. split;
          [etransitivity; [exact Ht|];
           rewrite Tn; cbn [trace]; rewrite <- !app_assoc; reflexivity|].
        right. right. split; [exact He|].
        apply in_or_app. right. apply in_or_app. right. left. reflexivity.
      * injection H as _ <-. apply ensure_network_raise in En as (created & Tn).
        eexists. split; [rewrite Tn; cbn [trace]; rewrite <- !app_assoc; reflexivity|].
        left. exists created. reflexivity.
    + injection H as _ <-. eexists. split; [reflexivity|]. right. left. reflexivity.
Qed.
End DeploymentCalls.

(** ** Provisioning: what a failure leaves, and what is ever asked *)

Section ProvisioningFrame.
Context {D : Type} `{!DockerRuntime D}.

(** X9: unless [create_container] returns a name, the table is what it
    was and nothing was committed: a failed provisioning persists no
    record, whatever it deployed. *)
Theorem create_container_failure_keeps_table user_id plan (w : world D) r w' :
  create_container user_id plan w = (r, w') ->
  (forall name, r <> Ok (Some name)) ->
  rows (db w') = rows (db w) /\ commits (db w') = commits (db w).
Proof.
  intros H Hr. rewrite create_container_run in H.
  assert (Hdb0 := docker_call_session FromEnv w).
  destruct (docker_call FromEnv w) as [[u|e] w0] eqn:E0; cbn [snd] in Hdb0.
  - rewrite create_container_body_run in H. cbv zeta in H.
    destruct (deploy_postgres_container _ _ _ w0) as [[pg|e1] w1] eqn:E1.
    + destruct (deploy_main_container _ _ _ _ w1) as [[mc|e2] w2] eqn:E2;
        destruct (deployments_keep_session _ _ _ _ _ _ _ _ E0 E1 E2) as (Hdb2 & _).
      * rewrite persist_run in H. destruct (flush _ _) as [t|].
        -- injection H as <- _. exfalso. eapply Hr. reflexivity.
        -- injection H as _ <-. cbn. rewrite Hdb2. split; reflexivity.
      * injection H as _ <-. cbn. rewrite Hdb2. split; reflexivity.
    + eapply emits_elim in E1 as (Hdb1 & _);
        [|apply (deploy_postgres_container_emits _ 0)].
      injection H as _ <-. cbn. rewrite Hdb1, Hdb0. split; reflexivity.
  - injection H as _ <-. rewrite Hdb0. split; reflexivity.
Qed.

(** Whatever the outcome, the calls of [create_container] carry the
    names of the project, and the working directory is left alone. *)
Lemma create_container_calls_named user_id plan (w : world D) :
  exists t,
    trace (create_container user_id plan w).2 = trace w ++ t /\
    Forall (provisioning_call ("cyber_" +:+ pretty user_id) (5000 + user_id) "db1"
                              ("db_" +:+ pretty user_id)) t /\
    cwd (create_container user_id plan w).2 = cwd w.
Proof.
  rewrite create_container_run.
  pose proof (emits_docker_call
                (provisioning_call ("cyber_" +:+ pretty user_id) (5000 + user_id)
                   "db1" ("db_" +:+ pretty user_id)) FromEnv I w) as (_ & C0 & t0 & T0 & P0).
  destruct (docker_call FromEnv w) as [[u|e] w0]; cbn [snd] in *;
    [|exists t0; auto].
  rewrite create_container_body_run. cbv zeta.
  pose proof (deploy_postgres_container_emits ("cyber_" +:+ pretty user_id)
                (5000 + user_id) "db1" ("db_" +:+ pretty user_id) w0)
    as (_ & C1 & t1 & T1 & P1).
  destruct (deploy_postgres_container _ _ _ w0) as [[pg|e1] w1]; cbn [snd] in *.
  - pose proof (deploy_main_container_emits ("cyber_" +:+ pretty user_id)
                  (5000 + user_id) "db1" ("db_" +:+ pretty user_id) w1)
      as (_ & C2 & t2 & T2 & P2).
    destruct (deploy_main_container _ _ _ _ w1) as [[mc|e2] w2]; cbn [snd] in *.
    + rewrite persist_run.
      exists (t0 ++ t1 ++ t2).
      destruct (flush _ _); cbn; rewrite T2, T1, T0, <- !app_assoc, C2, C1, C0;
        (split; [reflexivity|]); (split; [|reflexivity]);
        repeat (apply Forall_app; split); assumption.
    + exists (t0 ++ t1 ++ t2). cbn. rewrite T2, T1, T0, <- !app_assoc, C2, C1, C0.
      split; [reflexivity|]. split; [|reflexivity].
      repeat (apply Forall_app; split); assumption.
  - exists (t0 ++ t1). cbn. rewrite T1, T0, <- !app_assoc, C1, C0.
    split; [reflexivity|]. split; [|reflexivity].
    repeat (apply Forall_app; split); assumption.
Qed.

(** *** The containers removed are containers listed *)

Lemma emits_at_of_emits {A} P (m : M D A) w : emits P m -> emits_at P m w.
Proof. intros H. destruct (H w) as (_ & _ & t & Ht & HP). exists t. auto. Qed.

Lemma emits_at_bind {A B} P (m : M D A) (f : A -> M D B) w :
  emits_at P m w ->
  (forall a w1, m w = (Ok a, w1) -> emits_at P (f a) w1) ->
  emits_at P (m ≫= f) w.
Proof.
  intros (t & Ht & HP) Hf. unfold emits_at. rewrite bind_run.
  destruct (m w) as [[a|e] w1]; cbn [snd] in Ht.
  - destruct (Hf a w1 eq_refl) as (t' & Ht' & HP').
    exists (t ++ t'). rewrite Ht', Ht, app_assoc. split; [reflexivity|].
    apply Forall_app; split; assumption.
  - exists t. split; assumption.
Qed.

Lemma emits_at_try_except {A} P (body : M D A) hs w :
  emits_at P body w ->
  Forall (fun h => forall e, emits P (h.2 e)) hs ->
  emits_at P (try_except body hs) w.
Proof.
  intros (t & Ht & HP) Hhs. unfold emits_at. rewrite try_except_run.
  destruct (body w) as [[a|e] w1]; cbn [snd] in Ht.
  - exists t. split; assumption.
  - destruct (emits_dispatch P hs e Hhs w1) as (_ & _ & t' & Ht' & HP').
    exists (t ++ t'). rewrite Ht', Ht, app_assoc. split; [reflexivity|].
    apply Forall_app; split; assumption.
Qed.

Lemma emits_for_each_in {A} P (xs : list A) (f : A -> M D unit) :
  (forall x, x ∈ xs -> emits P (f x)) -> emits P (for_each xs f).
Proof.
  induction xs as [|x xs IH]; intros Hf; cbn [for_each].
  - apply emits_ret.
  - apply emits_bind.
    + apply Hf. left.
    + intros _. apply IH. intros y Hy. apply Hf. right. exact Hy.
Qed.

(** The listing, the removal of what was listed, and the rest. *)
Lemma list_and_remove_emits_at {A} project filter_ (rest : M D A) w :
  filter_ = project +:+ "_postgres" \/ filter_ = project +:+ "_cyber" ->
  emits (listed_removal project) rest ->
  emits_at (listed_removal project)
    (existing ← docker_call (ContainersList true filter_);
     for_each existing (fun cont => docker_call (ContainerRemove cont true)) ;;
     rest) w.
Proof.
  intros Hfilter Hrest. apply emits_at_bind.
  - apply emits_at_of_emits. apply (emits_docker_call _ (ContainersList _ _)). exact I.
  - intros existing w1 H. call_ok H as (R & _).
    apply emits_at_of_emits. apply emits_bind; [|intros _; exact Hrest].
    apply emits_for_each_in. intros cont Hin.
    apply (emits_docker_call _ (ContainerRemove _ _)).
    exists filter_, (docker w), existing, (docker w1). auto.
Qed.

Lemma build_main_image_no_removal project project' :
  emits (listed_removal project') (build_main_image project).
Proof.
  unfold build_main_image. repeat emits_step.
  apply print_chunk_emits.
Qed.

Lemma deploy_postgres_container_removals project db_password db_name w :
  emits_at (listed_removal project)
           (deploy_postgres_container project db_password db_name) w.
Proof.
  unfold deploy_postgres_container.
  apply emits_at_bind; [apply emits_at_of_emits; emits_step|]. intros _ w1 _.
  apply emits_at_bind; [apply emits_at_of_emits; repeat emits_step|]. intros _ w2 _.
  apply emits_at_try_except; [|emits_handlers; emits_step].
  apply list_and_remove_emits_at; [left; reflexivity|].
  repeat emits_step.
Qed.

Lemma deploy_main_container_removals project host_port db_password db_name w :
  emits_at (listed_removal project)
           (deploy_main_container project host_port db_password db_name) w.
Proof.
  unfold deploy_main_container.
  apply emits_at_bind; [apply emits_at_of_emits; emits_step|]. intros _ w1 _.
  apply emits_at_bind; [apply emits_at_of_emits; repeat emits_step|]. intros _ w2 _.
  apply emits_at_try_except; [|emits_handlers; emits_step].
  apply emits_at_bind.
  - apply emits_at_of_emits. repeat emits_step. apply build_main_image_no_removal.
  - intros _ w3 _. apply list_and_remove_emits_at; [right; reflexivity|].
    repeat emits_step.
Qed.

Lemma create_container_removals user_id plan (w : world D) :
  emits_at (listed_removal ("cyber_" +:+ pretty user_id)) (create_container user_id plan) w.
Proof.
  unfold emits_at. rewrite create_container_run.
  pose proof (emits_docker_call (listed_removal ("cyber_" +:+ pretty user_id))
                FromEnv I w) as (_ & _ & t0 & T0 & P0).
  destruct (docker_call FromEnv w) as [[u|e] w0]; cbn [snd] in *;
    [|exists t0; auto].
  rewrite create_container_body_run. cbv zeta.
  destruct (deploy_postgres_container_removals ("cyber_" +:+ pretty user_id)
              "db1" ("db_" +:+ pretty user_id) w0) as (t1 & T1 & P1).
  destruct (deploy_postgres_container _ _ _ w0) as [[pg|e1] w1]; cbn [snd] in *.
  - destruct (deploy_main_container_removals ("cyber_" +:+ pretty user_id)
                (5000 + user_id) "db1" ("db_" +:+ pretty user_id) w1)
      as (t2 & T2 & P2).
    destruct (deploy_main_container _ _ _ _ w1) as [[mc|e2] w2]; cbn [snd] in *.
    + rewrite persist_run.
      exists (t0 ++ t1 ++ t2).
      destruct (flush _ _); cbn; rewrite T2, T1, T0, <- !app_assoc;
        (split; [reflexivity|]);
        repeat (apply Forall_app; split); assumption.
    + exists (t0 ++ t1 ++ t2). cbn. rewrite T2, T1, T0, <- !app_assoc.
      split; [reflexivity|].
      repeat (apply Forall_app; split); assumption.
  - exists (t0 ++ t1). cbn. rewrite T1, T0, <- !app_assoc.
    split; [reflexivity|].
    repeat (apply Forall_app; split); assumption.
Qed.

(** X10: whatever the outcome, every call that [create_container]
    makes for tenant [user_id] names only the network, the volume, the
    image and the containers of the project [cyber_<user_id>], or
    removes a container that the daemon listed under one of these
    names; it makes no lifecycle call other than such a removal and
    no lookup of a single container, and it leaves the working
    directory alone. *)
Theorem create_container_calls_isolated user_id plan (w : world D) :
  exists t,
    trace (create_container user_id plan w).2 = trace w ++ t /\
    Forall (provisioning_call ("cyber_" +:+ pretty user_id) (5000 + user_id) "db1"
                              ("db_" +:+ pretty user_id)) t /\
    Forall (listed_removal ("cyber_" +:+ pretty user_id)) t /\
    cwd (create_container user_id plan w).2 = cwd w.
Proof.
  destruct (create_container_calls_named user_id plan w) as (t & Ht & Hnamed & Hcwd).
  destruct (create_container_removals user_id plan w) as (t' & Ht' & Hlisted).
  rewrite Ht in Ht'. apply app_inv_head in Ht'. subst t'.
  exists t. auto.
Qed.
End ProvisioningFrame.

(** ** The lifecycle manager: its calls and its frame *)

Section LifecycleFrame.
Context {D : Type} `{!DockerRuntime D}.

(** A lifecycle call that the daemon carries out, then the status
    update, from a session with nothing pending. *)
Lemma status_block_run (lifecycle : call) (obj : ContainerManager) (st : string)
    (w1 : world D) u d2 :
  pending (db w1) = [] ->
  runtime lifecycle (docker w1) = (Ok u, d2) ->
  ((docker_call lifecycle ;; update_status obj st) ;; mret true) w1
  = (Ok true,
     put_session
       {| docker := d2; db := db w1; trace := trace w1 ++ [lifecycle];
          stdout := stdout w1; cwd := cwd w1 |}
       (committed (db w1)
          (alter (set_status st) (container_id obj) (rows (db w1))))).
Proof.
  intros Hclean Hcall.
  rewrite bind_run, bind_run, docker_call_run, Hcall. cbn [fst snd].
  rewrite update_status_run. cbn [db pending rows]. rewrite Hclean. cbn [app].
  rewrite flush_status_clean. reflexivity.
Qed.

(** X11: a record exists, nothing is pending, the client is obtained,
    the daemon finds the container and carries out the action.  Then
    [start], [stop] and [restart] return [True] after exactly three
    calls (client, lookup, the lifecycle call on the handle found) and
    one commit that sets the status of that record to [running],
    [stopped] and [running]. *)
Theorem manage_container_sets_status cid (col : columns) (w : world D) d0 h d1 d2 :
  pending (db w) = [] ->
  rows (db w) !! cid = Some col ->
  runtime FromEnv (docker w) = (Ok tt, d0) ->
  runtime (ContainersGet cid) d0 = (Ok h, d1) ->
  (runtime (ContainerStart h) d1 = (Ok tt, d2) ->
   exists w',
     manage_container cid "start" w = (Ok true, w') /\
     rows (db w') = alter (set_status "running") cid (rows (db w)) /\
     rows (db w') !! cid = Some (set_status "running" col) /\
     pending (db w') = [] /\ commits (db w') = S (commits (db w)) /\
     docker w' = d2 /\
     trace w' = trace w ++ [FromEnv; ContainersGet cid; ContainerStart h]) /\
  (runtime (ContainerStop h) d1 = (Ok tt, d2) ->
   exists w',
     manage_container cid "stop" w = (Ok true, w') /\
     rows (db w') = alter (set_status "stopped") cid (rows (db w)) /\
     rows (db w') !! cid = Some (set_status "stopped" col) /\
     pending (db w') = [] /\ commits (db w') = S (commits (db w)) /\
     docker w' = d2 /\
     trace w' = trace w ++ [FromEnv; ContainersGet cid; ContainerStop h]) /\
  (runtime (ContainerRestart h) d1 = (Ok tt, d2) ->
   exists w',
     manage_container cid "restart" w = (Ok true, w') /\
     rows (db w') = alter (set_status "running") cid (rows (db w)) /\
     rows (db w') !! cid = Some (set_status "running" col) /\
     pending (db w') = [] /\ commits (db w') = S (commits (db w)) /\
     docker w' = d2 /\
     trace w' = trace w ++ [FromEnv; ContainersGet cid; ContainerRestart h]).
Proof.
  intros Hclean Hrow H0 Hget.
  destruct (from_env_run w d0 H0) as (E0 & Hd0 & Hdb0 & Ht0 & _).
  assert (Hrun : forall action,
             manage_container cid action w
             = match manage_container_found cid action (Some (object_of cid col))
                       (docker_call FromEnv w).2 with
               | (Ok b, w1) => (Ok b, w1)
               | (Raise e, w1) =>
                   if isinstance e NotFound
                   then manage_container_not_found action
                          (Some (Some (object_of cid col))) w1
                   else (Ok false,
                         (print ("Error managing container: " +:+ str_exn e) w1).2)
               end).
  { intros action. rewrite manage_container_run, E0. cbv zeta.
    rewrite Hdb0, Hrow. reflexivity. }
  set (w0 := (docker_call FromEnv w).2) in *.
  assert (Eg : docker_call (ContainersGet cid) w0
               = (Ok h, {| docker := d1; db := db w0;
                           trace := trace w0 ++ [ContainersGet cid];
                           stdout := stdout w0; cwd := cwd w0 |})).
  { rewrite docker_call_run, Hd0, Hget. reflexivity. }
  split; [|split]; intros Hcall; eexists;
    (split;
     [rewrite Hrun; cbn [manage_container_found]; rewrite bind_run, Eg;
      cbv beta iota; repeat (case_decide; try congruence);
      erewrite status_block_run;
        [reflexivity|cbn [db]; rewrite Hdb0; exact Hclean|exact Hcall]
     |cbn; rewrite Hdb0, lookup_alter, decide_True, Hrow, Ht0, <- !app_assoc
        by reflexivity;
      repeat split; reflexivity]).
Qed.
(** *** What the session operations leave alone *)

Lemma offline_ret {A} (a : A) : offline (D:=D) (mret a).
Proof. intros w. split; reflexivity. Qed.

Lemma offline_bind {A B} (m : M D A) (f : A -> M D B) :
  offline m -> (forall a, offline (f a)) -> offline (m ≫= f).
Proof.
  intros Hm Hf w. rewrite bind_run. destruct (Hm w) as (Ht & Hd).
  destruct (m w) as [[a|e] w1]; cbn [snd] in *.
  - destruct (Hf a w1) as (Ht' & Hd'). split; congruence.
  - split; assumption.
Qed.

Lemma offline_commit : offline (D:=D) db_session_commit.
Proof.
  intros w. rewrite db_session_commit_run. destruct (flush _ _); split; reflexivity.
Qed.

Lemma offline_update_status obj st : offline (D:=D) (update_status obj st).
Proof.
  intros w. rewrite update_status_run. destruct (flush _ _); split; reflexivity.
Qed.

Lemma offline_delete obj : offline (D:=D) (db_session_delete obj).
Proof. intros w. split; reflexivity. Qed.

Lemma offline_print line : offline (D:=D) (print line).
Proof. intros w. split; reflexivity. Qed.

Lemma offline_not_found action container :
  offline (D:=D) (manage_container_not_found action container).
Proof.
  unfold manage_container_not_found.
  destruct (decide (action = "remove")); [|apply offline_ret].
  destruct container as [[obj|]|]; [|apply offline_ret|intros w; split; reflexivity].
  apply offline_bind; [apply offline_update_status|intros ?].
  apply offline_bind; [apply offline_delete|intros ?].
  apply offline_bind; [apply offline_commit|intros ?]. apply offline_ret.
Qed.

Lemma offline_remove_record obj :
  offline (D:=D)
    (update_status obj "removed" ;; db_session_delete obj ;; db_session_commit).
Proof.
  apply offline_bind; [apply offline_update_status|intros ?].
  apply offline_bind; [apply offline_delete|intros ?]. apply offline_commit.
Qed.

(** The calls of the block after the lookup of the record. *)
Lemma manage_container_found_calls cid action container (w0 : world D) :
  exists t,
    trace (manage_container_found cid action container w0).2 = trace w0 ++ t /\
    (t = [] \/ t = [ContainersGet cid] \/
     exists h lc d d',
       runtime (ContainersGet cid) d = (Ok h, d') /\
       lifecycle_for action h = Some lc /\ t = [ContainersGet cid; lc]).
Proof.
  destruct container as [obj|]; cbn [manage_container_found];
    [|exists []; rewrite app_nil_r; auto].
  rewrite bind_run, docker_call_run.
  destruct (runtime (ContainersGet cid) (docker w0)) as [[h|e] d1] eqn:Eg;
    cbn [fst snd]; [|exists [ContainersGet cid]; auto].
  assert (Hblock : forall (lc : call) (rest : M D unit) w1,
             offline rest ->
             trace (((docker_call lc ;; rest) ;; mret true) w1).2
             = trace w1 ++ [lc]).
  { intros lc rest w1 Hrest. rewrite bind_run, bind_run, docker_call_run.
    destruct (runtime lc (docker w1)) as [[u|e] d2]; cbn [fst snd]; [|reflexivity].
    match goal with |- context [rest ?w2] =>
      destruct (Hrest w2) as (Ht & _); destruct (rest w2) as [[u'|e'] w3]
    end; cbn [snd] in *; exact Ht. }
  unfold lifecycle_for.
  destruct (decide (action = "start"));
    [eexists; split;
     [rewrite Hblock by apply offline_update_status; cbn [trace];
      rewrite <- app_assoc; reflexivity
     |right; right; exists h; eauto 10]|].
  destruct (decide (action = "stop"));
    [eexists; split;
     [rewrite Hblock by apply offline_update_status; cbn [trace];
      rewrite <- app_assoc; reflexivity
     |right; right; exists h; eauto 10]|].
  destruct (decide (action = "remove"));
    [eexists; split;
     [rewrite Hblock by apply offline_remove_record;
      cbn [trace]; rewrite <- app_assoc; reflexivity
     |right; right; exists h; eauto 10]|].
  destruct (decide (action = "restart"));
    [eexists; split;
     [rewrite Hblock by apply offline_update_status; cbn [trace];
      rewrite <- app_assoc; reflexivity
     |right; right; exists h; eauto 10]|].
  exists [ContainersGet cid]. auto.
Qed.

(** X12: whatever the action and the outcome, [manage_container] makes
    at most three calls: the client, the lookup of the container, and,
    when the lookup returned a handle and the action is one of the
    four, the one lifecycle call of that action on that handle (a
    forced removal for [remove]).  It builds, runs and lists
    nothing. *)
Theorem manage_container_calls cid action (w : world D) :
  exists t,
    trace (manage_container cid action w).2 = trace w ++ t /\
    (t = [FromEnv] \/ t = [FromEnv; ContainersGet cid] \/
     exists h lc d d',
       runtime (ContainersGet cid) d = (Ok h, d') /\
       lifecycle_for action h = Some lc /\
       t = [FromEnv; ContainersGet cid; lc]).
Proof.
  rewrite manage_container_run, docker_call_run.
  destruct (runtime FromEnv (docker w)) as [[u|e] d0]; cbn [fst snd];
    [|exists [FromEnv]; auto].
  cbv zeta.
  match goal with |- context [manage_container_found cid action ?c ?w0] =>
    destruct (manage_container_found_calls cid action c w0) as (t & Ht & Hshape);
    destruct (manage_container_found cid action c w0) as [[b|e] w1]
  end; cbn [snd trace] in Ht.
  - exists ([FromEnv] ++ t). cbn [snd]. rewrite Ht, <- app_assoc.
    split; [reflexivity|].
    destruct Hshape as [->|[->|(h & lc & d & d' & Hg & Hl & ->)]]; auto.
    right. right. exists h, lc, d, d'. auto.
  - assert (Hq : forall (m : M D bool), offline m -> trace (m w1).2 = trace w1)
      by (intros m Hm; apply Hm).
    exists ([FromEnv] ++ t).
    split.
    + destruct (isinstance e NotFound).
      * rewrite Hq by apply offline_not_found. rewrite Ht, <- app_assoc. reflexivity.
      * cbn. rewrite Ht, <- app_assoc. reflexivity.
    + destruct Hshape as [->|[->|(h & lc & d & d' & Hg & Hl & ->)]]; auto.
      right. right. exists h, lc, d, d'. auto.
Qed.

(** X13: a record exists, nothing is pending, the client is obtained,
    the daemon finds the container and removes it.  Then [remove]
    returns [True] after exactly three calls, the third a forced
    removal of the handle found, and after the status update and the
    deletion, each committed, the table is the old one without the
    record. *)
Theorem manage_container_removes cid (col : columns) (w : world D) d0 h d1 d2 :
  pending (db w) = [] ->
  rows (db w) !! cid = Some col ->
  runtime FromEnv (docker w) = (Ok tt, d0) ->
  runtime (ContainersGet cid) d0 = (Ok h, d1) ->
  runtime (ContainerRemove h true) d1 = (Ok tt, d2) ->
  exists w',
    manage_container cid "remove" w = (Ok true, w') /\
    rows (db w') = delete cid (rows (db w)) /\
    pending (db w') = [] /\ commits (db w') = S (S (commits (db w))) /\
    docker w' = d2 /\
    trace w' = trace w ++ [FromEnv; ContainersGet cid; ContainerRemove h true].
Proof.
  intros Hclean Hrow H0 Hget Hrm.
  destruct (from_env_run w d0 H0) as (E0 & Hd0 & Hdb0 & Ht0 & _).
  pose proof (manage_container_run cid "remove" w) as Hrun.
  rewrite E0 in Hrun. cbv zeta in Hrun.
  set (w0 := (docker_call FromEnv w).2) in *.
  rewrite Hdb0, Hrow in Hrun. cbn [fmap option_fmap option_map] in Hrun.
  cbn [manage_container_found] in Hrun.
  rewrite bind_run, docker_call_run, Hd0, Hget in Hrun. cbv beta iota in Hrun.
  cbn [fst snd] in Hrun.
  repeat (case_decide; try congruence).
  rewrite bind_run, (bind_run (docker_call (ContainerRemove h true))) in Hrun.
  rewrite docker_call_run in Hrun. cbn [docker] in Hrun. rewrite Hrm in Hrun.
  cbn [fst snd] in Hrun. rewrite remove_record_run in Hrun.
  cbn [db pending rows] in Hrun. rewrite Hdb0, Hclean in Hrun. cbn [app] in Hrun.
  rewrite flush_status_clean, delete_alter, decide_True in Hrun by reflexivity.
  eexists. split; [exact Hrun|]. cbn. rewrite Ht0, <- !app_assoc.
  repeat split; reflexivity.
Qed.

(** The session after the block following the lookup returned
    [True], from a session with nothing pending. *)
Lemma manage_container_found_true cid action (obj : ContainerManager)
    (w0 : world D) w1 :
  pending (db w0) = [] ->
  manage_container_found cid action (Some obj) w0 = (Ok true, w1) ->
  pending (db w1) = [] /\
  (rows (db w1) = rows (db w0) \/
   (exists st, rows (db w1) = alter (set_status st) (container_id obj) (rows (db w0))) \/
   rows (db w1) = delete (container_id obj) (rows (db w0))).
Proof.
  intros Hclean. cbn [manage_container_found]. intros H.
  apply bind_ok in H as (h & wg & Hg & H).
  assert (Hdbg : db wg = db w0)
    by (rewrite <- (docker_call_session (ContainersGet cid) w0), Hg; reflexivity).
  apply bind_ok in H as (u & w2 & H & Hret).
  cbv [mret M_ret] in Hret. injection Hret as <-.
  assert (Hstatus : forall (lc : call) st,
             (docker_call lc ;; update_status obj st) wg = (Ok u, w2) ->
             pending (db w2) = [] /\
             rows (db w2) = alter (set_status st) (container_id obj) (rows (db w0))).
  { intros lc st Hb. apply bind_ok in Hb as (u1 & wc & Hc & Hu).
    assert (Hdbc : db wc = db wg)
      by (rewrite <- (docker_call_session lc wg), Hc; reflexivity).
    rewrite update_status_run, Hdbc, Hdbg, Hclean in Hu. cbn [app] in Hu.
    rewrite flush_status_clean in Hu. injection Hu as _ <-. split; reflexivity. }
  destruct (decide (action = "start"));
    [destruct (Hstatus _ _ H) as (? & ?); eauto|].
  destruct (decide (action = "stop"));
    [destruct (Hstatus _ _ H) as (? & ?); eauto|].
  destruct (decide (action = "remove")).
  { apply bind_ok in H as (u1 & wc & Hc & Hu).
    assert (Hdbc : db wc = db wg)
      by (rewrite <- (docker_call_session (ContainerRemove h true) wg), Hc; reflexivity).
    rewrite remove_record_run, Hdbc, Hdbg, Hclean in Hu. cbn [app] in Hu.
    rewrite flush_status_clean, delete_alter, decide_True in Hu by reflexivity.
    injection Hu as _ <-. split; [reflexivity|]. right. right. reflexivity. }
  destruct (decide (action = "restart"));
    [destruct (Hstatus _ _ H) as (? & ?); eauto|].
  cbv [mret M_ret] in H. injection H as _ <-. rewrite Hdbg. auto.
Qed.

(** X14: from a session with nothing pending, whatever the action and
    the outcome, [manage_container] leaves every other record as it
    was, and the record addressed is unchanged, gone, or changed in
    its status only. *)
Theorem manage_container_frame cid action (w : world D) r w' :
  pending (db w) = [] ->
  manage_container cid action w = (r, w') ->
  (forall k, k <> cid -> rows (db w') !! k = rows (db w) !! k) /\
  (rows (db w') !! cid = rows (db w) !! cid \/
   rows (db w') !! cid = None \/
   exists st, rows (db w') !! cid = set_status st <$> rows (db w) !! cid).
Proof.
  intros Hclean H. rewrite manage_container_run in H.
  assert (Hdb0 := docker_call_session FromEnv w).
  destruct (docker_call FromEnv w) as [[u|e] w0]; cbn [snd] in Hdb0;
    [|injection H as _ <-; rewrite Hdb0; auto].
  cbv zeta in H. rewrite Hdb0 in H.
  assert (Hclean0 : pending (db w0) = []) by (rewrite Hdb0; exact Hclean).
  assert (Hsame : forall w1 : world D, db w1 = db w0 ->
             (forall k, k <> cid -> rows (db w1) !! k = rows (db w) !! k) /\
             (rows (db w1) !! cid = rows (db w) !! cid \/
              rows (db w1) !! cid = None \/
              exists st, rows (db w1) !! cid = set_status st <$> rows (db w) !! cid)).
  { intros w1 ->. rewrite Hdb0. auto. }
  assert (Hgone : forall w1 : world D, rows (db w1) = delete cid (rows (db w)) ->
             (forall k, k <> cid -> rows (db w1) !! k = rows (db w) !! k) /\
             (rows (db w1) !! cid = rows (db w) !! cid \/
              rows (db w1) !! cid = None \/
              exists st, rows (db w1) !! cid = set_status st <$> rows (db w) !! cid)).
  { intros w1 ->. split.
    - intros k Hk. apply lookup_delete_ne. congruence.
    - right. left. apply lookup_delete_eq. }
  destruct (manage_container_found cid action
              (object_of cid <$> rows (db w) !! cid) w0) as [[b|e] w1] eqn:Ef.
  - injection H as _ <-. destruct b.
    + destruct (rows (db w) !! cid) as [col|] eqn:Hrow;
        [|apply manage_container_found_outcome in Ef; contradiction].
      cbn [fmap option_fmap option_map] in Ef.
      apply manage_container_found_true in Ef as (_ & [Hr|[(st & Hr)|Hr]]);
        [| | |exact Hclean0]; cbn [object_of container_id] in Hr; rewrite Hdb0 in Hr.
      * rewrite Hr, Hrow. auto.
      * rewrite Hr. split.
        -- intros k Hk. apply lookup_alter_ne. congruence.
        -- right. right. exists st.
           rewrite lookup_alter, decide_True, Hrow by reflexivity. reflexivity.
      * apply Hgone. exact Hr.
    + apply manage_container_found_outcome in Ef as (_ & ->). apply Hsame. reflexivity.
  - pose proof (manage_container_found_outcome _ _ _ _ _ _ Ef) as (Hsome & _ & _ & Hp).
    specialize (Hp Hclean0).
    destruct (isinstance e NotFound).
    + destruct (decide (action = "remove")) as [->|Hne].
      * destruct (rows (db w) !! cid) as [col|]; [|contradiction].
        cbn [fmap option_fmap option_map] in H.
        rewrite manage_container_not_found_remove in H by (rewrite Hp; exact Hclean0).
        injection H as _ <-. apply Hgone. cbn. rewrite Hp, Hdb0. reflexivity.
      * unfold manage_container_not_found in H.
        destruct (decide (action = "remove")); [contradiction|].
        injection H as _ <-. apply Hsame. exact Hp.
    + injection H as _ <-. apply Hsame. exact Hp.
Qed.
End LifecycleFrame.

(** ** Telemetry *)

Section TelemetryFacts.
Context {D : Type} `{!DockerRuntime D}.

(** The two [except] clauses of [get_container_stats]. *)
Lemma stats_handlers_run (e : exn) (w : world D) :
  dispatch
    [ ([NotFound; KeyError; AttributeError],
       fun _ => mret (None : option container_stats));
      ([Exception_], fun e =>
         print ("Error getting container stats: " +:+ str_exn e) ;; mret None) ]
    e w
  = (Ok None,
     {| docker := docker w; db := db w; trace := trace w;
        stdout := stdout w ++
                  (if silent_failure e then []
                   else ["Error getting container stats: " +:+ exn_msg e]);
        cwd := cwd w |}).
Proof.
  cbn [dispatch existsb]. unfold silent_failure.
  rewrite orb_false_r, orb_assoc.
  destruct (isinstance e NotFound || isinstance e KeyError || isinstance e AttributeError).
  - destruct w. cbn. rewrite app_nil_r. reflexivity.
  - rewrite isinstance_Exception. reflexivity.
Qed.

(** [get_container_stats] once the client is obtained, by what the
    lookup answers. *)
Lemma get_container_stats_lookup_raise cid (w : world D) d0 e d1 :
  runtime FromEnv (docker w) = (Ok tt, d0) ->
  runtime (ContainersGet cid) d0 = (Raise e, d1) ->
  get_container_stats cid w
  = (Ok None,
     {| docker := d1; db := db w;
        trace := trace w ++ [FromEnv; ContainersGet cid];
        stdout := stdout w ++
                  (if silent_failure e then []
                   else ["Error getting container stats: " +:+ exn_msg e]);
        cwd := cwd w |}).
Proof.
  intros H0 Hget. unfold get_container_stats.
  rewrite bind_run, docker_call_run, H0. cbn [fst snd].
  rewrite try_except_run, bind_run, docker_call_run. cbn [docker].
  rewrite Hget. cbn [fst snd]. rewrite stats_handlers_run.
  cbn [docker db trace stdout cwd]. rewrite <- app_assoc. reflexivity.
Qed.

Lemma get_container_stats_stats_raise cid (w : world D) d0 h d1 e d2 :
  runtime FromEnv (docker w) = (Ok tt, d0) ->
  runtime (ContainersGet cid) d0 = (Ok h, d1) ->
  runtime (ContainerStats h false) d1 = (Raise e, d2) ->
  get_container_stats cid w
  = (Ok None,
     {| docker := d2; db := db w;
        trace := trace w ++ [FromEnv; ContainersGet cid; ContainerStats h false];
        stdout := stdout w ++
                  (if silent_failure e then []
                   else ["Error getting container stats: " +:+ exn_msg e]);
        cwd := cwd w |}).
Proof.
  intros H0 Hget Hstats. unfold get_container_stats.
  rewrite bind_run, docker_call_run, H0. cbn [fst snd].
  rewrite try_except_run, bind_run, docker_call_run. cbn [docker].
  rewrite Hget. cbn [fst snd].
  rewrite bind_run, docker_call_run. cbn [docker]. rewrite Hstats.
  cbn [fst snd]. rewrite stats_handlers_run.
  cbn [docker db trace stdout cwd]. rewrite <- !app_assoc. reflexivity.
Qed.

Lemma get_container_stats_snapshot cid (w : world D) d0 h d1 snap d2 :
  runtime FromEnv (docker w) = (Ok tt, d0) ->
  runtime (ContainersGet cid) d0 = (Ok h, d1) ->
  runtime (ContainerStats h false) d1 = (Ok snap, d2) ->
  get_container_stats cid w
  = (Ok (match stats_of_snapshot snap with
         | Ok figures => Some figures
         | Raise _ => None
         end),
     {| docker := d2; db := db w;
        trace := trace w ++ [FromEnv; ContainersGet cid; ContainerStats h false];
        stdout := stdout w ++
                  match stats_of_snapshot snap with
                  | Ok _ => []
                  | Raise e =>
                      if silent_failure e then []
                      else ["Error getting container stats: " +:+ exn_msg e]
                  end;
        cwd := cwd w |}).
Proof.
  intros H0 Hget Hstats. unfold get_container_stats.
  rewrite bind_run, docker_call_run, H0. cbn [fst snd].
  rewrite try_except_run, bind_run, docker_call_run. cbn [docker].
  rewrite Hget. cbn [fst snd].
  rewrite bind_run, docker_call_run. cbn [docker]. rewrite Hstats.
  cbn [fst snd]. rewrite bind_run. unfold lift at 1.
  destruct (stats_of_snapshot snap) as [figures|e].
  - cbn. rewrite app_nil_r, <- !app_assoc. reflexivity.
  - cbn [fst snd]. rewrite stats_handlers_run.
    cbn [docker db trace stdout cwd]. rewrite <- !app_assoc. reflexivity.
Qed.

(** X15: once the client is obtained, [get_container_stats] never
    raises.  It returns figures exactly when the lookup and the
    snapshot succeed and the computation on the snapshot does, and then
    these are the figures of the computation; in every other case it
    returns [None].  It leaves the session as it was and prints at most
    one line, none when it returns figures. *)
Theorem get_container_stats_never_raises cid (w : world D) d0 :
  runtime FromEnv (docker w) = (Ok tt, d0) ->
  exists r w',
    get_container_stats cid w = (Ok r, w') /\
    db w' = db w /\
    (forall figures,
        r = Some figures <->
        exists h d1 snap d2,
          runtime (ContainersGet cid) d0 = (Ok h, d1) /\
          runtime (ContainerStats h false) d1 = (Ok snap, d2) /\
          stats_of_snapshot snap = Ok figures) /\
    (stdout w' = stdout w \/
     exists msg, r = None /\
       stdout w' = stdout w ++ ["Error getting container stats: " +:+ msg]).
Proof.
  intros H0.
  destruct (runtime (ContainersGet cid) d0) as [[h|e] d1] eqn:Hget.
  - destruct (runtime (ContainerStats h false) d1) as [[snap|e] d2] eqn:Hstats.
    + eexists _, _. split; [apply (get_container_stats_snapshot _ _ _ _ _ _ _ H0 Hget Hstats)|].
      cbn [db stdout]. split; [reflexivity|]. split.
      * intros figures. split.
        -- intros Hr. exists h, d1, snap, d2.
           split; [reflexivity|]. split; [exact Hstats|].
           destruct (stats_of_snapshot snap); [|discriminate].
           injection Hr as ->. reflexivity.
        -- intros (h' & d1' & snap' & d2' & Hg & Hs & Hf).
           injection Hg as <- <-. rewrite Hstats in Hs. injection Hs as <- <-.
           rewrite Hf. reflexivity.
      * destruct (stats_of_snapshot snap) as [figures|e].
        -- left. apply app_nil_r.
        -- destruct (silent_failure e).
           ++ left. apply app_nil_r.
           ++ right. exists (exn_msg e). split; reflexivity.
    + eexists _, _. split; [apply (get_container_stats_stats_raise _ _ _ _ _ _ _ H0 Hget Hstats)|].
      cbn [db stdout]. split; [reflexivity|]. split.
      * intros figures. split; [discriminate|].
        intros (h' & d1' & snap' & d2' & Hg & Hs & _).
        injection Hg as <- <-. rewrite Hstats in Hs. discriminate.
      * destruct (silent_failure e).
        -- left. apply app_nil_r.
        -- right. exists (exn_msg e). split; reflexivity.
  - eexists _, _. split; [apply (get_container_stats_lookup_raise _ _ _ _ _ H0 Hget)|].
    cbn [db stdout]. split; [reflexivity|]. split.
    + intros figures. split; [discriminate|].
      intros (h' & d1' & snap' & d2' & Hg & _). discriminate.
    + destruct (silent_failure e).
      * left. apply app_nil_r.
      * right. exists (exn_msg e). split; reflexivity.
Qed.

(** X16: what [get_container_stats] does with an exception [e] raised
    after the client is obtained, be it by the lookup, by the snapshot
    or by the computation on the snapshot: it returns [None], and it
    prints [Error getting container stats: ] followed by the message of
    [e] unless [e] is a [NotFound], a [KeyError] or an
    [AttributeError], for which it prints nothing. *)
Theorem get_container_stats_failure cid (w : world D) d0 e :
  runtime FromEnv (docker w) = (Ok tt, d0) ->
  ((exists d1, runtime (ContainersGet cid) d0 = (Raise e, d1)) \/
   (exists h d1 d2,
       runtime (ContainersGet cid) d0 = (Ok h, d1) /\
       runtime (ContainerStats h false) d1 = (Raise e, d2)) \/
   (exists h d1 snap d2,
       runtime (ContainersGet cid) d0 = (Ok h, d1) /\
       runtime (ContainerStats h false) d1 = (Ok snap, d2) /\
       stats_of_snapshot snap = Raise e)) ->
  (get_container_stats cid w).1 = Ok None /\
  stdout (get_container_stats cid w).2
  = stdout w ++
    (if isinstance e NotFound || isinstance e KeyError || isinstance e AttributeError
     then []
     else ["Error getting container stats: " +:+ exn_msg e]).
Proof.
  intros H0 [(d1 & Hget)|[(h & d1 & d2 & Hget & Hstats)|(h & d1 & snap & d2 & Hget & Hstats & Hf)]].
  - rewrite (get_container_stats_lookup_raise _ _ _ _ _ H0 Hget). split; reflexivity.
  - rewrite (get_container_stats_stats_raise _ _ _ _ _ _ _ H0 Hget Hstats).
    split; reflexivity.
  - rewrite (get_container_stats_snapshot _ _ _ _ _ _ _ H0 Hget Hstats), Hf.
    split; reflexivity.
Qed.
End TelemetryFacts.

(** The computation up to the memory statistics. *)
Lemma stats_of_snapshot_memory (stats : json) cpu_delta system_delta cpu_usage mem :
  cpu_deltas stats = Ok (cpu_delta, system_delta) ->
  cpu_usage_of cpu_delta system_delta = Ok cpu_usage ->
  subscript stats "memory_stats" = Ok (JObj mem) ->
  stats_of_snapshot stats
  = (let memory_usage := from_option id (JInt 0) (dict_get "usage" mem) in
     let memory_limit := from_option id (JInt 1) (dict_get "limit" mem) in
     ratio ← py_truediv memory_usage memory_limit;
     megabytes ← py_truediv memory_usage (JInt (1024 * 1024));
     networks ← dot_get stats "networks" (JObj []);
     eth0 ← dot_get networks "eth0" (JObj []);
     rx ← dot_get eth0 "rx_bytes" (JInt 0);
     networks' ← dot_get stats "networks" (JObj []);
     eth0' ← dot_get networks' "eth0" (JObj []);
     tx ← dot_get eth0' "tx_bytes" (JInt 0);
     mret {| cpu_percent := py_round cpu_usage 2;
             memory_usage := py_round (PyFloat megabytes) 2;
             memory_percent := py_round (PyFloat (FMul ratio (FLit 100))) 2;
             network_rx := rx;
             network_tx := tx |}).
Proof.
  intros Hd Hu Hm. unfold stats_of_snapshot. rewrite Hd. cbn [mbind result_bind].
  rewrite Hu. cbn [mbind result_bind]. rewrite Hm. reflexivity.
Qed.

(** X17: a snapshot whose CPU counters compute and whose memory
    statistics carry neither [usage] nor [limit], with no [networks]
    entry: the defaults apply.  The memory figures are those of 0 bytes
    used out of a limit of 1, both network counters are 0, and nothing
    is raised. *)
Theorem stats_of_snapshot_defaults fields cpu_delta system_delta cpu_usage mem :
  cpu_deltas (JObj fields) = Ok (cpu_delta, system_delta) ->
  cpu_usage_of cpu_delta system_delta = Ok cpu_usage ->
  dict_get "memory_stats" fields = Some (JObj mem) ->
  dict_get "usage" mem = None ->
  dict_get "limit" mem = None ->
  dict_get "networks" fields = None ->
  stats_of_snapshot (JObj fields)
  = Ok {| cpu_percent := py_round cpu_usage 2;
          memory_usage := PyFloat (FRound (FTrueDiv 0 1048576) 2);
          memory_percent := PyFloat (FRound (FMul (FTrueDiv 0 1) (FLit 100)) 2);
          network_rx := JInt 0;
          network_tx := JInt 0 |}.
Proof.
  intros Hd Hu Hm Husage Hlimit Hnet.
  rewrite (stats_of_snapshot_memory _ _ _ _ mem Hd Hu)
    by (cbn [subscript]; rewrite Hm; reflexivity).
  rewrite Husage, Hlimit. cbn [dot_get]. rewrite Hnet. reflexivity.
Qed.

(** A memory limit of 0 with an integer [usage], or none: the division
    for the memory percentage raises. *)
Lemma stats_of_snapshot_zero_limit stats cpu_delta system_delta cpu_usage mem used :
  cpu_deltas stats = Ok (cpu_delta, system_delta) ->
  cpu_usage_of cpu_delta system_delta = Ok cpu_usage ->
  subscript stats "memory_stats" = Ok (JObj mem) ->
  from_option id (JInt 0) (dict_get "usage" mem) = JInt used ->
  dict_get "limit" mem = Some (JInt 0) ->
  stats_of_snapshot stats = error ZeroDivisionError "division by zero".
Proof.
  intros Hd Hu Hm Husage Hlimit.
  rewrite (stats_of_snapshot_memory _ _ _ _ mem Hd Hu Hm).
  rewrite Husage, Hlimit. reflexivity.
Qed.

Section SnapshotFailures.
Context {D : Type} `{!DockerRuntime D}.

(** X18: the daemon finds the container and reports a snapshot whose
    CPU counters compute and whose memory statistics carry a limit of 0
    (with an integer [usage], or none).  Then [get_container_stats]
    gives no figure at all: it returns [None] and prints
    [Error getting container stats: division by zero]. *)
Theorem get_container_stats_zero_limit cid (w : world D) d0 h d1 snap d2
    cpu_delta system_delta cpu_usage mem used :
  runtime FromEnv (docker w) = (Ok tt, d0) ->
  runtime (ContainersGet cid) d0 = (Ok h, d1) ->
  runtime (ContainerStats h false) d1 = (Ok snap, d2) ->
  cpu_deltas snap = Ok (cpu_delta, system_delta) ->
  cpu_usage_of cpu_delta system_delta = Ok cpu_usage ->
  subscript snap "memory_stats" = Ok (JObj mem) ->
  from_option id (JInt 0) (dict_get "usage" mem) = JInt used ->
  dict_get "limit" mem = Some (JInt 0) ->
  (get_container_stats cid w).1 = Ok None /\
  stdout (get_container_stats cid w).2
  = stdout w ++ ["Error getting container stats: division by zero"].
Proof.
  intros H0 Hget Hstats Hd Hu Hm Husage Hlimit.
  rewrite (get_container_stats_snapshot _ _ _ _ _ _ _ H0 Hget Hstats).
  rewrite (stats_of_snapshot_zero_limit _ _ _ _ _ _ Hd Hu Hm Husage Hlimit).
  split; reflexivity.
Qed.

(** X19: the daemon finds the container and reports a snapshot object
    that has no [cpu_stats] entry, or one whose [cpu_stats] has no
    [cpu_usage] entry.  Then [get_container_stats] returns [None] and
    prints nothing. *)
Theorem get_container_stats_missing_counters cid (w : world D) d0 h d1 fields d2 :
  runtime FromEnv (docker w) = (Ok tt, d0) ->
  runtime (ContainersGet cid) d0 = (Ok h, d1) ->
  runtime (ContainerStats h false) d1 = (Ok (JObj fields), d2) ->
  (dict_get "cpu_stats" fields = None \/
   exists cpu, dict_get "cpu_stats" fields = Some (JObj cpu) /\
               dict_get "cpu_usage" cpu = None) ->
  get_container_stats cid w
  = (Ok None,
     {| docker := d2; db := db w;
        trace := trace w ++ [FromEnv; ContainersGet cid; ContainerStats h false];
        stdout := stdout w; cwd := cwd w |}).
Proof.
  intros H0 Hget Hstats Hmiss.
  rewrite (get_container_stats_snapshot _ _ _ _ _ _ _ H0 Hget Hstats).
  assert (exists key, stats_of_snapshot (JObj fields) = error KeyError key) as [key ->].
  { unfold stats_of_snapshot, cpu_deltas. cbn [subscript].
    destruct Hmiss as [->|(cpu & -> & Hcpu)].
    - eexists. reflexivity.
    - cbn [mbind result_bind subscript]. rewrite Hcpu. eexists. reflexivity. }
  cbn. rewrite app_nil_r. reflexivity.
Qed.
End SnapshotFailures.

(** ** Status and logs *)

Lemma has_newline_snoc (cur : string) (c : ascii) :
  has_newline (snoc cur c)
  = (has_newline cur || ((byte c =? 10)%nat || (byte c =? 13)%nat)).
Proof.
  unfold snoc. induction cur as [|a cur IH]; simpl.
  - rewrite !orb_false_r. reflexivity.
  - rewrite IH, !orb_assoc. reflexivity.
Qed.

Lemma single_break_line_feed (c : ascii) :
  single_break c = false -> (byte c =? 10)%nat = false.
Proof.
  unfold single_break. intros H.
  destruct (byte c =? 10)%nat; [discriminate|reflexivity].
Qed.

(** No line that the loop of [splitlines] closes holds a line feed or a
    carriage return. *)
Lemma split_go_clean (n : nat) :
  forall s cur,
    (String.length s <= n)%nat ->
    has_newline cur = false ->
    Forall (fun l => has_newline l = false) (split_go s cur).
Proof.
  induction n as [|n IH]; intros s cur Hlen Hcur.
  - destruct s; [|simpl in Hlen; lia].
    simpl. destruct cur; [constructor|]. constructor; [exact Hcur|constructor].
  - destruct s as [|c0 s1].
    + simpl. destruct cur; [constructor|]. constructor; [exact Hcur|constructor].
    + simpl in Hlen.
      assert (Hnext : forall cur', has_newline cur' = false ->
                 Forall (fun l => has_newline l = false) (split_go s1 cur'))
        by (intros cur' H'; apply IH; [lia|exact H']).
      cbn [split_go].
      destruct (byte c0 =? 13)%nat eqn:E13.
      { destruct s1 as [|c1 s2].
        - constructor; [exact Hcur|]. apply Hnext. reflexivity.
        - destruct (byte c1 =? 10)%nat.
          + constructor; [exact Hcur|]. apply IH; [simpl in Hlen; lia|reflexivity].
          + constructor; [exact Hcur|]. apply Hnext. reflexivity. }
      destruct (single_break c0) eqn:Esb.
      { constructor; [exact Hcur|]. apply Hnext. reflexivity. }
      assert (Hsnoc : has_newline (snoc cur c0) = false).
      { rewrite has_newline_snoc, Hcur, E13, (single_break_line_feed _ Esb).
        reflexivity. }
      destruct (byte c0 =? 194)%nat.
      { destruct s1 as [|c1 s2].
        - apply Hnext. exact Hsnoc.
        - destruct (byte c1 =? 133)%nat.
          + constructor; [exact Hcur|]. apply IH; [simpl in Hlen; lia|reflexivity].
          + apply Hnext. exact Hsnoc. }
      destruct (byte c0 =? 226)%nat.
      { destruct s1 as [|c1 [|c2 s3]].
        - apply Hnext. exact Hsnoc.
        - apply Hnext. exact Hsnoc.
        - destruct ((byte c1 =? 128) && ((byte c2 =? 168) || (byte c2 =? 169)))%nat.
          + constructor; [exact Hcur|]. apply IH; [simpl in Hlen; lia|reflexivity].
          + apply Hnext. exact Hsnoc. }
      apply Hnext. exact Hsnoc.
Qed.

Lemma splitlines_clean (s : string) :
  Forall (fun l => has_newline l = false) (splitlines s).
Proof. apply (split_go_clean (String.length s)); [lia|reflexivity]. Qed.

Section StatusAndLogsFacts.
Context {D : Type} `{!DockerRuntime D} `{!DockerTelemetry D}.

(** X20: once the client is obtained, [get_container_status] never
    raises, prints nothing and leaves the session alone; it makes one
    more call, the lookup.  It returns the status of the handle found;
    [not found] when the lookup, or the reading of the status, raises a
    [NotFound]; and [error] for every other exception. *)
Theorem get_container_status_outcome cid (w : world D) d0 r d1 :
  runtime FromEnv (docker w) = (Ok tt, d0) ->
  runtime (ContainersGet cid) d0 = (r, d1) ->
  get_container_status cid w
  = (Ok (match r ≫= status_at d1 with
         | Ok status => status
         | Raise e => if isinstance e NotFound then "not found" else "error"
         end),
     {| docker := d1; db := db w; trace := trace w ++ [FromEnv; ContainersGet cid];
        stdout := stdout w; cwd := cwd w |}).
Proof.
  intros H0 Hget. unfold get_container_status.
  rewrite bind_run, docker_call_run, H0. cbn [fst snd].
  rewrite try_except_run, bind_run, docker_call_run. cbn [docker].
  rewrite Hget. cbn [fst snd].
  assert (Hh : forall e (w1 : world D),
             dispatch [ ([NotFound], fun _ => mret "not found");
                        ([Exception_], fun _ => mret "error") ] e w1
             = (Ok (if isinstance e NotFound then "not found" else "error"), w1)).
  { intros e w1. cbn [dispatch existsb]. rewrite orb_false_r.
    destruct (isinstance e NotFound); [reflexivity|].
    rewrite isinstance_Exception. reflexivity. }
  destruct r as [h|e]; cbn [mbind result_bind].
  - unfold container_status. cbn [docker].
    destruct (status_at d1 h) as [status|e].
    + cbn [docker db trace stdout cwd]. rewrite <- app_assoc. reflexivity.
    + rewrite Hh. cbn [docker db trace stdout cwd]. rewrite <- app_assoc. reflexivity.
  - rewrite Hh. cbn [docker db trace stdout cwd]. rewrite <- app_assoc. reflexivity.
Qed.

(** The two [except] clauses of [get_container_logs]. *)
Lemma logs_handlers_run (e : exn) (w : world D) :
  dispatch
    [ ([NotFound], fun _ => mret ([] : list string));
      ([Exception_], fun e =>
         print ("Error getting container logs: " +:+ str_exn e) ;; mret []) ]
    e w
  = (Ok [],
     {| docker := docker w; db := db w; trace := trace w;
        stdout := stdout w ++
                  (if isinstance e NotFound then []
                   else ["Error getting container logs: " +:+ exn_msg e]);
        cwd := cwd w |}).
Proof.
  cbn [dispatch existsb]. rewrite orb_false_r.
  destruct (isinstance e NotFound).
  - destruct w. cbn. rewrite app_nil_r. reflexivity.
  - rewrite isinstance_Exception. reflexivity.
Qed.

Lemma get_container_logs_raw cid lines (w : world D) d0 h d1 r d2 :
  runtime FromEnv (docker w) = (Ok tt, d0) ->
  runtime (ContainersGet cid) d0 = (Ok h, d1) ->
  container_logs h lines false d1 = (r, d2) ->
  get_container_logs cid lines w
  = (Ok (match r ≫= bytes_decode_utf8 with
         | Ok logs => splitlines logs
         | Raise _ => []
         end),
     {| docker := d2; db := db w; trace := trace w ++ [FromEnv; ContainersGet cid];
        stdout := stdout w ++
                  match r ≫= bytes_decode_utf8 with
                  | Ok _ => []
                  | Raise e =>
                      if isinstance e NotFound then []
                      else ["Error getting container logs: " +:+ exn_msg e]
                  end;
        cwd := cwd w |}).
Proof.
  intros H0 Hget Hlogs. unfold get_container_logs.
  rewrite bind_run, docker_call_run, H0. cbn [fst snd].
  rewrite try_except_run, bind_run, docker_call_run. cbn [docker].
  rewrite Hget. cbn [fst snd].
  rewrite bind_run. unfold logs_call at 1. cbn [docker]. rewrite Hlogs.
  destruct r as [raw|e]; cbn [mbind result_bind].
  - rewrite bind_run. unfold lift at 1.
    destruct (bytes_decode_utf8 raw) as [logs|e].
    + cbn. rewrite app_nil_r, <- app_assoc. reflexivity.
    + rewrite logs_handlers_run. cbn [docker db trace stdout cwd].
      rewrite <- app_assoc. reflexivity.
  - rewrite logs_handlers_run. cbn [docker db trace stdout cwd].
    rewrite <- app_assoc. reflexivity.
Qed.

Lemma get_container_logs_lookup_raise cid lines (w : world D) d0 e d1 :
  runtime FromEnv (docker w) = (Ok tt, d0) ->
  runtime (ContainersGet cid) d0 = (Raise e, d1) ->
  get_container_logs cid lines w
  = (Ok [],
     {| docker := d1; db := db w; trace := trace w ++ [FromEnv; ContainersGet cid];
        stdout := stdout w ++
                  (if isinstance e NotFound then []
                   else ["Error getting container logs: " +:+ exn_msg e]);
        cwd := cwd w |}).
Proof.
  intros H0 Hget. unfold get_container_logs.
  rewrite bind_run, docker_call_run, H0. cbn [fst snd].
  rewrite try_except_run, bind_run, docker_call_run. cbn [docker].
  rewrite Hget. cbn [fst snd]. rewrite logs_handlers_run.
  cbn [docker db trace stdout cwd]. rewrite <- app_assoc. reflexivity.
Qed.

(** X21: the client is obtained, the daemon finds the container and
    hands over its log as bytes.  Bytes that are well-formed UTF-8 come
    back split into lines, and nothing is printed.  Any other bytes
    make [get_container_logs] return the empty list and print one line
    that starts with [Error getting container logs: ]. *)
Theorem get_container_logs_decodes cid lines (w : world D) d0 h d1 raw d2 :
  runtime FromEnv (docker w) = (Ok tt, d0) ->
  runtime (ContainersGet cid) d0 = (Ok h, d1) ->
  container_logs h lines false d1 = (Ok raw, d2) ->
  (utf8_valid raw = true ->
   get_container_logs cid lines w
   = (Ok (splitlines raw),
      {| docker := d2; db := db w; trace := trace w ++ [FromEnv; ContainersGet cid];
         stdout := stdout w; cwd := cwd w |})) /\
  (utf8_valid raw = false ->
   exists msg,
     get_container_logs cid lines w
     = (Ok [],
        {| docker := d2; db := db w; trace := trace w ++ [FromEnv; ContainersGet cid];
           stdout := stdout w ++ ["Error getting container logs: " +:+ msg];
           cwd := cwd w |})).
Proof.
  intros H0 Hget Hlogs.
  rewrite (get_container_logs_raw _ _ _ _ _ _ _ _ H0 Hget Hlogs).
  cbn [mbind result_bind]. unfold bytes_decode_utf8. split; intros ->.
  - rewrite app_nil_r. reflexivity.
  - eexists. reflexivity.
Qed.

(** X22: once the client is obtained, an exception [e] raised by the
    lookup or by the reading of the log makes [get_container_logs]
    return the empty list; it prints nothing when [e] is a [NotFound]
    and [Error getting container logs: ] with the message of [e]
    otherwise.  The session is left as it was. *)
Theorem get_container_logs_failure cid lines (w : world D) d0 e :
  runtime FromEnv (docker w) = (Ok tt, d0) ->
  ((exists d1, runtime (ContainersGet cid) d0 = (Raise e, d1)) \/
   (exists h d1 d2,
       runtime (ContainersGet cid) d0 = (Ok h, d1) /\
       container_logs h lines false d1 = (Raise e, d2))) ->
  (get_container_logs cid lines w).1 = Ok [] /\
  stdout (get_container_logs cid lines w).2
  = stdout w ++ (if isinstance e NotFound then []
                 else ["Error getting container logs: " +:+ exn_msg e]) /\
  db (get_container_logs cid lines w).2 = db w.
Proof.
  intros H0 [(d1 & Hget)|(h & d1 & d2 & Hget & Hlogs)].
  - rewrite (get_container_logs_lookup_raise _ _ _ _ _ _ H0 Hget).
    split; [|split]; reflexivity.
  - rewrite (get_container_logs_raw _ _ _ _ _ _ _ _ H0 Hget Hlogs).
    split; [|split]; reflexivity.
Qed.

(** X23: whatever the daemon does, no line that [get_container_logs]
    returns holds a line feed or a carriage return. *)
Theorem get_container_logs_lines cid lines (w : world D) ls :
  (get_container_logs cid lines w).1 = Ok ls ->
  Forall (fun l => has_newline l = false) ls.
Proof.
  unfold get_container_logs. rewrite bind_run, docker_call_run.
  destruct (runtime FromEnv (docker w)) as [[[]|e] d0]; cbn [fst snd]; [|discriminate].
  rewrite try_except_run, bind_run, docker_call_run. cbn [docker].
  destruct (runtime (ContainersGet cid) d0) as [[h|e] d1]; cbn [fst snd].
  - rewrite bind_run. unfold logs_call at 1. cbn [docker].
    destruct (container_logs h lines false d1) as [[raw|e] d2].
    + rewrite bind_run. unfold lift at 1.
      destruct (bytes_decode_utf8 raw) as [logs|e].
      * cbn. intros [= <-]. apply splitlines_clean.
      * rewrite logs_handlers_run. cbn. intros [= <-]. constructor.
    + rewrite logs_handlers_run. cbn. intros [= <-]. constructor.
  - rewrite logs_handlers_run. cbn. intros [= <-]. constructor.
Qed.
End StatusAndLogsFacts.

(** X4 on the fresh daemon: the build of [cyber_42] prints its one
    step. *)
Lemma build_main_image_prints_streams_witness :
  exists w',
    build_main_image "cyber_42" Scenario.world0 = (Ok "cyber_42_cyber:latest", w') /\
    stdout w' = ["Step 1/1 : FROM python:3"].
Proof.
  destruct (build_main_image_prints_streams "cyber_42" Scenario.world0 Sim.fresh
              "cyber_42_cyber:latest"
              [[("stream", JStr "Step 1/1 : FROM python:3
")]; [("aux", JObj [("ID", JStr "cyber_42_cyber:latest")])]]
              _ eq_refl eq_refl
              ltac:(repeat constructor) ltac:(repeat constructor))
    as (w' & Hrun & Hout & _).
  exists w'. split; [exact Hrun|exact Hout].
Defined.

(** X5 on the daemon whose context does not build. *)
Lemma build_main_image_raises_witness :
  (build_main_image "cyber_7" Scenario.unbuildable).1
  = Raise {| exn_cls := Exception_;
             exn_msg := "Failed to build image for cyber_7: COPY failed: no source files were specified" |}.
Proof.
  exact (proj1 (build_main_image_raises "cyber_7" Scenario.unbuildable
                  _ _ _ eq_refl eq_refl)).
Defined.

(** X6 on the fresh daemon: the database container of tenant 42.  The
    network and the volume are created, nothing is removed. *)
Lemma deploy_postgres_container_calls_witness :
  exists created existing found,
    trace (deploy_postgres_container "cyber_42" "db1" "db_42" Scenario.world0).2
    = [FromEnv] ++ network_calls "cyber_42_network" created
        ++ [ContainersList true "cyber_42_postgres"]
        ++ removal_calls existing
        ++ [VolumesList "cyber_42_postgres_data"]
        ++ volume_calls "cyber_42_postgres_data" found
        ++ [ContainersRun
              (postgres_kwargs "cyber_42_postgres" "cyber_42_postgres_data"
                               "cyber_42_network" "db1" "db_42")].
Proof.
  assert (H : deploy_postgres_container "cyber_42" "db1" "db_42" Scenario.world0
              = (Ok (Sim.handle "cyber_42_postgres"),
                 (deploy_postgres_container "cyber_42" "db1" "db_42" Scenario.world0).2))
    by (vm_compute; reflexivity).
  destruct (deploy_postgres_container_calls "cyber_42" "db1" "db_42" Scenario.world0 _ _ H)
    as (d0 & created & existing & found & _ & Ht & _).
  exists created, existing, found. exact Ht.
Defined.

(** X7 on the fresh daemon: the application container of tenant 42. *)
Lemma deploy_main_container_calls_witness :
  exists created built existing,
    trace (deploy_main_container "cyber_42" 5042 "db1" "db_42" Scenario.world0).2
    = [FromEnv] ++ network_calls "cyber_42_network" created
        ++ image_calls "cyber_42_cyber:latest" built
        ++ [ContainersList true "cyber_42_cyber"]
        ++ removal_calls existing
        ++ [ContainersRun
              (main_kwargs "cyber_42_cyber:latest" "cyber_42_cyber"
                           "cyber_42_network" "cyber_42" 5042 "db1" "db_42")].
Proof.
  assert (H : deploy_main_container "cyber_42" 5042 "db1" "db_42" Scenario.world0
              = (Ok (Sim.handle "cyber_42_cyber"),
                 (deploy_main_container "cyber_42" 5042 "db1" "db_42" Scenario.world0).2))
    by (vm_compute; reflexivity).
  destruct (deploy_main_container_calls "cyber_42" 5042 "db1" "db_42" Scenario.world0 _ _ H)
    as (d0 & created & built & existing & _ & Ht & _).
  exists created, built, existing. exact Ht.
Defined.

(** X8 on the daemon whose context does not build: the [BuildError]
    of the build reaches the caller of the deployment as a plain
    [Exception], after the image was looked up. *)
Lemma deployment_wraps_api_errors_witness :
  exists e t,
    (deploy_main_container "cyber_7" 5007 "db1" "db_7" Scenario.unbuildable).1 = Raise e /\
    trace (deploy_main_container "cyber_7" 5007 "db1" "db_7" Scenario.unbuildable).2 = t /\
    ((exists created, t = [FromEnv] ++ network_calls "cyber_7_network" created)
     \/ t = [FromEnv]
     \/ (isinstance e APIError = false /\ In (ImagesGet "cyber_7_cyber:latest") t)).
Proof.
  assert (H : deploy_main_container "cyber_7" 5007 "db1" "db_7" Scenario.unbuildable
              = (Raise {| exn_cls := Exception_;
                          exn_msg := "Failed to build image for cyber_7: COPY failed: no source files were specified" |},
                 (deploy_main_container "cyber_7" 5007 "db1" "db_7" Scenario.unbuildable).2))
    by (vm_compute; reflexivity).
  destruct (proj2 (deployment_wraps_api_errors "cyber_7" 5007 "db1" "db_7"
                     Scenario.unbuildable) _ _ H) as (t & Ht & Hcases).
  eexists _, t. split; [rewrite H; reflexivity|]. split; [exact Ht|exact Hcases].
Defined.

(** X9 on the provisioned world: a second provisioning of tenant 42
    fails at the commit and leaves the table as it was. *)
Lemma create_container_failure_keeps_table_witness :
  rows (db (create_container 42 "pro" Scenario.provisioned).2)
  = rows (db Scenario.provisioned) /\
  commits (db (create_container 42 "pro" Scenario.provisioned).2)
  = commits (db Scenario.provisioned).
Proof.
  assert (H : create_container 42 "pro" Scenario.provisioned
              = (Ok None, (create_container 42 "pro" Scenario.provisioned).2))
    by (vm_compute; reflexivity).
  apply (create_container_failure_keeps_table 42 "pro" Scenario.provisioned _ _ H).
  intros name. discriminate.
Defined.

(** X11 on the provisioned world: stopping the application container
    of tenant 42. *)
Lemma manage_container_sets_status_witness :
  (manage_container "cyber_42_cyber" "stop" Scenario.provisioned).1 = Ok true /\
  rows (db (manage_container "cyber_42_cyber" "stop" Scenario.provisioned).2)
    !! "cyber_42_cyber"
  = Some (set_status "stopped" (main_columns 42 "basic")).
Proof.
  destruct (manage_container_sets_status "cyber_42_cyber" (main_columns 42 "basic")
              Scenario.provisioned (docker Scenario.provisioned)
              (Sim.handle "cyber_42_cyber") (docker Scenario.provisioned)
              (Sim.answer (ContainerStop (Sim.handle "cyber_42_cyber"))
                          (docker Scenario.provisioned)).2)
    as (_ & Hstop & _).
  - vm_compute. reflexivity.
  - vm_compute. reflexivity.
  - vm_compute. reflexivity.
  - vm_compute. reflexivity.
  - destruct Hstop as (w' & Hrun & _ & Hrow & _); [vm_compute; reflexivity|].
    rewrite Hrun. split; [reflexivity|exact Hrow].
Defined.

(** X13 on the provisioned world: removing the application container
    of tenant 42 leaves the record of the database container only. *)
Lemma manage_container_removes_witness :
  (manage_container "cyber_42_cyber" "remove" Scenario.provisioned).1 = Ok true /\
  rows (db (manage_container "cyber_42_cyber" "remove" Scenario.provisioned).2)
  = delete "cyber_42_cyber" (rows (db Scenario.provisioned)).
Proof.
  destruct (manage_container_removes "cyber_42_cyber" (main_columns 42 "basic")
              Scenario.provisioned (docker Scenario.provisioned)
              (Sim.handle "cyber_42_cyber") (docker Scenario.provisioned)
              (Sim.answer (ContainerRemove (Sim.handle "cyber_42_cyber") true)
                          (docker Scenario.provisioned)).2)
    as (w' & Hrun & Hrows & _).
  - vm_compute. reflexivity.
  - vm_compute. reflexivity.
  - vm_compute. reflexivity.
  - vm_compute. reflexivity.
  - vm_compute. reflexivity.
  - rewrite Hrun. split; [reflexivity|exact Hrows].
Defined.

(** X14 on the provisioned world: removing the application container
    of tenant 42 leaves the record of its database container alone. *)
Lemma manage_container_frame_witness :
  rows (db (manage_container "cyber_42_cyber" "remove" Scenario.provisioned).2)
    !! "cyber_42_postgres"
  = rows (db Scenario.provisioned) !! "cyber_42_postgres".
Proof.
  apply (proj1 (manage_container_frame "cyber_42_cyber" "remove" Scenario.provisioned
                  _ _ eq_refl (surjective_pairing _))).
  discriminate.
Defined.

(** X15 on the provisioned daemon reporting the busy snapshot. *)
Lemma get_container_stats_never_raises_witness :
  exists r w',
    get_container_stats "cyber_42_cyber" (Metering.metered Scenario.busy) = (Ok r, w') /\
    db w' = db (Metering.metered Scenario.busy).
Proof.
  assert (H0 : runtime FromEnv (docker (Metering.metered Scenario.busy))
               = (Ok tt, docker (Metering.metered Scenario.busy)))
    by (vm_compute; reflexivity).
  destruct (get_container_stats_never_raises "cyber_42_cyber"
              (Metering.metered Scenario.busy) _ H0) as (r & w' & Hrun & Hdb & _).
  exists r, w'. split; [exact Hrun|exact Hdb].
Defined.

(** X16 on the provisioned world: the statistics of a container that
    the daemon does not know. *)
Lemma get_container_stats_failure_witness :
  (get_container_stats "ghost" Scenario.provisioned).1 = Ok None /\
  stdout (get_container_stats "ghost" Scenario.provisioned).2
  = stdout Scenario.provisioned.
Proof.
  destruct (get_container_stats_failure "ghost" Scenario.provisioned
              (docker Scenario.provisioned)
              {| exn_cls := NotFound;
                 exn_msg := "404 Client Error: Not Found (ghost)" |})
    as (Hr & Hout).
  - vm_compute. reflexivity.
  - left. exists (docker Scenario.provisioned). vm_compute. reflexivity.
  - split; [exact Hr|]. rewrite Hout. apply app_nil_r.
Defined.

(** X17 on the bare snapshot. *)
Lemma stats_of_snapshot_defaults_witness :
  stats_of_snapshot Metering.bare
  = Ok {| cpu_percent := PyFloat (FRound (FMul (FTrueDiv 100 400) (FLit 100)) 2);
          memory_usage := PyFloat (FRound (FTrueDiv 0 1048576) 2);
          memory_percent := PyFloat (FRound (FMul (FTrueDiv 0 1) (FLit 100)) 2);
          network_rx := JInt 0;
          network_tx := JInt 0 |}.
Proof.
  apply (stats_of_snapshot_defaults _ 100 400
           (PyFloat (FMul (FTrueDiv 100 400) (FLit 100))) []);
    reflexivity.
Defined.

(** X18 on the provisioned daemon reporting a memory limit of 0. *)
Lemma get_container_stats_zero_limit_witness :
  (get_container_stats "cyber_42_cyber" (Metering.metered Metering.unlimited)).1
  = Ok None /\
  stdout (get_container_stats "cyber_42_cyber" (Metering.metered Metering.unlimited)).2
  = ["Error getting container stats: division by zero"].
Proof.
  apply (get_container_stats_zero_limit "cyber_42_cyber"
           (Metering.metered Metering.unlimited)
           (docker (Metering.metered Metering.unlimited))
           (Sim.handle "cyber_42_cyber")
           (docker (Metering.metered Metering.unlimited))
           Metering.unlimited
           (docker (Metering.metered Metering.unlimited))
           100 400 (PyFloat (FMul (FTrueDiv 100 400) (FLit 100)))
           [("usage", JInt 1048576); ("limit", JInt 0)] 1048576);
    vm_compute; reflexivity.
Defined.

(** X19 on the provisioned world, whose daemon reports an empty
    snapshot. *)
Lemma get_container_stats_missing_counters_witness :
  (get_container_stats "cyber_42_cyber" Scenario.provisioned).1 = Ok None /\
  stdout (get_container_stats "cyber_42_cyber" Scenario.provisioned).2
  = stdout Scenario.provisioned.
Proof.
  rewrite (get_container_stats_missing_counters "cyber_42_cyber" Scenario.provisioned
             (docker Scenario.provisioned) (Sim.handle "cyber_42_cyber")
             (docker Scenario.provisioned) [] (docker Scenario.provisioned)).
  - split; reflexivity.
  - vm_compute. reflexivity.
  - vm_compute. reflexivity.
  - vm_compute. reflexivity.
  - left. reflexivity.
Defined.

(** X20 on the provisioned world: a running container, a container
    that the daemon does not know, and a daemon whose handles carry no
    state. *)
Lemma get_container_status_outcome_witness :
  (get_container_status "cyber_42_cyber" Scenario.provisioned).1 = Ok "running" /\
  (get_container_status "ghost" Scenario.provisioned).1 = Ok "not found" /\
  (get_container_status "cyber_42_cyber" Garbled.provisioned).1 = Ok "error".
Proof.
  split; [|split].
  - rewrite (get_container_status_outcome "cyber_42_cyber" Scenario.provisioned
               (docker Scenario.provisioned) (Ok (Sim.handle "cyber_42_cyber"))
               (docker Scenario.provisioned));
      vm_compute; reflexivity.
  - rewrite (get_container_status_outcome "ghost" Scenario.provisioned
               (docker Scenario.provisioned) (Sim.not_found "ghost")
               (docker Scenario.provisioned));
      vm_compute; reflexivity.
  - rewrite (get_container_status_outcome "cyber_42_cyber" Garbled.provisioned
               (docker Garbled.provisioned) (Ok (Sim.handle "cyber_42_cyber"))
               (docker Garbled.provisioned));
      vm_compute; reflexivity.
Defined.

(** X21 on the provisioned world: the last five lines of a log of two
    lines, and a log that is no UTF-8. *)
Lemma get_container_logs_decodes_witness :
  (get_container_logs "cyber_42_cyber" 5 Scenario.provisioned).1
  = Ok ["Listening on 5000"; "ready"] /\
  exists msg,
    get_container_logs "cyber_42_cyber" 5 Garbled.provisioned
    = (Ok [],
       {| docker := docker Garbled.provisioned; db := db Garbled.provisioned;
          trace := [FromEnv; ContainersGet "cyber_42_cyber"];
          stdout := ["Error getting container logs: " +:+ msg];
          cwd := "/srv/app" |}).
Proof.
  split.
  - destruct (get_container_logs_decodes "cyber_42_cyber" 5 Scenario.provisioned
                (docker Scenario.provisioned) (Sim.handle "cyber_42_cyber")
                (docker Scenario.provisioned)
                ("Listening on 5000" +:+ SimTelemetry.line_feed
                 +:+ "ready" +:+ SimTelemetry.line_feed)
                (docker Scenario.provisioned)) as (Hvalid & _).
    + vm_compute. reflexivity.
    + vm_compute. reflexivity.
    + vm_compute. reflexivity.
    + rewrite Hvalid by (vm_compute; reflexivity). vm_compute. reflexivity.
  - destruct (get_container_logs_decodes "cyber_42_cyber" 5 Garbled.provisioned
                (docker Garbled.provisioned) (Sim.handle "cyber_42_cyber")
                (docker Garbled.provisioned)
                (String (ascii_of_nat 255) EmptyString)
                (docker Garbled.provisioned)) as (_ & Hbad).
    + vm_compute. reflexivity.
    + vm_compute. reflexivity.
    + vm_compute. reflexivity.
    + destruct Hbad as (msg & Hrun); [vm_compute; reflexivity|].
      exists msg. exact Hrun.
Defined.

(** X22 on the provisioned world: the log of a container that the
    daemon does not know. *)
Lemma get_container_logs_failure_witness :
  (get_container_logs "ghost" 5 Scenario.provisioned).1 = Ok [] /\
  stdout (get_container_logs "ghost" 5 Scenario.provisioned).2
  = stdout Scenario.provisioned.
Proof.
  destruct (get_container_logs_failure "ghost" 5 Scenario.provisioned
              (docker Scenario.provisioned)
              {| exn_cls := NotFound;
                 exn_msg := "404 Client Error: Not Found (ghost)" |})
    as (Hr & Hout & _).
  - vm_compute. reflexivity.
  - left. exists (docker Scenario.provisioned). vm_compute. reflexivity.
  - split; [exact Hr|]. rewrite Hout. apply app_nil_r.
Defined.

(** X23 on the provisioned world. *)
Lemma get_container_logs_lines_witness :
  Forall (fun l => has_newline l = false) ["Listening on 5000"; "ready"].
Proof.
  apply (get_container_logs_lines "cyber_42_cyber" 5 Scenario.provisioned).
  vm_compute. reflexivity.
Defined.
